(** * East-coast wind map backend: a shallow embedding of [backend/app.py]

    The development follows the Python module top to bottom: the duration
    grammar and [parse_valid_time], the unit table of [to_knots], the grid
    generator [create_ocean_grid], the per-point fetch [get_wind_data] with its
    nested [find_current_value], and the endpoint [ocean_wind_data].

    Conventions of the embedding.
    - A Python [str] is a [string]; its characters are code points below 256,
      where the regular-expression class [\d] is exactly ['0'..'9'].
    - A Python number is a rational [Q]: every numeric literal of the source
      denotes the same rational here and the arithmetic is exact (binary64
      rounding, infinities and NaN are outside the model).  Equality of
      numbers is [Qeq], as Python's [==] is equality of values.  A product
      of the endpoint, which no [try] of a fetch protects, is formed by
      [py_mul_float]: it raises when its [int] operand is beyond the range
      of [float].
    - A raised exception is the [Raise] constructor of [result]; a [while]
      loop is a fixpoint on a fuel argument and yields [None] when the fuel
      runs out before the loop condition fails.
    - Library functions whose code is not part of the repository
      ([datetime.fromisoformat], [math.cos], [requests.get], the wall clock,
      the [.4f] formatter) are parameters of the definitions that call them. *)

From Stdlib Require Import ZArith QArith Qabs Lqa Lia Bool Arith List String Ascii.
From Stdlib Require Import Sorted SetoidList ZifyNat.
Import ListNotations.

(** ** Exceptions and the error monad *)

Inductive exn : Type :=
| ValueError
| TypeError
| OverflowError
| ZeroDivisionError
| KeyError
| RequestException.

Inductive result (A : Type) : Type :=
| Ok (a : A)
| Raise (e : exn).

Arguments Ok {A} a.
Arguments Raise {A} e.

Definition bind {A B : Type} (c : result A) (k : A -> result B) : result B :=
  match c with
  | Ok a => k a
  | Raise e => Raise e
  end.

Notation "x <- c ;; k" := (bind c (fun x => k))
  (at level 61, c at next level, right associativity).

(** [try: body except Exception: return None] *)
Definition try_except_None {A : Type} (body : result A) : option A :=
  match body with
  | Ok a => Some a
  | Raise _ => None
  end.

(** ** String operations used by [parse_valid_time] *)

Open Scope string_scope.

(** ["/" in s] *)
Fixpoint contains_char (c : ascii) (s : string) : bool :=
  match s with
  | EmptyString => false
  | String d rest => if Ascii.eqb d c then true else contains_char c rest
  end.

(** [s.split(c, 1)] on a string that contains [c]: the text before the first
    [c] and the text after it.  Without a [c] the whole string is the first
    component. *)
Fixpoint split_once (c : ascii) (s : string) : string * string :=
  match s with
  | EmptyString => (EmptyString, EmptyString)
  | String d rest =>
      if Ascii.eqb d c then (EmptyString, rest)
      else let (l, r) := split_once c rest in (String d l, r)
  end.

(** [s.replace("Z", "+00:00")] *)
Fixpoint replace_Z (s : string) : string :=
  match s with
  | EmptyString => EmptyString
  | String d rest =>
      if Ascii.eqb d "Z" then "+00:00" ++ replace_Z rest
      else String d (replace_Z rest)
  end.

(** [not s] for a string *)
Definition str_falsy (s : string) : bool :=
  match s with
  | EmptyString => true
  | _ => false
  end.

(** ** The duration grammar [VALID_TIME_DURATION]

    [P(?:(?P<days>\d+)D)?(?:T(?:(?P<hours>\d+)H)?(?:(?P<minutes>\d+)M)?(?:(?P<seconds>\d+)S)?)?]

    Every optional group is a maximal run of digits closed by its own
    designator letter, so matching needs no backtracking: a group is taken
    exactly when the digits in front are followed by its letter. *)

Definition is_digit (c : ascii) : bool :=
  let n := nat_of_ascii c in
  (48 <=? n)%nat && (n <=? 57)%nat.

(** The longest prefix of digits, and what follows it. *)
Fixpoint span_digits (s : string) : string * string :=
  match s with
  | EmptyString => (EmptyString, EmptyString)
  | String c rest =>
      if is_digit c
      then let (ds, r) := span_digits rest in (String c ds, r)
      else (EmptyString, s)
  end.

(** [(?:(\d+)X)?] at the head of [s]: the captured digits, if the group
    takes part in the match, and the text left to match. *)
Definition opt_group (designator : ascii) (s : string) : option string * string :=
  match span_digits s with
  | (String d ds, String c rest) =>
      if Ascii.eqb c designator then (Some (String d ds), rest) else (None, s)
  | _ => (None, s)
  end.

(** [match.groupdict()]: a group that did not take part is [None]. *)
Record groupdict : Type := {
  g_days : option string;
  g_hours : option string;
  g_minutes : option string;
  g_seconds : option string
}.

(** [VALID_TIME_DURATION.fullmatch(s)] *)
Definition fullmatch (s : string) : option groupdict :=
  match s with
  | String "P" s1 =>
      let (days, s2) := opt_group "D" s1 in
      match s2 with
      | EmptyString =>
          Some {| g_days := days; g_hours := None;
                  g_minutes := None; g_seconds := None |}
      | String "T" s3 =>
          let (hours, s4) := opt_group "H" s3 in
          let (minutes, s5) := opt_group "M" s4 in
          let (seconds, s6) := opt_group "S" s5 in
          match s6 with
          | EmptyString =>
              Some {| g_days := days; g_hours := hours;
                      g_minutes := minutes; g_seconds := seconds |}
          | _ => None
          end
      | _ => None
      end
  | _ => None
  end.

(** ** [int(value)] on a run of decimal digits *)

Open Scope Z_scope.

Definition digit_value (c : ascii) : Z := Z.of_nat (nat_of_ascii c) - 48.

Fixpoint int_of_digits_acc (acc : Z) (s : string) : Z :=
  match s with
  | EmptyString => acc
  | String c rest => int_of_digits_acc (10 * acc + digit_value c) rest
  end.

Definition int_of_digits (s : string) : Z := int_of_digits_acc 0 s.

(** ** [timedelta] and [datetime]

    A [timedelta] is its length in microseconds.  A [datetime] is its wall
    clock reading in microseconds since 0001-01-01T00:00:00 together with
    the UTC offset of its [tzinfo] (in microseconds), [None] for a naive
    value. *)

Definition US_PER_SECOND : Z := 1000000.
Definition SECONDS_PER_DAY : Z := 86400.
Definition MAX_DELTA_DAYS : Z := 999999999.

(** [date(9999, 12, 31).toordinal()] *)
Definition MAXORDINAL : Z := 3652059.

(** [timedelta(days=, hours=, minutes=, seconds=)]: the constructor raises
    [OverflowError] when the normalised number of days has a magnitude over
    999999999. *)
Definition timedelta (days hours minutes seconds : Z) : result Z :=
  let total_seconds := days * 86400 + hours * 3600 + minutes * 60 + seconds in
  let d := total_seconds / SECONDS_PER_DAY in
  if (- MAX_DELTA_DAYS <=? d) && (d <=? MAX_DELTA_DAYS)
  then Ok (total_seconds * US_PER_SECOND)
  else Raise OverflowError.

Record datetime : Type := {
  wall : Z;
  utcoffset : option Z
}.

(** [dt + delta]: the wall clock moves, the [tzinfo] is kept, and a result
    outside years 1 to 9999 raises [OverflowError]. *)
Definition datetime_add (dt : datetime) (delta : Z) : result datetime :=
  let w := wall dt + delta in
  if (0 <=? w) && (w <? MAXORDINAL * SECONDS_PER_DAY * US_PER_SECOND)
  then Ok {| wall := w; utcoffset := utcoffset dt |}
  else Raise OverflowError.

(** Order comparisons: two naive values compare by wall clock, two aware
    values by instant, and a naive value against an aware one raises
    [TypeError]. *)
Definition datetime_cmp (op : Z -> Z -> bool) (a b : datetime) : result bool :=
  match utcoffset a, utcoffset b with
  | None, None => Ok (op (wall a) (wall b))
  | Some oa, Some ob => Ok (op (wall a - oa) (wall b - ob))
  | _, _ => Raise TypeError
  end.

Definition datetime_le : datetime -> datetime -> result bool := datetime_cmp Z.leb.
Definition datetime_lt : datetime -> datetime -> result bool := datetime_cmp Z.ltb.

(** [datetime.now(timezone.utc)] when the clock reads [t]. *)
Definition utc_now (t : Z) : datetime := {| wall := t; utcoffset := Some 0 |}.

(** ** [parse_valid_time] *)

Section ParseValidTime.

(** [datetime.fromisoformat]: [None] stands for its [ValueError]. *)
Variable fromisoformat : string -> option datetime.

(** [sys.get_int_max_str_digits()]: [int] raises [ValueError] on more
    digits than this; 0 switches the limit off (and stands for the
    interpreters that have none). *)
Variable int_max_str_digits : nat.

(** [int(value) if value else 0] for a value of [groupdict()] *)
Definition group_int (value : option string) : result Z :=
  match value with
  | None => Ok 0
  | Some ds =>
      if (0 <? int_max_str_digits)%nat && (int_max_str_digits <? String.length ds)%nat
      then Raise ValueError
      else Ok (int_of_digits ds)
  end.

Definition parse_valid_time (valid_time : string)
  : result (option datetime * option datetime) :=
  if str_falsy valid_time || negb (contains_char "/" valid_time)
  then Ok (None, None)
  else
    let (start_str, duration_str) := split_once "/" valid_time in
    match fromisoformat (replace_Z start_str) with
    | None => Ok (None, None)
    | Some start_dt =>
        match fullmatch duration_str with
        | None => Ok (Some start_dt, None)
        | Some m =>
            days <- group_int (g_days m) ;;
            hours <- group_int (g_hours m) ;;
            minutes <- group_int (g_minutes m) ;;
            seconds <- group_int (g_seconds m) ;;
            duration_delta <- timedelta days hours minutes seconds ;;
            if duration_delta =? 0
            then Ok (None, None)
            else
              end_dt <- datetime_add start_dt duration_delta ;;
              Ok (Some start_dt, Some end_dt)
        end
    end.

End ParseValidTime.

(** ** An instance of [datetime.fromisoformat]

    The examples below run [parse_valid_time] on the provider's own notation,
    [YYYY-MM-DDTHH:MM:SS] followed by nothing (a naive value) or by an offset
    [+HH:MM] or [-HH:MM] (an aware value).  [fromisoformat_nws] is the
    library function on that notation and [None] on every other string. *)

Definition is_leap (y : Z) : bool :=
  (y mod 4 =? 0) && (negb (y mod 100 =? 0) || (y mod 400 =? 0)).

Definition days_in_month (y m : Z) : Z :=
  if m =? 2 then (if is_leap y then 29 else 28)
  else if (m =? 4) || (m =? 6) || (m =? 9) || (m =? 11) then 30
  else 31.

Definition days_before_year (y : Z) : Z :=
  let p := y - 1 in
  p * 365 + p / 4 - p / 100 + p / 400.

Fixpoint days_before_month_aux (y : Z) (months : nat) : Z :=
  match months with
  | O => 0
  | S k => days_before_month_aux y k + days_in_month y (Z.of_nat (S k))
  end.

(** Days of year [y] that lie before its month [m]. *)
Definition days_before_month (y m : Z) : Z :=
  days_before_month_aux y (Z.to_nat (m - 1)).

(** [date(y, m, d).toordinal()] *)
Definition ymd_to_ordinal (y m d : Z) : Z :=
  days_before_year y + days_before_month y m + d.

Definition two_digits (a b : ascii) : option Z :=
  if is_digit a && is_digit b
  then Some (10 * digit_value a + digit_value b)
  else None.

Definition four_digits (a b c d : ascii) : option Z :=
  match two_digits a b, two_digits c d with
  | Some hi, Some lo => Some (100 * hi + lo)
  | _, _ => None
  end.

(** The offset suffix: [Some None] for no suffix, [Some (Some o)] for a
    well-formed one, [None] for anything else. *)
Definition parse_offset (s : string) : option (option Z) :=
  match s with
  | EmptyString => Some None
  | String sg (String a (String b (String c1 (String c (String d EmptyString))))) =>
      match two_digits a b, two_digits c d with
      | Some hh, Some mm =>
          if Ascii.eqb c1 ":" && (hh <? 24) && (mm <? 60)
          then
            let o := (hh * 3600 + mm * 60) * US_PER_SECOND in
            if Ascii.eqb sg "+" then Some (Some o)
            else if Ascii.eqb sg "-" then Some (Some (- o))
            else None
          else None
      | _, _ => None
      end
  | _ => None
  end.

Definition fromisoformat_nws (s : string) : option datetime :=
  match s with
  | String y1 (String y2 (String y3 (String y4 (String q1
    (String m1 (String m2 (String q2
    (String d1 (String d2 (String q3
    (String h1 (String h2 (String q4
    (String n1 (String n2 (String q5
    (String s1 (String s2 tz)))))))))))))))))) =>
      match four_digits y1 y2 y3 y4, two_digits m1 m2, two_digits d1 d2 with
      | Some y, Some m, Some d =>
          match two_digits h1 h2, two_digits n1 n2, two_digits s1 s2 with
          | Some hh, Some mi, Some ss =>
              if Ascii.eqb q1 "-" && Ascii.eqb q2 "-" && Ascii.eqb q3 "T"
                 && Ascii.eqb q4 ":" && Ascii.eqb q5 ":"
                 && (1 <=? y) && (1 <=? m) && (m <=? 12)
                 && (1 <=? d) && (d <=? days_in_month y m)
                 && (hh <? 24) && (mi <? 60) && (ss <? 60)
              then
                match parse_offset tz with
                | Some off =>
                    Some {| wall := ((ymd_to_ordinal y m d - 1) * SECONDS_PER_DAY
                                     + hh * 3600 + mi * 60 + ss) * US_PER_SECOND;
                            utcoffset := off |}
                | None => None
                end
              else None
          | _, _, _ => None
          end
      | _, _, _ => None
      end
  | _ => None
  end.

(** ** [to_knots] *)

Open Scope Q_scope.

Definition unit_multipliers : list (string * Q) :=
  [ ("wmoUnit:km_h-1", 0.539957);
    ("wmoUnit:m_s-1", 1.94384);
    ("wmoUnit:knot", 1.0);
    ("unit:km_h", 0.539957);
    ("unit:m_s", 1.94384);
    ("unit:kt", 1.0) ].

(** [d.get(key)] on a dictionary with string keys; a key of [None] is in no
    such dictionary. *)
Fixpoint dict_get {V : Type} (d : list (string * V)) (key : string) : option V :=
  match d with
  | [] => None
  | (k, v) :: rest => if String.eqb k key then Some v else dict_get rest key
  end.

Definition dict_get_opt {V : Type} (d : list (string * V)) (key : option string)
  : option V :=
  match key with
  | Some k => dict_get d k
  | None => None
  end.

Definition to_knots (speed_value : option Q) (unit_code : option string) : option Q :=
  match speed_value with
  | None => None
  | Some v =>
      match dict_get_opt unit_multipliers unit_code with
      | None => Some v
      | Some multiplier => Some (v * multiplier)
      end
  end.

(** ** The sampling grid *)

Record bounds : Type := {
  north : Q;
  south : Q;
  west : Q;
  east : Q
}.

Definition EAST_COAST_BOUNDS : bounds :=
  {| north := 45.0; south := 24.0; west := -82.0; east := -65.0 |}.

Definition Qlt_bool (x y : Q) : bool := negb (Qle_bool y x).

(** [a / b] on numbers: a zero divisor raises [ZeroDivisionError] before any
    quotient is formed. *)
Definition py_div (a b : Q) : result Q :=
  if Qeq_bool b 0 then Raise ZeroDivisionError else Ok (a / b).

(** [math.pi], and [math.radians], which multiplies by [pi / 180]. *)
Definition pi : Q := 3.141592653589793.
Definition radians (x : Q) : Q := x * (pi / 180).

(** The test that guards [points.append]: ocean areas east of the coast. *)
Definition ocean (current_lat current_lon : Q) : bool :=
  Qlt_bool current_lon (-75.0)
  || (Qlt_bool 35.0 current_lat && Qlt_bool current_lon (-70.0)).

Section Grid.

(** [math.cos] *)
Variable cos : Q -> Q.

Definition km_to_deg_lat (km : Q) : result Q := py_div km 111.32.

Definition km_to_deg_lon (km lat : Q) : result Q :=
  py_div km (111.32 * cos (radians lat)).

(** The inner [while current_lon <= east] loop of one row; [points] is the
    list the loop appends to. *)
Fixpoint lon_loop (fuel : nat) (current_lat lon_step current_lon : Q)
  (points : list (Q * Q)) : option (list (Q * Q)) :=
  match fuel with
  | O => None
  | S fuel' =>
      if Qle_bool current_lon (east EAST_COAST_BOUNDS)
      then
        lon_loop fuel' current_lat lon_step (current_lon + lon_step)
          (if ocean current_lat current_lon
           then (points ++ [(current_lat, current_lon)])%list
           else points)
      else Some points
  end.

(** The outer [while current_lat <= north] loop.  Every loop may run for
    [fuel] iterations. *)
Fixpoint lat_loop (fuel : nat) (rows : nat) (lat_step current_lat : Q)
  (points : list (Q * Q)) : option (result (list (Q * Q))) :=
  match rows with
  | O => None
  | S rows' =>
      if Qle_bool current_lat (north EAST_COAST_BOUNDS)
      then
        match km_to_deg_lon 10 current_lat with
        | Raise e => Some (Raise e)
        | Ok lon_step =>
            match lon_loop fuel current_lat lon_step
                    (west EAST_COAST_BOUNDS) points with
            | None => None
            | Some points' =>
                lat_loop fuel rows' lat_step (current_lat + lat_step) points'
            end
        end
      else Some (Ok points)
  end.

Definition create_ocean_grid (fuel : nat) : option (result (list (Q * Q))) :=
  let grid_spacing_km := 10 in
  match km_to_deg_lat grid_spacing_km with
  | Raise e => Some (Raise e)
  | Ok lat_step =>
      lat_loop fuel fuel lat_step (south EAST_COAST_BOUNDS) []
  end.

End Grid.

(** ** The provider's documents *)

(** One entry of a time series: [item.get('validTime', '')] and
    [item.get('value')]. *)
Record item : Type := {
  validTime : string;
  value : option Q
}.

(** A series object: [.get('values', [])] and [.get('uom')]; a key that is
    missing is [None]. *)
Record series : Type := {
  values : option (list item);
  uom : option string
}.

Record properties : Type := {
  windSpeed : option series;
  windDirection : option series
}.

(** The document of the first request; the field is
    [points_data['properties']['forecastGridData']], [None] when a key on
    that path is missing. *)
Record points_data : Type := {
  forecastGridData : option string
}.

(** The document of the second request: [grid_data['properties']]. *)
Record grid_data : Type := {
  grid_properties : option properties
}.

(** What [requests.get] returns: the status code and the outcome of
    [.json()], read at the shape the caller expects. *)
Record response (A : Type) : Type := {
  status_code : Z;
  json : result A
}.

Arguments status_code {A} r.
Arguments json {A} r.

(** [d[key]] *)
Definition getitem {A : Type} (field : option A) : result A :=
  match field with
  | Some a => Ok a
  | None => Raise KeyError
  end.

(** [properties.get(name, {})] and [series.get('values', [])] *)
Definition empty_series : series := {| values := None; uom := None |}.

Definition get_series (field : option series) : series :=
  match field with
  | Some s => s
  | None => empty_series
  end.

Definition get_values (s : series) : list item :=
  match values s with
  | Some l => l
  | None => []
  end.

(** The dictionary [get_wind_data] returns. *)
Record wind_data : Type := {
  wd_speed_kt : option Q;
  wd_direction : option Q;
  wd_lat : Q;
  wd_lon : Q
}.

Definition NWS_BASE : string := "https://api.weather.gov".

(** ** [get_wind_data] and its nested [find_current_value] *)

Section Fetch.

Variable fromisoformat : string -> option datetime.
Variable int_max_str_digits : nat.

(** [f"{x:.4f}"] *)
Variable format_4f : Q -> string.

(** [requests.get(url, headers=get_headers(), timeout=10)] for the two
    requests of a fetch; [Raise] is a transport error or a timeout. *)
Variable get_points : string -> result (response points_data).
Variable get_grid : string -> result (response grid_data).

(** [now] is the variable of the enclosing [get_wind_data]. *)
Fixpoint find_current_value (now : datetime) (values : list item)
  : result (option Q) :=
  match values with
  | [] => Ok None
  | item :: rest =>
      interval <- parse_valid_time fromisoformat int_max_str_digits
                    (validTime item) ;;
      match interval with
      | (Some start_dt, Some end_dt) =>
          after_start <- datetime_le start_dt now ;;
          if after_start
          then
            before_end <- datetime_lt now end_dt ;;
            if before_end
            then Ok (value item)
            else find_current_value now rest
          else find_current_value now rest
      | _ => find_current_value now rest
      end
  end.

(** The body of the [try] block; [Ok None] is one of its [return None]. *)
Definition get_wind_data_body (clock : Z) (lat lon : Q)
  : result (option wind_data) :=
  let points_url :=
    (NWS_BASE ++ "/points/" ++ format_4f lat ++ "," ++ format_4f lon)%string in
  response <- get_points points_url ;;
  if negb (status_code response =? 200)%Z
  then Ok None
  else
    points_data <- json response ;;
    grid_url <- getitem (forecastGridData points_data) ;;
    grid_response <- get_grid grid_url ;;
    if negb (status_code grid_response =? 200)%Z
    then Ok None
    else
      grid_data <- json grid_response ;;
      properties <- getitem (grid_properties grid_data) ;;
      let now := utc_now clock in
      wind_speed_value <-
        find_current_value now (get_values (get_series (windSpeed properties))) ;;
      let wind_speed_uom := uom (get_series (windSpeed properties)) in
      wind_direction <-
        find_current_value now
          (get_values (get_series (windDirection properties))) ;;
      let wind_speed_kt := to_knots wind_speed_value wind_speed_uom in
      Ok (Some {| wd_speed_kt := wind_speed_kt;
                  wd_direction := wind_direction;
                  wd_lat := lat;
                  wd_lon := lon |}).

(** [clock] is the reading of the wall clock during this call. *)
Definition get_wind_data (clock : Z) (lat lon : Q) : option wind_data :=
  match get_wind_data_body clock lat lon with
  | Ok r => r
  | Raise _ => None
  end.

End Fetch.

(** ** The endpoint [ocean_wind_data] *)

(** The [properties] and the [coordinates] of one feature of the output;
    a JSON [null] is [None]. *)
Record feature : Type := {
  coordinates : Q * Q;
  speed_kt : option Q;
  dir_from_deg : option Q;
  speed_mph : Q;
  speed_kmh : Q
}.

(** What the endpoint answers: the feature collection, or the error
    document with status 500. *)
Inductive reply : Type :=
| FeatureCollection (features : list feature)
| Error500 (e : exn).

(** The variables of the [for] loop.  [dispatched] is not in the source: it
    records the arguments of every call of [get_wind_data], in call order. *)
Record loop_state : Type := {
  wind_features : list feature;
  dispatched : list (Q * Q)
}.

(** [enumerate(l)] *)
Definition enumerate {A : Type} (l : list A) : list (nat * A) :=
  combine (seq 0 (List.length l)) l.

(** No [float] has a magnitude of [2^1024 - 2^970] or more: this is half a
    unit in the last place above the largest [float], where the conversion
    of an [int] stops rounding down to it.  A number of that magnitude is
    therefore an [int]. *)
Definition FLOAT_LIMIT : Q := inject_Z (2 ^ 1024 - 2 ^ 970).

Definition beyond_float (x : Q) : bool := Qle_bool FLOAT_LIMIT (Qabs x).

(** [x * c] for a float literal [c].  An [int] [x] is converted to [float]
    before the product is formed, and the conversion raises [OverflowError]
    (int too large to convert to float) beyond the range of [float]. *)
Definition py_mul_float (x c : Q) : result Q :=
  if beyond_float x then Raise OverflowError else Ok (x * c).

Section Aggregate.

Variable cos : Q -> Q.
Variable fromisoformat : string -> option datetime.
Variable int_max_str_digits : nat.
Variable format_4f : Q -> string.
Variable get_points : string -> result (response points_data).
Variable get_grid : string -> result (response grid_data).

(** The wall clock read by the fetch of the point with index [i]. *)
Variable clock : nat -> Z.

Definition fetch (i : nat) (lat lon : Q) : option wind_data :=
  get_wind_data fromisoformat int_max_str_digits format_4f
    get_points get_grid (clock i) lat lon.

(** The loop variables after one iteration of
    [for i, (lat, lon) in enumerate(grid_points[:100])] that returns; the
    iteration with the exception of its products is [loop_step] below. *)
Definition loop_body (st : loop_state) (entry : nat * (Q * Q)) : loop_state :=
  let '(i, (lat, lon)) := entry in
  if (i mod 5 =? 0)%nat
  then
    let features' :=
      match fetch i lat lon with
      | Some wind_data =>
          match wd_speed_kt wind_data with
          | Some kt =>
              (wind_features st ++
               [ {| coordinates := (lon, lat);
                    speed_kt := wd_speed_kt wind_data;
                    dir_from_deg := wd_direction wind_data;
                    speed_mph := kt * 1.15078;
                    speed_kmh := kt * 1.852 |} ])%list
          | None => wind_features st
          end
      | None => wind_features st
      end in
    {| wind_features := features';
       dispatched := (dispatched st ++ [(lat, lon)])%list |}
  else st.

(** The loop variables at the end of a loop all of whose iterations
    return. *)
Definition run_loop (grid_points : list (Q * Q)) : loop_state :=
  fold_left loop_body (enumerate (firstn 100 grid_points))
    {| wind_features := []; dispatched := [] |}.

(** One iteration of the loop as the source has it: the two products of the
    feature are outside the [try] of [get_wind_data], and the exception of
    one of them ends the iteration. *)
Definition loop_step (st : loop_state) (entry : nat * (Q * Q))
  : result loop_state :=
  let '(i, (lat, lon)) := entry in
  if (i mod 5 =? 0)%nat
  then
    let calls := (dispatched st ++ [(lat, lon)])%list in
    match fetch i lat lon with
    | Some wind_data =>
        match wd_speed_kt wind_data with
        | Some kt =>
            mph <- py_mul_float kt 1.15078 ;;
            kmh <- py_mul_float kt 1.852 ;;
            Ok {| wind_features :=
                    (wind_features st ++
                     [ {| coordinates := (lon, lat);
                          speed_kt := wd_speed_kt wind_data;
                          dir_from_deg := wd_direction wind_data;
                          speed_mph := mph;
                          speed_kmh := kmh |} ])%list;
                  dispatched := calls |}
        | None => Ok {| wind_features := wind_features st; dispatched := calls |}
        end
    | None => Ok {| wind_features := wind_features st; dispatched := calls |}
    end
  else Ok st.

(** The [for] loop: the first iteration that raises ends it. *)
Fixpoint for_loop (entries : list (nat * (Q * Q))) (st : loop_state)
  : result loop_state :=
  match entries with
  | [] => Ok st
  | entry :: rest =>
      st' <- loop_step st entry ;;
      for_loop rest st'
  end.

(** The endpoint.  Its [except Exception] answers an exception of the grid
    generator or of the loop with the error document. *)
Definition ocean_wind_data (fuel : nat) : option reply :=
  match create_ocean_grid cos fuel with
  | None => None
  | Some (Raise e) => Some (Error500 e)
  | Some (Ok grid_points) =>
      match for_loop (enumerate (firstn 100 grid_points))
              {| wind_features := []; dispatched := [] |} with
      | Ok st => Some (FeatureCollection (wind_features st))
      | Raise e => Some (Error500 e)
      end
  end.

End Aggregate.

(** * Vocabulary of the statements *)

(** A string of decimal digits. *)
Fixpoint all_digits (s : string) : bool :=
  match s with
  | EmptyString => true
  | String c rest => is_digit c && all_digits rest
  end.

(** A group of the duration pattern holds digits only. *)
Definition digits_or_none (g : option string) : Prop :=
  match g with
  | Some ds => all_digits ds = true
  | None => True
  end.

Section IntervalVocabulary.

Variable fromisoformat : string -> option datetime.
Variable int_max_str_digits : nat.

(** What lines 50 to 60 of [parse_valid_time] make of the text after the
    separator: [None] when it does not match the grammar, otherwise the
    outcome of building the [timedelta]. *)
Definition decode_duration (duration_str : string) : option (result Z) :=
  match fullmatch duration_str with
  | None => None
  | Some m =>
      Some (days <- group_int int_max_str_digits (g_days m) ;;
            hours <- group_int int_max_str_digits (g_hours m) ;;
            minutes <- group_int int_max_str_digits (g_minutes m) ;;
            seconds <- group_int int_max_str_digits (g_seconds m) ;;
            timedelta days hours minutes seconds)
  end.

(** The string has a separator, and so a left and a right part. *)
Definition has_separator (valid_time : string) : bool :=
  negb (str_falsy valid_time) && contains_char "/" valid_time.

Definition left_part (valid_time : string) : string :=
  fst (split_once "/" valid_time).

Definition right_part (valid_time : string) : string :=
  snd (split_once "/" valid_time).

(** The start timestamp of the string, as [parse_valid_time] reads it. *)
Definition start_of (valid_time : string) : option datetime :=
  fromisoformat (replace_Z (left_part valid_time)).

(** The result of [parse_valid_time] lacks a start or an end. *)
Definition unusable (r : option datetime * option datetime) : Prop :=
  fst r = None \/ snd r = None.

End IntervalVocabulary.

(** ** Selection of the current value, in the words of the specification *)

Section SelectionVocabulary.

Variable fromisoformat : string -> option datetime.
Variable int_max_str_digits : nat.

(** The instant an aware [datetime] denotes, in microseconds on the UTC
    time line; a naive value denotes none. *)
Definition instant_of (dt : datetime) : option Z :=
  match utcoffset dt with
  | Some o => Some (wall dt - o)%Z
  | None => None
  end.

(** The resolved interval of an entry: the instants of its start and end. *)
Definition resolved_interval (entry : item) : option (Z * Z) :=
  match parse_valid_time fromisoformat int_max_str_digits (validTime entry) with
  | Ok (Some start_dt, Some end_dt) =>
      match instant_of start_dt, instant_of end_dt with
      | Some s, Some e => Some (s, e)
      | _, _ => None
      end
  | _ => None
  end.

(** [start <= reference < end] *)
Definition is_current (reference : Z) (entry : item) : bool :=
  match resolved_interval entry with
  | Some (s, e) => (s <=? reference)%Z && (reference <? e)%Z
  | None => false
  end.

(** The value of the first entry, in series order, whose resolved interval
    holds the reference instant; absent when there is none. *)
Definition select_current (reference : Z) (series : list item) : option Q :=
  match List.find (is_current reference) series with
  | Some entry => value entry
  | None => None
  end.

(** The scan goes past the entry without raising: parsing returns, and the
    entry either has no concrete interval or has one of instants that does
    not hold the reference. *)
Definition passed_over (reference : Z) (entry : item) : bool :=
  match parse_valid_time fromisoformat int_max_str_digits (validTime entry) with
  | Ok (Some start_dt, Some end_dt) =>
      match instant_of start_dt with
      | Some _ => negb (is_current reference entry)
      | None => false
      end
  | Ok _ => true
  | Raise _ => false
  end.

End SelectionVocabulary.

(** ** Sample data for the examples *)

(** 2024-01-01T00:00:00Z, in microseconds since 0001-01-01T00:00:00Z. *)
Definition NEW_YEAR_2024 : Z := 63839664000000000.

Definition SIX_HOURS : Z := 6 * 3600 * US_PER_SECOND.

Definition entry_night : item :=
  {| validTime := "2024-01-01T00:00:00+00:00/PT6H"; value := Some 10 |}.

Definition entry_morning : item :=
  {| validTime := "2024-01-01T06:00:00+00:00/PT6H"; value := Some 12 |}.

(** No offset in the timestamp: [fromisoformat] gives a naive value. *)
Definition entry_naive : item :=
  {| validTime := "2024-01-01T00:00:00/PT6H"; value := Some 3 |}.

(** The right-hand side lacks the leading [P]. *)
Definition entry_open_ended : item :=
  {| validTime := "2024-01-01T00:00:00+00:00/6H"; value := Some 4 |}.

Definition entry_zero : item :=
  {| validTime := "2024-01-01T00:00:00Z/P0D"; value := Some 5 |}.

(** ** Vocabulary of the grid *)

(** The point lies in the bounding region. *)
Definition in_region (p : Q * Q) : Prop :=
  (south EAST_COAST_BOUNDS <= fst p <= north EAST_COAST_BOUNDS)%Q /\
  (west EAST_COAST_BOUNDS <= snd p <= east EAST_COAST_BOUNDS)%Q.

(** The inclusion test, as a proposition on a (latitude, longitude) pair. *)
Definition in_ocean (p : Q * Q) : Prop :=
  (snd p < -75.0 \/ (35.0 < fst p /\ snd p < -70.0))%Q.

(** Two pairs are equal as Python tuples of numbers. *)
Definition same_coordinate (p q : Q * Q) : Prop :=
  (fst p == fst q /\ snd p == snd q)%Q.

(** Row by row, and west to east within a row. *)
Definition generated_before (p q : Q * Q) : Prop :=
  (fst p < fst q \/ (fst p == fst q /\ snd p < snd q))%Q.

(** A cosine for the examples: the constant 1/100, under which a row of the
    grid holds one or two points. *)
Definition coarse_cos : Q -> Q := fun _ => 1 # 100.

(** The generator returned a grid. *)
Definition returns_grid (r : option (result (list (Q * Q)))) : bool :=
  match r with
  | Some (Ok _) => true
  | _ => false
  end.

(** A cosine that vanishes, for the example of the failing division. *)
Definition zero_cos : Q -> Q := fun _ => 0.

(** ** Vocabulary of the aggregation *)

(** Every fifth element of a list whose first element has index [i]: the
    elements at the indices that are multiples of 5. *)
Fixpoint every_fifth {A : Type} (i : nat) (l : list A) : list A :=
  match l with
  | [] => []
  | x :: rest =>
      if (i mod 5 =? 0)%nat
      then x :: every_fifth (S i) rest
      else every_fifth (S i) rest
  end.

(** The fetch gave nothing to emit: it failed, or its speed is [None]. *)
Definition nothing_to_emit (r : option wind_data) : Prop :=
  match r with
  | Some wd => wd_speed_kt wd = None
  | None => True
  end.

(** The fetch came back with a speed that [float] can hold. *)
Definition has_float_speed (r : option wind_data) : Prop :=
  exists wd kt,
    r = Some wd /\ wd_speed_kt wd = Some kt /\ beyond_float kt = false.

(** ** A sample provider for the examples *)

Definition sample_format : Q -> string := fun _ => "0.0000".

Definition sample_points_response : response points_data :=
  {| status_code := 200;
     json := Ok {| forecastGridData :=
                     Some "https://api.weather.gov/gridpoints/AKQ/90,50" |} |}.

(** A speed of 10 m/s valid for the first six hours of 2024, and no
    direction entry at all. *)
Definition sample_properties : properties :=
  {| windSpeed := Some {| values := Some [entry_night];
                          uom := Some "wmoUnit:m_s-1" |};
     windDirection := Some {| values := Some []; uom := None |} |}.

Definition sample_grid_response : response grid_data :=
  {| status_code := 200;
     json := Ok {| grid_properties := Some sample_properties |} |}.

Definition sample_get_points : string -> result (response points_data) :=
  fun _ => Ok sample_points_response.

Definition sample_get_grid : string -> result (response grid_data) :=
  fun _ => Ok sample_grid_response.

(** A provider that cannot be reached. *)
Definition failing_get_points : string -> result (response points_data) :=
  fun _ => Raise RequestException.

(** The clock stands at 2024-01-01T00:00:00Z for every fetch. *)
Definition sample_clock : nat -> Z := fun _ => NEW_YEAR_2024.

(** A provider whose current speed is the integer [2^1024], with no unit:
    [to_knots] passes it on as it is. *)
Definition entry_huge : item :=
  {| validTime := "2024-01-01T00:00:00+00:00/PT6H";
     value := Some (inject_Z (2 ^ 1024)) |}.

Definition huge_properties : properties :=
  {| windSpeed := Some {| values := Some [entry_huge]; uom := None |};
     windDirection := Some {| values := Some []; uom := None |} |}.

Definition huge_get_grid : string -> result (response grid_data) :=
  fun _ => Ok {| status_code := 200;
                 json := Ok {| grid_properties := Some huge_properties |} |}.

(** * Vocabulary of the further properties *)

(** ** Texts of the duration grammar *)

(** A captured group holds digits, at least one. *)
Definition valid_group (g : option string) : Prop :=
  match g with
  | Some ds => ds <> EmptyString /\ all_digits ds = true
  | None => True
  end.

(** The text of a group in front of [rest]: its digits and its designator
    letter, or nothing when the group is absent. *)
Definition with_group (g : option string) (designator : ascii) (rest : string)
  : string :=
  match g with
  | Some ds => (ds ++ String designator rest)%string
  | None => rest
  end.

(** The text of the time groups, after the letter [T]. *)
Definition time_text (m : groupdict) : string :=
  with_group (g_hours m) "H"
    (with_group (g_minutes m) "M" (with_group (g_seconds m) "S" EmptyString)).

(** A duration text with the groups of [m]; [time_part] says whether the
    letter [T] and the time groups are written. *)
Definition duration_text (m : groupdict) (time_part : bool) : string :=
  String "P"
    (with_group (g_days m) "D"
       (if time_part then String "T" (time_text m) else EmptyString)).

(** [int(value) if value else 0] without the limit on the digits. *)
Definition group_value (g : option string) : Z :=
  match g with
  | Some ds => int_of_digits ds
  | None => 0%Z
  end.

(** The seconds a match stands for. *)
Definition groups_seconds (m : groupdict) : Z :=
  (group_value (g_days m) * 86400 + group_value (g_hours m) * 3600
   + group_value (g_minutes m) * 60 + group_value (g_seconds m))%Z.

(** ** Positions of the grid *)

(** The value of a loop variable that started at [start] after [k]
    additions of [step]. *)
Definition stepped (start step : Q) (k : nat) : Q :=
  Nat.iter k (fun x => x + step) start.

(** What a row appends during [n] iterations that begin at longitude
    [lon]. *)
Fixpoint row_points (lat lon_step lon : Q) (n : nat) : list (Q * Q) :=
  match n with
  | O => []
  | S n' =>
      (if ocean lat lon then [(lat, lon)] else [])
      ++ row_points lat lon_step (lon + lon_step) n'
  end.

(** The step between two rows: [km_to_deg_lat(10)]. *)
Definition LAT_STEP : Q := 10 / 111.32.

(** A cosine that is negative, for the example of the row that never
    ends. *)
Definition negative_cos : Q -> Q := fun _ => -1.

(** The pair [p] is the ocean point of row [k] at its position [j]: the
    latitude is [k] steps north of the south edge and not north of the
    region, the longitude is [j] steps of that row east of the west edge
    and not east of the region, and the inclusion test holds. *)
Definition grid_position (cos : Q -> Q) (k j : nat) (p : Q * Q) : Prop :=
  exists lon_step,
    km_to_deg_lon cos 10 (stepped (south EAST_COAST_BOUNDS) LAT_STEP k)
      = Ok lon_step /\
    stepped (south EAST_COAST_BOUNDS) LAT_STEP k <= north EAST_COAST_BOUNDS /\
    stepped (west EAST_COAST_BOUNDS) lon_step j <= east EAST_COAST_BOUNDS /\
    ocean (stepped (south EAST_COAST_BOUNDS) LAT_STEP k)
          (stepped (west EAST_COAST_BOUNDS) lon_step j) = true /\
    p = (stepped (south EAST_COAST_BOUNDS) LAT_STEP k,
         stepped (west EAST_COAST_BOUNDS) lon_step j).

(** ** Vocabulary of the run *)

(** [sub] is [l] with some elements left out, the others in place. *)
Inductive subsequence {A : Type} : list A -> list A -> Prop :=
| subsequence_nil : subsequence [] []
| subsequence_skip (x : A) (sub l : list A) :
    subsequence sub l -> subsequence sub (x :: l)
| subsequence_take (x : A) (sub l : list A) :
    subsequence sub l -> subsequence (x :: sub) (x :: l).

(** The grid point a feature was made for: its [coordinates] are
    [[lon, lat]]. *)
Definition feature_point (f : feature) : Q * Q :=
  (snd (coordinates f), fst (coordinates f)).

(** The fetch came back with a speed. *)
Definition has_speed (r : option wind_data) : Prop :=
  exists wd kt, r = Some wd /\ wd_speed_kt wd = Some kt.

Section RunVocabulary.

Variable fromisoformat : string -> option datetime.
Variable int_max_str_digits : nat.
Variable format_4f : Q -> string.
Variable get_points : string -> result (response points_data).
Variable get_grid : string -> result (response grid_data).
Variable clock : nat -> Z.

(** What one entry of the enumeration adds to [wind_features]. *)
Definition emitted (entry : nat * (Q * Q)) : list feature :=
  let '(i, (lat, lon)) := entry in
  if (i mod 5 =? 0)%nat
  then
    match fetch fromisoformat int_max_str_digits format_4f
            get_points get_grid clock i lat lon with
    | Some wind_data =>
        match wd_speed_kt wind_data with
        | Some kt =>
            [ {| coordinates := (lon, lat);
                 speed_kt := wd_speed_kt wind_data;
                 dir_from_deg := wd_direction wind_data;
                 speed_mph := kt * 1.15078;
                 speed_kmh := kt * 1.852 |} ]
        | None => []
        end
    | None => []
    end
  else [].

End RunVocabulary.

(** The feature of the sample provider at the south-west corner. *)
Definition corner_feature : feature :=
  {| coordinates := (-82.0, 24.0);
     speed_kt := Some (10 * 1.94384);
     dir_from_deg := None;
     speed_mph := 10 * 1.94384 * 1.15078;
     speed_kmh := 10 * 1.94384 * 1.852 |}.

(** ** Vocabulary of the fetch *)

Section FetchVocabulary.

Variable fromisoformat : string -> option datetime.
Variable int_max_str_digits : nat.

(** The scan of the series meets, in front of any match, an entry that is
    neither passed over nor current: an entry that raises. *)
Definition raises_in (reference : Z) (entries : list item) : Prop :=
  exists pre entry post,
    entries = (pre ++ entry :: post)%list /\
    forallb (passed_over fromisoformat int_max_str_digits reference) pre = true /\
    passed_over fromisoformat int_max_str_digits reference entry = false /\
    is_current fromisoformat int_max_str_digits reference entry = false.

(** Every entry of the series is passed over or current: the scan does not
    raise. *)
Definition scans_cleanly (reference : Z) (entries : list item) : Prop :=
  forallb (fun entry =>
             passed_over fromisoformat int_max_str_digits reference entry
             || is_current fromisoformat int_max_str_digits reference entry)
    entries = true.

End FetchVocabulary.

(** The URL of the first request of a fetch. *)
Definition points_url (format_4f : Q -> string) (lat lon : Q) : string :=
  (NWS_BASE ++ "/points/" ++ format_4f lat ++ "," ++ format_4f lon)%string.

(** A provider whose direction series holds a naive timestamp. *)
Definition naive_direction_properties : properties :=
  {| windSpeed := Some {| values := Some [entry_night];
                          uom := Some "wmoUnit:m_s-1" |};
     windDirection := Some {| values := Some [entry_naive]; uom := None |} |}.

Definition naive_direction_get_grid : string -> result (response grid_data) :=
  fun _ => Ok {| status_code := 200;
                 json := Ok {| grid_properties := Some naive_direction_properties |} |}.

(** A provider that answers the first request with status 404. *)
Definition not_found_get_points : string -> result (response points_data) :=
  fun _ => Ok {| status_code := 404; json := Raise ValueError |}.

(** * Properties *)

(** ** The error monad *)

Lemma bind_Ok_inv (A B : Type) (c : result A) (k : A -> result B) (b : B) :
  bind c k = Ok b -> exists a, c = Ok a /\ k a = Ok b.
Proof.
  destruct c as [a | e]; simpl; intros H.
  - exists a; split; [reflexivity | exact H].
  - discriminate H.
Qed.

Ltac bind_inv H :=
  let a := fresh "a" in
  let Ha := fresh "Hbind" in
  apply bind_Ok_inv in H; destruct H as [a [Ha H]].

(** ** Digits and the duration grammar *)

Lemma digit_value_nonneg (c : ascii) :
  is_digit c = true -> (0 <= digit_value c)%Z.
Proof.
  unfold is_digit, digit_value; cbv zeta; intros H.
  apply andb_true_iff in H; destruct H as [H _].
  apply Nat.leb_le in H. lia.
Qed.

Lemma int_of_digits_acc_nonneg (s : string) :
  forall acc, all_digits s = true -> (0 <= acc)%Z ->
  (0 <= int_of_digits_acc acc s)%Z.
Proof.
  induction s as [| c rest IH]; cbn [int_of_digits_acc all_digits];
    intros acc Hd Hacc.
  - exact Hacc.
  - apply andb_true_iff in Hd; destruct Hd as [Hc Hrest].
    apply IH; [exact Hrest |].
    pose proof (digit_value_nonneg c Hc). lia.
Qed.

Lemma int_of_digits_nonneg (s : string) :
  all_digits s = true -> (0 <= int_of_digits s)%Z.
Proof.
  intros H; unfold int_of_digits.
  apply int_of_digits_acc_nonneg; [exact H | lia].
Qed.

Lemma span_digits_all_digits (s : string) :
  forall ds r, span_digits s = (ds, r) -> all_digits ds = true.
Proof.
  induction s as [| c rest IH]; simpl; intros ds r H.
  - inversion H; reflexivity.
  - destruct (is_digit c) eqn:Hc.
    + destruct (span_digits rest) as [ds' r'] eqn:Hs.
      inversion H; subst; simpl.
      rewrite Hc; simpl. eapply IH; reflexivity.
    + inversion H; reflexivity.
Qed.

Lemma opt_group_digits (c : ascii) (s : string) (g : option string) (r : string) :
  opt_group c s = (g, r) -> digits_or_none g.
Proof.
  unfold opt_group.
  destruct (span_digits s) as [ds rest] eqn:Hs.
  destruct ds as [| d ds']; [intros H; inversion H; exact I |].
  destruct rest as [| x rest']; [intros H; inversion H; exact I |].
  destruct (Ascii.eqb x c); intros H; inversion H; subst; [| exact I].
  exact (span_digits_all_digits _ _ _ Hs).
Qed.

Lemma fullmatch_digits (s : string) (m : groupdict) :
  fullmatch s = Some m ->
  digits_or_none (g_days m) /\ digits_or_none (g_hours m) /\
  digits_or_none (g_minutes m) /\ digits_or_none (g_seconds m).
Proof.
  unfold fullmatch.
  destruct s as [| p s1]; [discriminate |].
  destruct (Ascii.eqb p "P") eqn:Hp;
    [apply Ascii.eqb_eq in Hp; subst p |].
  - destruct (opt_group "D" s1) as [days s2] eqn:Hd.
    apply opt_group_digits in Hd.
    destruct s2 as [| t s3].
    + intros H; inversion H; subst; simpl; auto.
    + destruct (Ascii.eqb t "T") eqn:Ht;
        [apply Ascii.eqb_eq in Ht; subst t |].
      * destruct (opt_group "H" s3) as [hours s4] eqn:Hh.
        destruct (opt_group "M" s4) as [minutes s5] eqn:Hm.
        destruct (opt_group "S" s5) as [seconds s6] eqn:Hsec.
        apply opt_group_digits in Hh, Hm, Hsec.
        destruct s6; [| discriminate].
        intros H; inversion H; subst; simpl; auto.
      * intros H. exfalso.
        destruct t as [[] [] [] [] [] [] [] []]; try discriminate H.
        discriminate Ht.
  - intros H. exfalso.
    destruct p as [[] [] [] [] [] [] [] []]; try discriminate H.
    discriminate Hp.
Qed.

(** ** [parse_valid_time] *)

Section ParseFacts.

Variable fromisoformat : string -> option datetime.
Variable int_max_str_digits : nat.

Local Abbreviation parse := (parse_valid_time fromisoformat int_max_str_digits).
Local Abbreviation decode := (decode_duration int_max_str_digits).
Local Abbreviation start_of' := (start_of fromisoformat).

Lemma group_int_nonneg (g : option string) (n : Z) :
  digits_or_none g -> group_int int_max_str_digits g = Ok n -> (0 <= n)%Z.
Proof.
  destruct g as [ds |]; simpl; intros Hd H.
  - destruct (_ && _); [discriminate |].
    inversion H; subst. apply int_of_digits_nonneg; exact Hd.
  - inversion H; lia.
Qed.

Lemma timedelta_Ok (d h m s delta : Z) :
  timedelta d h m s = Ok delta ->
  delta = ((d * 86400 + h * 3600 + m * 60 + s) * US_PER_SECOND)%Z.
Proof.
  unfold timedelta; cbv zeta.
  destruct (_ && _); intros H; inversion H; reflexivity.
Qed.

Lemma decode_duration_nonneg (duration_str : string) (delta : Z) :
  decode duration_str = Some (Ok delta) -> (0 <= delta)%Z.
Proof.
  unfold decode_duration.
  destruct (fullmatch duration_str) as [m |] eqn:Hm; [| discriminate].
  apply fullmatch_digits in Hm; destruct Hm as (Hd & Hh & Hmi & Hs).
  intros H; inversion H as [H']; clear H.
  bind_inv H'. rename a into days.
  bind_inv H'. rename a into hours.
  bind_inv H'. rename a into minutes.
  bind_inv H'. rename a into seconds.
  apply timedelta_Ok in H'; subst delta.
  pose proof (group_int_nonneg _ _ Hd Hbind).
  pose proof (group_int_nonneg _ _ Hh Hbind0).
  pose proof (group_int_nonneg _ _ Hmi Hbind1).
  pose proof (group_int_nonneg _ _ Hs Hbind2).
  unfold US_PER_SECOND; lia.
Qed.

(** [parse_valid_time] read through [decode_duration]. *)
Lemma parse_valid_time_unfold (valid_time : string) :
  parse valid_time =
  if has_separator valid_time
  then
    match start_of' valid_time with
    | None => Ok (None, None)
    | Some start_dt =>
        match decode (right_part valid_time) with
        | None => Ok (Some start_dt, None)
        | Some d =>
            duration_delta <- d ;;
            if (duration_delta =? 0)%Z
            then Ok (None, None)
            else
              end_dt <- datetime_add start_dt duration_delta ;;
              Ok (Some start_dt, Some end_dt)
        end
    end
  else Ok (None, None).
Proof.
  unfold parse_valid_time, has_separator, start_of, left_part, right_part,
    decode_duration.
  destruct (str_falsy valid_time); simpl; [reflexivity |].
  destruct (contains_char "/" valid_time); simpl; [| reflexivity].
  destruct (split_once "/" valid_time) as [start_str duration_str]; simpl.
  destruct (fromisoformat (replace_Z start_str)) as [start_dt |]; [| reflexivity].
  destruct (fullmatch duration_str) as [m |]; [| reflexivity].
  destruct (group_int int_max_str_digits (g_days m)); [| reflexivity].
  destruct (group_int int_max_str_digits (g_hours m)); [| reflexivity].
  destruct (group_int int_max_str_digits (g_minutes m)); [| reflexivity].
  destruct (group_int int_max_str_digits (g_seconds m)); reflexivity.
Qed.

Lemma datetime_add_Ok (dt dt' : datetime) (delta : Z) :
  datetime_add dt delta = Ok dt' ->
  wall dt' = (wall dt + delta)%Z /\ utcoffset dt' = utcoffset dt.
Proof.
  unfold datetime_add; cbv zeta.
  destruct (_ && _); intros H; inversion H; subst; simpl; auto.
Qed.

(** A pair with both components comes from the last line of the function:
    a timestamp that parsed, a duration that is not zero. *)
Lemma parse_valid_time_concrete (valid_time : string) (start_dt end_dt : datetime) :
  parse valid_time = Ok (Some start_dt, Some end_dt) ->
  exists delta,
    has_separator valid_time = true /\
    start_of' valid_time = Some start_dt /\
    decode (right_part valid_time) = Some (Ok delta) /\
    (0 < delta)%Z /\
    wall end_dt = (wall start_dt + delta)%Z /\
    utcoffset end_dt = utcoffset start_dt.
Proof.
  rewrite parse_valid_time_unfold.
  destruct (has_separator valid_time); [| discriminate].
  destruct (start_of' valid_time) as [sd |]; [| discriminate].
  destruct (decode (right_part valid_time)) as [[delta | e] |] eqn:Hd;
    simpl; try discriminate.
  destruct (delta =? 0)%Z eqn:Hz; [discriminate |].
  apply Z.eqb_neq in Hz.
  intros H; bind_inv H. inversion H; subst.
  apply datetime_add_Ok in Hbind; destruct Hbind as [Hw Ho].
  pose proof (decode_duration_nonneg _ _ Hd).
  exists delta; repeat split; auto; lia.
Qed.

End ParseFacts.

(** ** [find_current_value] *)

Section FindFacts.

Variable fromisoformat : string -> option datetime.
Variable int_max_str_digits : nat.

Local Abbreviation parse := (parse_valid_time fromisoformat int_max_str_digits).
Local Abbreviation find_value := (find_current_value fromisoformat int_max_str_digits).
Local Abbreviation interval := (resolved_interval fromisoformat int_max_str_digits).
Local Abbreviation current := (is_current fromisoformat int_max_str_digits).
Local Abbreviation passed := (passed_over fromisoformat int_max_str_digits).

(** An entry whose parse lacks a start or an end is skipped. *)
Lemma find_skips_unusable (now : datetime) (entry : item) (rest : list item)
  (r : option datetime * option datetime) :
  parse (validTime entry) = Ok r -> unusable r ->
  find_value now (entry :: rest) = find_value now rest.
Proof.
  intros Hp Hu; simpl; rewrite Hp; simpl.
  destruct r as [[sd |] [ed |]]; try reflexivity.
  destruct Hu as [Hu | Hu]; discriminate Hu.
Qed.

Lemma resolved_interval_inv (entry : item) (s e : Z) :
  interval entry = Some (s, e) ->
  exists start_dt end_dt o,
    parse (validTime entry) = Ok (Some start_dt, Some end_dt) /\
    utcoffset start_dt = Some o /\ utcoffset end_dt = Some o /\
    s = (wall start_dt - o)%Z /\ e = (wall end_dt - o)%Z /\ (s < e)%Z.
Proof.
  unfold resolved_interval, instant_of.
  destruct (parse (validTime entry)) as [[[sd |] [ed |]] | ex] eqn:Hp;
    try discriminate.
  destruct (parse_valid_time_concrete _ _ _ _ _ Hp)
    as (delta & _ & _ & _ & Hpos & Hw & Ho).
  rewrite Ho.
  destruct (utcoffset sd) as [o |] eqn:Hso; [| discriminate].
  intros H; inversion H; subst.
  exists sd, ed, o; repeat split; auto; try congruence; lia.
Qed.

(** One step of the scan at an entry with an interval of instants. *)
Lemma find_step (t : Z) (entry : item) (rest : list item) (s e : Z) :
  interval entry = Some (s, e) ->
  find_value (utc_now t) (entry :: rest) =
  if (s <=? t)%Z && (t <? e)%Z
  then Ok (value entry)
  else find_value (utc_now t) rest.
Proof.
  intros H.
  destruct (resolved_interval_inv _ _ _ H)
    as (sd & ed & o & Hp & Hso & Heo & -> & -> & _).
  simpl; rewrite Hp; simpl.
  unfold datetime_le, datetime_lt, datetime_cmp; simpl.
  rewrite Hso, Heo; simpl.
  rewrite Z.sub_0_r.
  destruct (wall sd - o <=? t)%Z; simpl; [| reflexivity].
  destruct (t <? wall ed - o)%Z; reflexivity.
Qed.

Lemma find_passes_over (t : Z) (entry : item) (rest : list item) :
  passed t entry = true ->
  find_value (utc_now t) (entry :: rest) = find_value (utc_now t) rest.
Proof.
  unfold passed_over.
  destruct (parse (validTime entry)) as [[[sd |] [ed |]] | ex] eqn:Hp;
    try discriminate;
    try solve [intros _; eapply find_skips_unusable; [exact Hp |];
               unfold unusable; simpl; auto].
  destruct (instant_of sd) as [s |] eqn:Hs; [| discriminate].
  intros Hc; apply negb_true_iff in Hc.
  unfold is_current in Hc.
  destruct (interval entry) as [[s' e'] |] eqn:Hi.
  - rewrite (find_step t entry rest _ _ Hi), Hc; reflexivity.
  - exfalso. unfold resolved_interval in Hi. rewrite Hp, Hs in Hi.
    destruct (parse_valid_time_concrete _ _ _ _ _ Hp)
      as (delta & _ & _ & _ & _ & _ & Ho).
    unfold instant_of in Hi, Hs. rewrite Ho in Hi.
    destruct (utcoffset sd); discriminate.
Qed.

Lemma find_selects (t : Z) (entry : item) (rest : list item) :
  current t entry = true ->
  find_value (utc_now t) (entry :: rest) = Ok (value entry).
Proof.
  unfold is_current.
  destruct (interval entry) as [[s e] |] eqn:Hi; [| discriminate].
  intros Hc. rewrite (find_step t entry rest _ _ Hi), Hc; reflexivity.
Qed.

Lemma find_passes_over_all (t : Z) (pre rest : list item) :
  forallb (passed t) pre = true ->
  find_value (utc_now t) (pre ++ rest) = find_value (utc_now t) rest.
Proof.
  induction pre as [| x pre IH]; intros H; [reflexivity |].
  simpl in H; apply andb_true_iff in H; destruct H as [Hx Hpre].
  change ((x :: pre) ++ rest)%list with (x :: (pre ++ rest))%list.
  rewrite (find_passes_over t x _ Hx). apply IH; exact Hpre.
Qed.

Lemma find_raises (t : Z) (entry : item) (rest : list item) :
  passed t entry = false -> current t entry = false ->
  exists ex, find_value (utc_now t) (entry :: rest) = Raise ex.
Proof.
  unfold passed_over.
  destruct (parse (validTime entry)) as [[[sd |] [ed |]] | ex] eqn:Hp;
    try discriminate.
  - destruct (instant_of sd) as [s |] eqn:Hs.
    + intros H1 H2. rewrite H2 in H1; discriminate H1.
    + intros _ _. exists TypeError.
      simpl; rewrite Hp; simpl.
      unfold instant_of in Hs.
      unfold datetime_le, datetime_cmp; simpl.
      destruct (utcoffset sd); [discriminate | reflexivity].
  - intros _ _. exists ex. simpl; rewrite Hp; reflexivity.
Qed.

Lemma passed_over_not_current (t : Z) (entry : item) :
  passed t entry = true -> current t entry = false.
Proof.
  unfold passed_over, is_current, resolved_interval.
  destruct (parse (validTime entry)) as [[[sd |] [ed |]] | ex];
    try reflexivity; try discriminate.
  destruct (instant_of sd); [| discriminate].
  intros H; apply negb_true_iff in H; exact H.
Qed.

Lemma find_refines_select (t : Z) (series : list item) :
  forallb (fun entry => passed t entry || current t entry) series = true ->
  find_value (utc_now t) series = Ok (select_current fromisoformat int_max_str_digits t series).
Proof.
  unfold select_current.
  induction series as [| x rest IH]; intros H; [reflexivity |].
  cbn [forallb] in H; apply andb_true_iff in H; destruct H as [Hx Hrest].
  cbn [List.find].
  destruct (current t x) eqn:Hc.
  - apply find_selects; exact Hc.
  - rewrite orb_false_r in Hx.
    rewrite (find_passes_over t x rest Hx). apply IH; exact Hrest.
Qed.

End FindFacts.

(** ** Claims on interval parsing and selection *)

(** C8.  Whenever [parse_valid_time] returns both a start and an end, the end
    is later than the start: [start_dt < end_dt] evaluates to [True].  A
    string whose duration decodes to zero never yields such a pair. *)
Theorem parse_valid_time_end_after_start
  (fromisoformat : string -> option datetime) (int_max_str_digits : nat)
  (valid_time : string) :
  (forall start_dt end_dt,
      parse_valid_time fromisoformat int_max_str_digits valid_time
        = Ok (Some start_dt, Some end_dt) ->
      datetime_lt start_dt end_dt = Ok true) /\
  (decode_duration int_max_str_digits (right_part valid_time) = Some (Ok 0%Z) ->
   forall start_dt end_dt,
      parse_valid_time fromisoformat int_max_str_digits valid_time
        <> Ok (Some start_dt, Some end_dt)).
Proof.
  split.
  - intros sd ed Hp.
    destruct (parse_valid_time_concrete _ _ _ _ _ Hp)
      as (delta & _ & _ & _ & Hpos & Hw & Ho).
    unfold datetime_lt, datetime_cmp. rewrite Ho.
    destruct (utcoffset sd) as [o |]; f_equal; apply Z.ltb_lt; lia.
  - intros Hz sd ed Hp.
    destruct (parse_valid_time_concrete _ _ _ _ _ Hp)
      as (delta & _ & _ & Hd & Hpos & _).
    rewrite Hz in Hd. inversion Hd; subst. lia.
Qed.

Lemma parse_valid_time_end_after_start_witness :
  let start_dt := utc_now NEW_YEAR_2024 in
  let end_dt := utc_now (NEW_YEAR_2024 + SIX_HOURS) in
  parse_valid_time fromisoformat_nws 0 "2024-01-01T00:00:00Z/PT6H"
    = Ok (Some start_dt, Some end_dt) /\
  datetime_lt start_dt end_dt = Ok true /\
  decode_duration 0 (right_part "2024-01-01T00:00:00Z/P0D") = Some (Ok 0%Z) /\
  parse_valid_time fromisoformat_nws 0 "2024-01-01T00:00:00Z/P0D"
    <> Ok (Some start_dt, Some end_dt).
Proof.
  intros start_dt end_dt.
  split; [reflexivity |].
  split.
  - apply (proj1 (parse_valid_time_end_after_start fromisoformat_nws 0
                    "2024-01-01T00:00:00Z/PT6H")).
    reflexivity.
  - split; [reflexivity |].
    apply (proj2 (parse_valid_time_end_after_start fromisoformat_nws 0
                    "2024-01-01T00:00:00Z/P0D")).
    reflexivity.
Defined.

(** C2, as stated, fails on a string without a separator.  The text
    ["2024-01-01T00:00:00+00:00"] is a timestamp that parses and has no
    right-hand side at all, so no duration of length zero; [parse_valid_time]
    answers [(None, None)] from its first test.  The result is unusable
    although none of the three cases holds; and if the missing right-hand
    side is read as one that fails the grammar, the result still is not the
    open-ended interval the claim gives to a valid timestamp.  Outside the
    three cases the function need not return an interval either: a
    duration of 1000000000 days matches the grammar, is not zero, and makes
    [timedelta] raise [OverflowError]. *)
Lemma parse_valid_time_unusable_without_separator :
  let valid_time := "2024-01-01T00:00:00+00:00" in
  let too_long := "2024-01-01T00:00:00+00:00/P1000000000D" in
  (has_separator valid_time = false /\
   start_of fromisoformat_nws valid_time = Some (utc_now NEW_YEAR_2024) /\
   fullmatch (right_part valid_time) = None /\
   parse_valid_time fromisoformat_nws 0 valid_time = Ok (None, None) /\
   parse_valid_time fromisoformat_nws 0 valid_time
     <> Ok (Some (utc_now NEW_YEAR_2024), None)) /\
  (has_separator too_long = true /\
   start_of fromisoformat_nws too_long = Some (utc_now NEW_YEAR_2024) /\
   fullmatch (right_part too_long) <> None /\
   decode_duration 0 (right_part too_long) <> Some (Ok 0%Z) /\
   parse_valid_time fromisoformat_nws 0 too_long = Raise OverflowError).
Proof.
  cbv zeta. repeat split; vm_compute; solve [reflexivity | discriminate].
Qed.

(** C2, amended.  [parse_valid_time] returns [(None, None)] for a string
    that is empty or has no ["/"], for a start timestamp that fails to
    parse, and for a right-hand side that matches the grammar and decodes to
    zero; it returns the start with no end when the timestamp parses and the
    right-hand side does not match the grammar.  A returned pair lacks a
    start or an end in these four cases only, and [find_current_value]
    skips every entry whose pair lacks a start or an end. *)
Theorem parse_valid_time_unusable_cases
  (fromisoformat : string -> option datetime) (int_max_str_digits : nat)
  (valid_time : string) :
  let parse := parse_valid_time fromisoformat int_max_str_digits in
  let find_value := find_current_value fromisoformat int_max_str_digits in
  (has_separator valid_time = false -> parse valid_time = Ok (None, None)) /\
  (has_separator valid_time = true ->
   start_of fromisoformat valid_time = None ->
   parse valid_time = Ok (None, None)) /\
  (has_separator valid_time = true ->
   forall start_dt,
     start_of fromisoformat valid_time = Some start_dt ->
     fullmatch (right_part valid_time) = None ->
     parse valid_time = Ok (Some start_dt, None)) /\
  (has_separator valid_time = true ->
   forall start_dt,
     start_of fromisoformat valid_time = Some start_dt ->
     decode_duration int_max_str_digits (right_part valid_time) = Some (Ok 0%Z) ->
     parse valid_time = Ok (None, None)) /\
  (forall r,
     parse valid_time = Ok r -> unusable r ->
     has_separator valid_time = false \/
     start_of fromisoformat valid_time = None \/
     fullmatch (right_part valid_time) = None \/
     decode_duration int_max_str_digits (right_part valid_time) = Some (Ok 0%Z)) /\
  (forall r now entry rest,
     validTime entry = valid_time ->
     parse valid_time = Ok r -> unusable r ->
     find_value now (entry :: rest) = find_value now rest).
Proof.
  cbv zeta.
  repeat split.
  - intros H. rewrite parse_valid_time_unfold, H. reflexivity.
  - intros H Hs. rewrite parse_valid_time_unfold, H, Hs. reflexivity.
  - intros H sd Hs Hm. rewrite parse_valid_time_unfold, H, Hs.
    unfold decode_duration. rewrite Hm. reflexivity.
  - intros H sd Hs Hz. rewrite parse_valid_time_unfold, H, Hs, Hz. reflexivity.
  - intros r Hp Hu. rewrite parse_valid_time_unfold in Hp.
    destruct (has_separator valid_time); [| left; reflexivity].
    right.
    destruct (start_of fromisoformat valid_time) as [sd |];
      [| left; reflexivity].
    right. unfold decode_duration in *.
    destruct (fullmatch (right_part valid_time)) as [m |];
      [| left; reflexivity].
    right.
    match type of Hp with
    | context [bind ?c _] => destruct c as [delta | ex]
    end; simpl in Hp; [| discriminate].
    destruct (delta =? 0)%Z eqn:Hz.
    + apply Z.eqb_eq in Hz; subst; reflexivity.
    + bind_inv Hp. inversion Hp; subst.
      destruct Hu as [Hu | Hu]; discriminate Hu.
  - intros r now entry rest He Hp Hu.
    eapply find_skips_unusable; [rewrite He; exact Hp | exact Hu].
Qed.

Lemma parse_valid_time_unusable_cases_witness :
  let parse := parse_valid_time fromisoformat_nws 0 in
  let find_value := find_current_value fromisoformat_nws 0 in
  parse "" = Ok (None, None) /\
  parse "yesterday/PT6H" = Ok (None, None) /\
  parse "2024-01-01T00:00:00+00:00/6H" = Ok (Some (utc_now NEW_YEAR_2024), None) /\
  parse "2024-01-01T00:00:00Z/P0D" = Ok (None, None) /\
  find_value (utc_now NEW_YEAR_2024) [entry_open_ended; entry_night]
    = find_value (utc_now NEW_YEAR_2024) [entry_night].
Proof.
  cbv zeta.
  split.
  { destruct (parse_valid_time_unusable_cases fromisoformat_nws 0 "")
      as (H & _).
    apply H; reflexivity. }
  split.
  { destruct (parse_valid_time_unusable_cases fromisoformat_nws 0
                "yesterday/PT6H") as (_ & H & _).
    apply H; reflexivity. }
  split.
  { destruct (parse_valid_time_unusable_cases fromisoformat_nws 0
                "2024-01-01T00:00:00+00:00/6H") as (_ & _ & H & _).
    apply H; reflexivity. }
  split.
  { destruct (parse_valid_time_unusable_cases fromisoformat_nws 0
                "2024-01-01T00:00:00Z/P0D") as (_ & _ & _ & H & _).
    apply (H eq_refl (utc_now NEW_YEAR_2024)); reflexivity. }
  destruct (parse_valid_time_unusable_cases fromisoformat_nws 0
              (validTime entry_open_ended)) as (_ & _ & _ & _ & _ & H).
  apply (H (Some (utc_now NEW_YEAR_2024), None)).
  - reflexivity.
  - reflexivity.
  - right; reflexivity.
Defined.

(** C1, as stated, fails on a series that holds an entry with a naive
    timestamp in front of the entry that is current.  The second entry is
    the first one whose resolved interval holds the reference, so the
    selection of the specification is its value, 12; [find_current_value]
    raises [TypeError] when it compares the naive start of the first entry
    with the aware reference, and returns nothing. *)
Lemma find_current_value_raises_on_naive_entry :
  let reference := (NEW_YEAR_2024 + SIX_HOURS)%Z in
  let series := [entry_naive; entry_morning] in
  select_current fromisoformat_nws 0 reference series = Some 12 /\
  find_current_value fromisoformat_nws 0 (utc_now reference) series
    = Raise TypeError.
Proof.
  cbv zeta. split; reflexivity.
Qed.

(** C1, amended.  As long as every entry in front of a match is passed over
    without an exception (its [validTime] parses to no concrete interval,
    or to an interval of aware instants that does not hold the reference),
    [find_current_value] scans in series order and returns the value of
    the first entry whose resolved interval satisfies
    [start <= reference < end]; when every entry is passed over the result
    is absent.  A reference equal to the end of an entry does not match
    that entry and a reference equal to its start does.  An entry that is
    neither passed over nor a match (a naive timestamp, an overflow in the
    duration or the end) ends the scan with its exception. *)
Theorem find_current_value_first_match
  (fromisoformat : string -> option datetime) (int_max_str_digits : nat)
  (reference : Z) :
  let find_value := find_current_value fromisoformat int_max_str_digits in
  let current := is_current fromisoformat int_max_str_digits in
  let passed := passed_over fromisoformat int_max_str_digits in
  (forall pre entry post,
     forallb (passed reference) pre = true ->
     current reference entry = true ->
     find_value (utc_now reference) (pre ++ entry :: post)%list
       = Ok (value entry)) /\
  (forall series,
     forallb (passed reference) series = true ->
     find_value (utc_now reference) series = Ok None) /\
  (forall series,
     forallb (fun entry => passed reference entry || current reference entry)
       series = true ->
     find_value (utc_now reference) series
       = Ok (select_current fromisoformat int_max_str_digits reference series)) /\
  (forall entry s e rest,
     resolved_interval fromisoformat int_max_str_digits entry = Some (s, e) ->
     find_value (utc_now s) (entry :: rest) = Ok (value entry) /\
     find_value (utc_now e) (entry :: rest) = find_value (utc_now e) rest) /\
  (forall pre entry post,
     forallb (passed reference) pre = true ->
     passed reference entry = false ->
     current reference entry = false ->
     exists ex,
       find_value (utc_now reference) (pre ++ entry :: post)%list = Raise ex).
Proof.
  cbv zeta. repeat split.
  - intros pre entry post Hpre Hc.
    rewrite find_passes_over_all by exact Hpre.
    apply find_selects; exact Hc.
  - intros series Hall.
    rewrite <- (app_nil_r series).
    rewrite find_passes_over_all by exact Hall. reflexivity.
  - intros series Hall. apply find_refines_select; exact Hall.
  - destruct (resolved_interval_inv _ _ _ _ _ H)
      as (sd & ed & o & _ & _ & _ & _ & _ & Hlt).
    rewrite (find_step _ _ s entry rest _ _ H).
    replace (s <=? s)%Z with true by (symmetry; apply Z.leb_le; lia).
    replace (s <? e)%Z with true by (symmetry; apply Z.ltb_lt; lia).
    reflexivity.
  - rewrite (find_step _ _ e entry rest _ _ H).
    rewrite Z.ltb_irrefl, andb_false_r. reflexivity.
  - intros pre entry post Hpre Hp Hc.
    rewrite find_passes_over_all by exact Hpre.
    apply find_raises; assumption.
Qed.

Lemma find_current_value_first_match_witness :
  let find_value := find_current_value fromisoformat_nws 0 in
  let noon := (NEW_YEAR_2024 + SIX_HOURS)%Z in
  find_value (utc_now noon) [entry_zero; entry_night; entry_morning] = Ok (Some 12) /\
  find_value (utc_now (noon + SIX_HOURS)) [entry_zero; entry_night; entry_morning]
    = Ok None /\
  find_value (utc_now NEW_YEAR_2024) [entry_night; entry_morning] = Ok (Some 10) /\
  find_value (utc_now noon) [entry_night] = find_value (utc_now noon) [] /\
  (exists ex, find_value (utc_now noon) [entry_zero; entry_naive; entry_morning]
                = Raise ex).
Proof.
  cbv zeta.
  pose (noon := (NEW_YEAR_2024 + SIX_HOURS)%Z).
  split.
  { destruct (find_current_value_first_match fromisoformat_nws 0 noon)
      as (H & _).
    apply (H [entry_zero; entry_night] entry_morning []); reflexivity. }
  split.
  { destruct (find_current_value_first_match fromisoformat_nws 0
                (noon + SIX_HOURS)) as (_ & H & _).
    apply (H [entry_zero; entry_night; entry_morning]); reflexivity. }
  split.
  { destruct (find_current_value_first_match fromisoformat_nws 0 noon)
      as (_ & _ & _ & H & _).
    apply (H entry_night NEW_YEAR_2024 noon [entry_morning]); reflexivity. }
  split.
  { destruct (find_current_value_first_match fromisoformat_nws 0 noon)
      as (_ & _ & _ & H & _).
    apply (H entry_night NEW_YEAR_2024 noon []); reflexivity. }
  destruct (find_current_value_first_match fromisoformat_nws 0 noon)
    as (_ & _ & _ & _ & H).
  apply (H [entry_zero] entry_naive [entry_morning]); reflexivity.
Defined.

(** ** The loops of [create_ocean_grid] *)

Lemma Qlt_bool_iff (x y : Q) : Qlt_bool x y = true <-> x < y.
Proof.
  unfold Qlt_bool. rewrite negb_true_iff.
  split; intros H.
  - apply Qnot_le_lt. intros Hle.
    apply Qle_bool_iff in Hle. congruence.
  - destruct (Qle_bool y x) eqn:E; [| reflexivity].
    apply Qle_bool_iff in E. lra.
Qed.

Lemma Qle_bool_false (x y : Q) : Qle_bool x y = false -> y < x.
Proof.
  intros H. apply Qnot_le_lt. intros Hle.
  apply Qle_bool_iff in Hle. congruence.
Qed.

Lemma ocean_iff (lat lon : Q) : ocean lat lon = true <-> in_ocean (lat, lon).
Proof.
  unfold ocean, in_ocean; simpl.
  rewrite orb_true_iff, andb_true_iff, !Qlt_bool_iff. reflexivity.
Qed.

Lemma py_div_Ok (a b q : Q) : py_div a b = Ok q -> ~ b == 0 /\ q = a / b.
Proof.
  unfold py_div. destruct (Qeq_bool b 0) eqn:E; [discriminate |].
  intros H; inversion H; split; [| reflexivity].
  apply Qeq_bool_neq; exact E.
Qed.

Lemma km_to_deg_lat_10 (lat_step : Q) :
  km_to_deg_lat 10 = Ok lat_step -> 0 < lat_step.
Proof.
  unfold km_to_deg_lat. intros H.
  apply py_div_Ok in H; destruct H as [_ ->].
  reflexivity.
Qed.

(** More fuel does not change a result. *)
Lemma lon_loop_more_fuel (lat lon_step : Q) (fuel fuel' : nat) :
  (fuel <= fuel')%nat ->
  forall lon points r,
    lon_loop fuel lat lon_step lon points = Some r ->
    lon_loop fuel' lat lon_step lon points = Some r.
Proof.
  revert fuel'.
  induction fuel as [| fuel IH]; intros fuel' Hle lon points r H;
    [discriminate |].
  destruct fuel' as [| fuel']; [lia |].
  cbn [lon_loop] in *.
  destruct (Qle_bool lon (east EAST_COAST_BOUNDS)); [| exact H].
  apply IH; [lia | exact H].
Qed.

Section GridLoops.

Variable cos : Q -> Q.

(** The rule of the [while] loop for a row: a property of the loop
    variables that every iteration keeps holds when the loop is left,
    together with the negated loop test. *)
Lemma lon_loop_invariant (I : Q -> list (Q * Q) -> Prop) (lat lon_step : Q) :
  (forall lon points,
      I lon points -> lon <= east EAST_COAST_BOUNDS ->
      I (lon + lon_step)
        (if ocean lat lon then points ++ [(lat, lon)] else points)%list) ->
  forall fuel lon points r,
    I lon points ->
    lon_loop fuel lat lon_step lon points = Some r ->
    exists lon', I lon' r /\ east EAST_COAST_BOUNDS < lon'.
Proof.
  intros Hstep fuel.
  induction fuel as [| fuel IH]; intros lon points r HI H; [discriminate |].
  cbn [lon_loop] in H.
  destruct (Qle_bool lon (east EAST_COAST_BOUNDS)) eqn:Hg.
  - apply Qle_bool_iff in Hg.
    eapply IH; [| exact H].
    apply Hstep; assumption.
  - inversion H; subst.
    exists lon; split; [exact HI | apply Qle_bool_false; exact Hg].
Qed.

(** The same rule for the loop over the rows. *)
Lemma lat_loop_invariant (J : Q -> list (Q * Q) -> Prop) (fuel : nat)
  (lat_step : Q) :
  (forall lat points lon_step points',
      J lat points -> lat <= north EAST_COAST_BOUNDS ->
      km_to_deg_lon cos 10 lat = Ok lon_step ->
      lon_loop fuel lat lon_step (west EAST_COAST_BOUNDS) points = Some points' ->
      J (lat + lat_step) points') ->
  forall rows lat points r,
    J lat points ->
    lat_loop cos fuel rows lat_step lat points = Some (Ok r) ->
    exists lat', J lat' r /\ north EAST_COAST_BOUNDS < lat'.
Proof.
  intros Hstep rows.
  induction rows as [| rows IH]; intros lat points r HJ H; [discriminate |].
  cbn [lat_loop] in H.
  destruct (Qle_bool lat (north EAST_COAST_BOUNDS)) eqn:Hg.
  - apply Qle_bool_iff in Hg.
    destruct (km_to_deg_lon cos 10 lat) as [lon_step | ex] eqn:Hk;
      [| discriminate].
    destruct (lon_loop fuel lat lon_step (west EAST_COAST_BOUNDS) points)
      as [points' |] eqn:Hl; [| discriminate].
    eapply IH; [| exact H].
    eapply Hstep; eassumption.
  - inversion H; subst.
    exists lat; split; [exact HJ | apply Qle_bool_false; exact Hg].
Qed.

Lemma lat_loop_more_fuel (lat_step : Q) (fuel fuel' : nat) :
  (fuel <= fuel')%nat ->
  forall rows rows' lat points r,
    (rows <= rows')%nat ->
    lat_loop cos fuel rows lat_step lat points = Some r ->
    lat_loop cos fuel' rows' lat_step lat points = Some r.
Proof.
  intros Hf rows.
  induction rows as [| rows IH]; intros rows' lat points r Hr H;
    [discriminate |].
  destruct rows' as [| rows']; [lia |].
  cbn [lat_loop] in *.
  destruct (Qle_bool lat (north EAST_COAST_BOUNDS)); [| exact H].
  destruct (km_to_deg_lon cos 10 lat) as [lon_step | ex]; [| exact H].
  destruct (lon_loop fuel lat lon_step (west EAST_COAST_BOUNDS) points)
    as [points' |] eqn:Hl; [| discriminate].
  rewrite (lon_loop_more_fuel _ _ _ _ Hf _ _ _ Hl).
  apply IH; [lia | exact H].
Qed.

Lemma create_ocean_grid_more_fuel (fuel fuel' : nat) (r : result (list (Q * Q))) :
  (fuel <= fuel')%nat ->
  create_ocean_grid cos fuel = Some r ->
  create_ocean_grid cos fuel' = Some r.
Proof.
  unfold create_ocean_grid; cbv zeta. intros Hle.
  destruct (km_to_deg_lat 10) as [lat_step | ex]; [| auto].
  apply lat_loop_more_fuel; assumption.
Qed.

(** The result does not depend on the fuel that was enough to reach it. *)
Lemma create_ocean_grid_fuel_irrelevant (fuel fuel' : nat)
  (r r' : result (list (Q * Q))) :
  create_ocean_grid cos fuel = Some r ->
  create_ocean_grid cos fuel' = Some r' ->
  r = r'.
Proof.
  intros H H'.
  destruct (Nat.le_ge_cases fuel fuel') as [Hle | Hle].
  - rewrite (create_ocean_grid_more_fuel _ _ _ Hle H) in H'.
    inversion H'; reflexivity.
  - rewrite (create_ocean_grid_more_fuel _ _ _ Hle H') in H.
    inversion H; reflexivity.
Qed.

End GridLoops.

(** ** Order of generation *)

Lemma StronglySorted_snoc (A : Type) (R : A -> A -> Prop) (l : list A) (x : A) :
  StronglySorted R l -> Forall (fun p => R p x) l ->
  StronglySorted R (l ++ [x]).
Proof.
  induction l as [| a l IH]; intros Hs Hf; simpl.
  - constructor; constructor.
  - apply StronglySorted_inv in Hs; destruct Hs as [Hs Ha].
    inversion Hf; subst.
    constructor; [apply IH; assumption |].
    apply Forall_app; split; [exact Ha | constructor; [assumption | constructor]].
Qed.

Lemma generated_before_not_same (p q : Q * Q) :
  generated_before p q -> ~ same_coordinate p q.
Proof.
  unfold generated_before, same_coordinate.
  intros [H | [H1 H2]] [E1 E2]; lra.
Qed.

Lemma generated_in_order_NoDupA (l : list (Q * Q)) :
  StronglySorted generated_before l -> NoDupA same_coordinate l.
Proof.
  induction l as [| a l IH]; intros Hs; [constructor |].
  apply StronglySorted_inv in Hs; destruct Hs as [Hs Ha].
  constructor; [| apply IH; exact Hs].
  intros Hin. apply InA_alt in Hin; destruct Hin as (b & Hab & Hb).
  rewrite Forall_forall in Ha.
  exact (generated_before_not_same _ _ (Ha b Hb) Hab).
Qed.

Ltac bounds :=
  unfold in_region, generated_before, same_coordinate in *;
  cbn [fst snd north south west east EAST_COAST_BOUNDS] in *.

Section GridFacts.

Variable cos : Q -> Q.

(** A step that does not move east never leaves the loop. *)
Lemma lon_loop_stuck (lat lon_step : Q) :
  lon_step <= 0 ->
  forall fuel lon points,
    lon <= east EAST_COAST_BOUNDS ->
    lon_loop fuel lat lon_step lon points = None.
Proof.
  intros Hs fuel.
  induction fuel as [| fuel IH]; intros lon points Hlon; [reflexivity |].
  cbn [lon_loop].
  apply Qle_bool_iff in Hlon; rewrite Hlon. apply Qle_bool_iff in Hlon.
  apply IH. bounds; lra.
Qed.

(** What one row adds to the list. *)
Lemma lon_loop_row (lat lon_step : Q) (fuel : nat) (points r : list (Q * Q)) :
  south EAST_COAST_BOUNDS <= lat <= north EAST_COAST_BOUNDS ->
  Forall in_region points ->
  StronglySorted generated_before points ->
  Forall (fun p => fst p < lat) points ->
  lon_loop fuel lat lon_step (west EAST_COAST_BOUNDS) points = Some r ->
  Forall in_region r /\
  StronglySorted generated_before r /\
  Forall (fun p => fst p <= lat) r.
Proof.
  intros Hlat Hreg Hsort Hbelow H.
  destruct (Qlt_le_dec 0 lon_step) as [Hpos | Hneg].
  - pose (I := fun (lon : Q) (pts : list (Q * Q)) =>
                 west EAST_COAST_BOUNDS <= lon /\
                 Forall in_region pts /\
                 StronglySorted generated_before pts /\
                 Forall (fun p => generated_before p (lat, lon)) pts).
    destruct (lon_loop_invariant I lat lon_step) with (3 := H)
      as (lon' & (_ & Hr & Hs & Hb) & _).
    + intros lon pts (Hw & Hr & Hs & Hb) Hle.
      assert (Hb' : Forall (fun p => generated_before p (lat, lon + lon_step)) pts).
      { eapply Forall_impl; [| exact Hb].
        intros p Hp. bounds. destruct Hp as [Hp | [Hp1 Hp2]]; [left | right]; lra. }
      unfold I. split; [bounds; lra |].
      destruct (ocean lat lon).
      * split; [| split].
        -- apply Forall_app; split; [exact Hr |].
           constructor; [| constructor].
           bounds. repeat split; lra.
        -- apply StronglySorted_snoc; assumption.
        -- apply Forall_app; split; [exact Hb' |].
           constructor; [| constructor].
           bounds. right; split; lra.
      * repeat split; assumption.
    + unfold I. split; [bounds; lra |].
      split; [exact Hreg |]. split; [exact Hsort |].
      eapply Forall_impl; [| exact Hbelow].
      intros p Hp; left; exact Hp.
    + split; [exact Hr |]. split; [exact Hs |].
      eapply Forall_impl; [| exact Hb].
      intros p Hp. bounds. destruct Hp as [Hp | [Hp _]]; lra.
  - rewrite lon_loop_stuck in H; [discriminate | exact Hneg |].
    bounds; lra.
Qed.

(** What the loop over the rows builds from an empty list. *)
Lemma lat_loop_rows (fuel rows : nat) (lat_step : Q) (r : list (Q * Q)) :
  0 < lat_step ->
  lat_loop cos fuel rows lat_step (south EAST_COAST_BOUNDS) [] = Some (Ok r) ->
  Forall in_region r /\ StronglySorted generated_before r.
Proof.
  intros Hpos H.
  pose (J := fun (lat : Q) (pts : list (Q * Q)) =>
               south EAST_COAST_BOUNDS <= lat /\
               Forall in_region pts /\
               StronglySorted generated_before pts /\
               Forall (fun p => fst p < lat) pts).
  destruct (lat_loop_invariant cos J fuel lat_step) with (3 := H)
    as (lat' & (_ & Hr & Hs & _) & _).
  - intros lat pts lon_step pts' (Hsouth & Hr & Hs & Hb) Hnorth _ Hrow.
    destruct (lon_loop_row lat lon_step fuel pts pts' (conj Hsouth Hnorth) Hr Hs Hb Hrow)
      as (Hr' & Hs' & Hb').
    unfold J. split; [lra |]. split; [exact Hr' |]. split; [exact Hs' |].
    eapply Forall_impl; [| exact Hb'].
    intros p Hp. cbn beta in Hp. lra.
  - unfold J. split; [bounds; lra |]. repeat split; constructor.
  - split; assumption.
Qed.

End GridFacts.

(** ** Termination of the generator *)

Lemma archimedean_steps (d step : Q) :
  0 < step -> exists n : nat, d < inject_Z (Z.of_nat n) * step.
Proof.
  intros Hpos.
  destruct (Qarchimedean (d / step)) as [p Hp].
  exists (Pos.to_nat p). rewrite positive_nat_Z.
  apply (Qmult_lt_compat_r _ _ step Hpos) in Hp.
  assert (E : d / step * step == d) by (field; lra).
  rewrite E in Hp. exact Hp.
Qed.

(** [inject_Z (Z.of_nat n)] at [0] and at [S n], for [lra]. *)
Ltac steps_of_nat H :=
  first
    [ rewrite Nat2Z.inj_succ in H; unfold Z.succ in H;
      rewrite inject_Z_plus in H; change (inject_Z 1) with 1 in H
    | cbn [Z.of_nat] in H; change (inject_Z 0) with 0 in H ].

Section GridTermination.

Variable cos : Q -> Q.

(** A row whose step is positive is left after finitely many iterations. *)
Lemma lon_loop_returns (lat lon_step : Q) :
  0 < lon_step ->
  forall (n : nat) lon points,
    east EAST_COAST_BOUNDS - lon < inject_Z (Z.of_nat n) * lon_step ->
    exists r, lon_loop (S n) lat lon_step lon points = Some r.
Proof.
  intros Hpos n.
  induction n as [| n IH]; intros lon points Hn; cbn [lon_loop].
  - destruct (Qle_bool lon (east EAST_COAST_BOUNDS)) eqn:Hg; [| eauto].
    apply Qle_bool_iff in Hg. steps_of_nat Hn. lra.
  - destruct (Qle_bool lon (east EAST_COAST_BOUNDS)) eqn:Hg; [| eauto].
    apply IH. steps_of_nat Hn. lra.
Qed.

(** The cosine is positive at the latitudes of the region. *)
Hypothesis cos_positive :
  forall lat,
    south EAST_COAST_BOUNDS <= lat <= north EAST_COAST_BOUNDS ->
    0 < cos (radians lat).

Lemma km_to_deg_lon_positive (lat : Q) :
  south EAST_COAST_BOUNDS <= lat <= north EAST_COAST_BOUNDS ->
  exists lon_step, km_to_deg_lon cos 10 lat = Ok lon_step /\ 0 < lon_step.
Proof.
  intros Hlat.
  pose proof (cos_positive lat Hlat) as Hc.
  assert (Hd : 0 < 111.32 * cos (radians lat))
    by (apply Qmult_lt_0_compat; [reflexivity | exact Hc]).
  unfold km_to_deg_lon, py_div.
  destruct (Qeq_bool (111.32 * cos (radians lat)) 0) eqn:E.
  - apply Qeq_bool_iff in E. lra.
  - eexists; split; [reflexivity |].
    apply Qmult_lt_0_compat; [reflexivity |].
    apply Qinv_lt_0_compat; exact Hd.
Qed.

(** So is the loop over the rows, with fuel enough for its widest row. *)
Lemma lat_loop_returns (lat_step : Q) :
  0 < lat_step ->
  forall (n : nat) lat points,
    south EAST_COAST_BOUNDS <= lat ->
    north EAST_COAST_BOUNDS - lat < inject_Z (Z.of_nat n) * lat_step ->
    exists fuel r, lat_loop cos fuel (S n) lat_step lat points = Some (Ok r).
Proof.
  intros Hpos n.
  induction n as [| n IH]; intros lat points Hsouth Hn.
  - exists 0%nat, points. cbn [lat_loop].
    destruct (Qle_bool lat (north EAST_COAST_BOUNDS)) eqn:Hg; [| reflexivity].
    apply Qle_bool_iff in Hg. steps_of_nat Hn. lra.
  - destruct (Qle_bool lat (north EAST_COAST_BOUNDS)) eqn:Hg.
    + pose proof Hg as Hnorth. apply Qle_bool_iff in Hnorth.
      destruct (km_to_deg_lon_positive lat (conj Hsouth Hnorth))
        as (lon_step & Hk & Hstep).
      destruct (archimedean_steps
                  (east EAST_COAST_BOUNDS - west EAST_COAST_BOUNDS) lon_step Hstep)
        as [m Hm].
      destruct (lon_loop_returns lat lon_step Hstep m
                  (west EAST_COAST_BOUNDS) points Hm) as [points' Hrow].
      destruct (IH (lat + lat_step) points') as (fuel & r & Hrest).
      { lra. }
      { steps_of_nat Hn. lra. }
      exists (Nat.max (S m) fuel), r.
      cbn [lat_loop]. rewrite Hg, Hk.
      rewrite (lon_loop_more_fuel lat lon_step (S m) _ (Nat.le_max_l _ _)
                 _ _ _ Hrow).
      exact (lat_loop_more_fuel cos lat_step fuel _ (Nat.le_max_r _ _)
               (S n) (S n) _ _ _ (Nat.le_refl _) Hrest).
    + exists 0%nat, points. cbn [lat_loop]. rewrite Hg. reflexivity.
Qed.

(** Under a cosine that is positive at the latitudes of the region, enough
    fuel makes the generator return a grid. *)
Lemma create_ocean_grid_returns_in_region :
  exists fuel pts, create_ocean_grid cos fuel = Some (Ok pts).
Proof.
  unfold create_ocean_grid; cbv zeta.
  destruct (km_to_deg_lat 10) as [lat_step | ex] eqn:Hk;
    [| discriminate Hk].
  pose proof (km_to_deg_lat_10 _ Hk) as Hpos.
  destruct (archimedean_steps
              (north EAST_COAST_BOUNDS - south EAST_COAST_BOUNDS) lat_step Hpos)
    as [n Hn].
  destruct (lat_loop_returns lat_step Hpos n (south EAST_COAST_BOUNDS) []
              (Qle_refl _) Hn)
    as (fuel & r & H).
  exists (Nat.max fuel (S n)), r.
  exact (lat_loop_more_fuel cos lat_step fuel _ (Nat.le_max_l _ _)
           (S n) _ _ _ _ (Nat.le_max_r _ _) H).
Qed.

End GridTermination.

(** So does a cosine that is positive everywhere. *)
Lemma create_ocean_grid_returns (cos : Q -> Q) :
  (forall x, 0 < cos x) ->
  exists fuel pts, create_ocean_grid cos fuel = Some (Ok pts).
Proof.
  intros Hpos.
  apply create_ocean_grid_returns_in_region.
  intros lat _. apply Hpos.
Qed.

(** With 300 iterations for every loop, the generator returns under
    [coarse_cos]. *)
Lemma coarse_grid_returns :
  exists pts, create_ocean_grid coarse_cos 300 = Some (Ok pts).
Proof.
  assert (H : returns_grid (create_ocean_grid coarse_cos 300) = true)
    by (vm_compute; reflexivity).
  destruct (create_ocean_grid coarse_cos 300) as [[pts | ex] |];
    try discriminate H.
  exists pts; reflexivity.
Qed.

(** ** Claims on the grid *)

(** C7.  The grid generator is deterministic: whatever number of iterations
    was enough for it to return, the grid is the same.  Every coordinate of
    the grid lies in the bounding region, [south <= latitude <= north] and
    [west <= longitude <= east], and no coordinate occurs twice. *)
Theorem create_ocean_grid_in_region_without_duplicates
  (cos : Q -> Q) (fuel : nat) (pts : list (Q * Q)) :
  create_ocean_grid cos fuel = Some (Ok pts) ->
  (forall fuel' r, create_ocean_grid cos fuel' = Some r -> r = Ok pts) /\
  (forall lat lon,
      In (lat, lon) pts ->
      south EAST_COAST_BOUNDS <= lat <= north EAST_COAST_BOUNDS /\
      west EAST_COAST_BOUNDS <= lon <= east EAST_COAST_BOUNDS) /\
  NoDupA same_coordinate pts.
Proof.
  intros H. split.
  - intros fuel' r H'.
    symmetry; exact (create_ocean_grid_fuel_irrelevant cos _ _ _ _ H H').
  - unfold create_ocean_grid in H; cbv zeta in H.
    destruct (km_to_deg_lat 10) as [lat_step | ex] eqn:Hk; [| discriminate].
    apply km_to_deg_lat_10 in Hk.
    destruct (lat_loop_rows cos fuel fuel lat_step pts Hk H) as [Hr Hs].
    split.
    + intros lat lon Hin.
      rewrite Forall_forall in Hr. exact (Hr _ Hin).
    + apply generated_in_order_NoDupA; exact Hs.
Qed.

Lemma create_ocean_grid_in_region_without_duplicates_witness :
  exists pts,
    create_ocean_grid coarse_cos 300 = Some (Ok pts) /\
    (forall fuel' r, create_ocean_grid coarse_cos fuel' = Some r -> r = Ok pts) /\
    (forall lat lon, In (lat, lon) pts -> 24.0 <= lat <= 45.0 /\ -82.0 <= lon <= -65.0) /\
    NoDupA same_coordinate pts.
Proof.
  destruct coarse_grid_returns as [pts H].
  exists pts. split; [exact H |].
  exact (create_ocean_grid_in_region_without_duplicates coarse_cos 300 pts H).
Defined.

(** C10.  Every coordinate of the grid satisfies the inclusion test of the
    generator: its longitude is below -75.0, or its latitude is above 35.0
    and its longitude is below -70.0. *)
Theorem create_ocean_grid_ocean_only
  (cos : Q -> Q) (fuel : nat) (pts : list (Q * Q)) :
  create_ocean_grid cos fuel = Some (Ok pts) ->
  forall lat lon,
    In (lat, lon) pts ->
    lon < -75.0 \/ (35.0 < lat /\ lon < -70.0).
Proof.
  intros H lat lon Hin.
  unfold create_ocean_grid in H; cbv zeta in H.
  destruct (km_to_deg_lat 10) as [lat_step | ex]; [| discriminate].
  pose (J := fun (_ : Q) (l : list (Q * Q)) => Forall in_ocean l).
  destruct (lat_loop_invariant cos J fuel lat_step) with (3 := H)
    as (lat' & Hall & _).
  - intros row points lon_step points' HJ _ _ Hrow.
    destruct (lon_loop_invariant J row lon_step) with (3 := Hrow)
      as (lon' & Hall & _); [| exact HJ | exact Hall].
    intros x l Hl _. unfold J.
    destruct (ocean row x) eqn:Ho; [| exact Hl].
    apply Forall_app; split; [exact Hl |].
    constructor; [apply ocean_iff; exact Ho | constructor].
  - constructor.
  - unfold J in Hall. rewrite Forall_forall in Hall.
    exact (Hall _ Hin).
Qed.

Lemma create_ocean_grid_ocean_only_witness :
  exists pts,
    create_ocean_grid coarse_cos 300 = Some (Ok pts) /\
    forall lat lon, In (lat, lon) pts -> lon < -75.0 \/ (35.0 < lat /\ lon < -70.0).
Proof.
  destruct coarse_grid_returns as [pts H].
  exists pts. split; [exact H |].
  exact (create_ocean_grid_ocean_only coarse_cos 300 pts H).
Defined.

(** C9.  The longitude step is never the result of a division by zero: for
    a latitude whose cosine is zero the division raises
    [ZeroDivisionError] and no quotient is formed; otherwise the step is
    the quotient.  The exception leaves the grid generator at the first row
    where it occurs. *)
Theorem km_to_deg_lon_zero_cosine_raises (cos : Q -> Q) (km lat : Q) :
  (cos (radians lat) == 0 ->
   km_to_deg_lon cos km lat = Raise ZeroDivisionError) /\
  (~ cos (radians lat) == 0 ->
   km_to_deg_lon cos km lat = Ok (km / (111.32 * cos (radians lat)))) /\
  (cos (radians (south EAST_COAST_BOUNDS)) == 0 ->
   forall fuel, create_ocean_grid cos (S fuel) = Some (Raise ZeroDivisionError)).
Proof.
  assert (Hz : forall x, cos (radians x) == 0 ->
                         km_to_deg_lon cos km x = Raise ZeroDivisionError
                         /\ km_to_deg_lon cos 10 x = Raise ZeroDivisionError).
  { intros x Hx. unfold km_to_deg_lon, py_div.
    assert (E : Qeq_bool (111.32 * cos (radians x)) 0 = true)
      by (apply Qeq_bool_iff; rewrite Hx; reflexivity).
    rewrite E; split; reflexivity. }
  split; [intros H; apply (Hz lat H) |].
  split.
  - intros H. unfold km_to_deg_lon, py_div.
    destruct (Qeq_bool (111.32 * cos (radians lat)) 0) eqn:E; [| reflexivity].
    exfalso; apply H. apply Qeq_bool_iff in E.
    apply Qmult_integral in E. destruct E as [E | E]; [discriminate E | exact E].
  - intros H fuel.
    unfold create_ocean_grid; cbv zeta.
    change (km_to_deg_lat 10) with (py_div 10 111.32).
    unfold py_div at 1. cbn [lat_loop].
    replace (Qeq_bool 111.32 0) with false by reflexivity.
    replace (Qle_bool (south EAST_COAST_BOUNDS) (north EAST_COAST_BOUNDS))
      with true by reflexivity.
    rewrite (proj2 (Hz _ H)). reflexivity.
Qed.

Lemma km_to_deg_lon_zero_cosine_raises_witness :
  km_to_deg_lon zero_cos 10 90 = Raise ZeroDivisionError /\
  km_to_deg_lon coarse_cos 10 24.0 = Ok (10 / (111.32 * (1 # 100))) /\
  create_ocean_grid zero_cos 300 = Some (Raise ZeroDivisionError).
Proof.
  split.
  { apply (proj1 (km_to_deg_lon_zero_cosine_raises zero_cos 10 90)).
    reflexivity. }
  split.
  { apply (proj1 (proj2 (km_to_deg_lon_zero_cosine_raises coarse_cos 10 24.0))).
    discriminate. }
  apply (proj2 (proj2 (km_to_deg_lon_zero_cosine_raises zero_cos 10 90))).
  reflexivity.
Defined.

(** ** Claims on the unit conversion *)




(** ** The loop of [ocean_wind_data] *)

Lemma every_fifth_length (A : Type) (l : list A) :
  forall i,
    List.length (every_fifth i l) = ((i + List.length l + 4) / 5 - (i + 4) / 5)%nat.
Proof.
  induction l as [| x rest IH]; intros i; cbn [every_fifth List.length].
  - lia.
  - destruct (i mod 5 =? 0)%nat eqn:E.
    + apply Nat.eqb_eq in E. cbn [List.length]. rewrite IH. lia.
    + apply Nat.eqb_neq in E. rewrite IH. lia.
Qed.


Section LoopFacts.

Variable cos : Q -> Q.
Variable fromisoformat : string -> option datetime.
Variable int_max_str_digits : nat.
Variable format_4f : Q -> string.
Variable get_points : string -> result (response points_data).
Variable get_grid : string -> result (response grid_data).
Variable clock : nat -> Z.

Local Abbreviation body :=
  (loop_body fromisoformat int_max_str_digits format_4f get_points get_grid clock).
Local Abbreviation run :=
  (run_loop fromisoformat int_max_str_digits format_4f get_points get_grid clock).
Local Abbreviation fetch' :=
  (fetch fromisoformat int_max_str_digits format_4f get_points get_grid clock).

(** The calls of [get_wind_data] over a stretch of the enumeration. *)
Lemma fold_loop_body_dispatched (l : list (Q * Q)) :
  forall i st,
    dispatched (fold_left body (combine (seq i (List.length l)) l) st)
    = (dispatched st ++ every_fifth i l)%list.
Proof.
  induction l as [| [lat lon] rest IH]; intros i st;
    cbn [List.length seq combine fold_left every_fifth].
  - rewrite app_nil_r; reflexivity.
  - rewrite IH. unfold loop_body.
    destruct (i mod 5 =? 0)%nat; cbn [dispatched]; [| reflexivity].
    rewrite <- app_assoc; reflexivity.
Qed.

Lemma run_loop_dispatched (grid_points : list (Q * Q)) :
  dispatched (run grid_points) = every_fifth 0 (firstn 100 grid_points).
Proof.
  unfold run_loop, enumerate. rewrite fold_loop_body_dispatched. reflexivity.
Qed.

(** The rule of the [for] loop: a property of the loop variables that every
    iteration over an entry of the enumeration keeps holds at the end. *)
Lemma fold_loop_body_invariant (P : loop_state -> Prop) (entries : list (nat * (Q * Q))) :
  (forall st entry, In entry entries -> P st -> P (body st entry)) ->
  forall st, P st -> P (fold_left body entries st).
Proof.
  induction entries as [| entry rest IH]; intros Hstep st Hst; [exact Hst |].
  cbn [fold_left]. apply IH.
  - intros st' e Hin. apply Hstep; right; exact Hin.
  - apply Hstep; [left; reflexivity | exact Hst].
Qed.

Lemma in_enumerate (A : Type) (l : list A) (i : nat) (x : A) :
  In (i, x) (enumerate l) -> nth_error l i = Some x.
Proof.
  unfold enumerate.
  assert (G : forall (l : list A) s i x,
             In (i, x) (combine (seq s (List.length l)) l) ->
             (s <= i)%nat /\ nth_error l (i - s) = Some x).
  { clear. induction l as [| y rest IH]; intros s i x H; [contradiction |].
    cbn [List.length seq combine] in H. destruct H as [H | H].
    - inversion H; subst. rewrite Nat.sub_diag. split; [lia | reflexivity].
    - apply IH in H. destruct H as [Hle Hn]. split; [lia |].
      replace (i - s)%nat with (S (i - S s)) by lia. exact Hn. }
  intros H. apply G in H. rewrite Nat.sub_0_r in H. apply H.
Qed.

End LoopFacts.

(** ** The loop with the exception of its products *)

Lemma py_mul_float_Ok (x c : Q) :
  beyond_float x = false -> py_mul_float x c = Ok (x * c).
Proof.
  intros H. unfold py_mul_float. rewrite H. reflexivity.
Qed.

Lemma py_mul_float_Raise (x c : Q) (ex : exn) :
  py_mul_float x c = Raise ex -> beyond_float x = true /\ ex = OverflowError.
Proof.
  unfold py_mul_float. destruct (beyond_float x); [| discriminate].
  intros H; inversion H; split; reflexivity.
Qed.

Section ForLoopFacts.

Variable fromisoformat : string -> option datetime.
Variable int_max_str_digits : nat.
Variable format_4f : Q -> string.
Variable get_points : string -> result (response points_data).
Variable get_grid : string -> result (response grid_data).
Variable clock : nat -> Z.

Local Abbreviation body :=
  (loop_body fromisoformat int_max_str_digits format_4f get_points get_grid clock).
Local Abbreviation step :=
  (loop_step fromisoformat int_max_str_digits format_4f get_points get_grid clock).
Local Abbreviation loop :=
  (for_loop fromisoformat int_max_str_digits format_4f get_points get_grid clock).
Local Abbreviation fetch' :=
  (fetch fromisoformat int_max_str_digits format_4f get_points get_grid clock).

(** An iteration that returns leaves the loop variables of [loop_body]. *)
Lemma loop_step_Ok (st st' : loop_state) (entry : nat * (Q * Q)) :
  step st entry = Ok st' -> st' = body st entry.
Proof.
  destruct entry as [i [lat lon]]. unfold loop_step, loop_body.
  destruct (i mod 5 =? 0)%nat; [| intros H; inversion H; reflexivity].
  cbv zeta.
  destruct (fetch _ _ _ _ _ _ _ _ _) as [wd |];
    [| intros H; inversion H; reflexivity].
  destruct (wd_speed_kt wd) as [kt |]; [| intros H; inversion H; reflexivity].
  unfold py_mul_float. destruct (beyond_float kt); cbn [bind]; [discriminate |].
  intros H; inversion H; reflexivity.
Qed.

(** An iteration raises what the first product of its feature raises. *)
Lemma loop_step_Raise (st : loop_state) (i : nat) (lat lon : Q) (ex : exn) :
  step st (i, (lat, lon)) = Raise ex ->
  (i mod 5 = 0)%nat /\
  exists wd kt,
    fetch' i lat lon = Some wd /\ wd_speed_kt wd = Some kt /\
    py_mul_float kt 1.15078 = Raise ex.
Proof.
  unfold loop_step.
  destruct (i mod 5 =? 0)%nat eqn:Hi; [| discriminate].
  apply Nat.eqb_eq in Hi. cbv zeta.
  destruct (fetch _ _ _ _ _ _ _ _ _) as [wd |]; [| discriminate].
  destruct (wd_speed_kt wd) as [kt |] eqn:Hkt; [| discriminate].
  intros H. split; [exact Hi |]. exists wd, kt.
  split; [reflexivity |]. split; [exact Hkt |].
  revert H. unfold py_mul_float.
  destruct (beyond_float kt); cbn [bind]; [| discriminate].
  intros H; inversion H; reflexivity.
Qed.

(** An iteration whose fetch has no speed beyond the range of [float]
    returns. *)
Lemma loop_step_returns (st : loop_state) (i : nat) (lat lon : Q) :
  ((i mod 5 = 0)%nat ->
   forall wd kt,
     fetch' i lat lon = Some wd -> wd_speed_kt wd = Some kt ->
     beyond_float kt = false) ->
  step st (i, (lat, lon)) = Ok (body st (i, (lat, lon))).
Proof.
  intros Hfit. unfold loop_step, loop_body.
  destruct (i mod 5 =? 0)%nat eqn:Hi; [| reflexivity].
  apply Nat.eqb_eq in Hi. specialize (Hfit Hi). cbv zeta.
  destruct (fetch _ _ _ _ _ _ _ _ _) as [wd |]; [| reflexivity].
  destruct (wd_speed_kt wd) as [kt |] eqn:Hkt; [| reflexivity].
  rewrite !(py_mul_float_Ok kt _ (Hfit wd kt eq_refl Hkt)).
  reflexivity.
Qed.

(** A loop that returns leaves the loop variables of the iterations that
    return. *)
Lemma for_loop_Ok (entries : list (nat * (Q * Q))) :
  forall st st', loop entries st = Ok st' -> st' = fold_left body entries st.
Proof.
  induction entries as [| entry rest IH]; intros st st' H;
    cbn [for_loop fold_left] in *.
  - inversion H; reflexivity.
  - destruct (step st entry) as [st1 | ex] eqn:E; cbn [bind] in H;
      [| discriminate H].
    apply loop_step_Ok in E. subst st1. apply IH; exact H.
Qed.

(** A loop that raises does so in the product on a speed that the fetch of
    one of its entries returned. *)
Lemma for_loop_Raise (entries : list (nat * (Q * Q))) :
  forall st ex,
    loop entries st = Raise ex ->
    exists i lat lon wd kt,
      In (i, (lat, lon)) entries /\ (i mod 5 = 0)%nat /\
      fetch' i lat lon = Some wd /\ wd_speed_kt wd = Some kt /\
      py_mul_float kt 1.15078 = Raise ex.
Proof.
  induction entries as [| [i [lat lon]] rest IH]; intros st ex H;
    cbn [for_loop] in H; [discriminate H |].
  destruct (step st (i, (lat, lon))) as [st1 | ex1] eqn:E; cbn [bind] in H.
  - destruct (IH st1 ex H) as (i' & lat' & lon' & wd & kt & Hin & Hrest).
    exists i', lat', lon', wd, kt. split; [right; exact Hin | exact Hrest].
  - inversion H; subst ex1.
    destruct (loop_step_Raise st i lat lon ex E) as (Hi & wd & kt & Hrest).
    exists i, lat, lon, wd, kt.
    split; [left; reflexivity |]. split; [exact Hi | exact Hrest].
Qed.

(** A loop none of whose fetches has a speed beyond the range of [float]
    returns. *)
Lemma for_loop_returns (entries : list (nat * (Q * Q))) :
  forall st,
    (forall i lat lon wd kt,
        In (i, (lat, lon)) entries -> (i mod 5 = 0)%nat ->
        fetch' i lat lon = Some wd -> wd_speed_kt wd = Some kt ->
        beyond_float kt = false) ->
    loop entries st = Ok (fold_left body entries st).
Proof.
  induction entries as [| [i [lat lon]] rest IH]; intros st Hfit;
    cbn [for_loop fold_left]; [reflexivity |].
  rewrite loop_step_returns.
  - cbn [bind]. apply IH.
    intros i' lat' lon' wd kt Hin. apply Hfit; right; exact Hin.
  - intros Hi wd kt. apply Hfit; [left; reflexivity | exact Hi].
Qed.

End ForLoopFacts.

(** The endpoint answers with the features of [run_loop] when no fetched
    speed is beyond the range of [float]. *)
Lemma ocean_wind_data_returns (cos : Q -> Q)
  (fromisoformat : string -> option datetime) (int_max_str_digits : nat)
  (format_4f : Q -> string)
  (get_points : string -> result (response points_data))
  (get_grid : string -> result (response grid_data))
  (clock : nat -> Z) (fuel : nat) (grid_points : list (Q * Q)) :
  create_ocean_grid cos fuel = Some (Ok grid_points) ->
  (forall i lat lon wd kt,
      nth_error (firstn 100 grid_points) i = Some (lat, lon) ->
      (i mod 5 = 0)%nat ->
      fetch fromisoformat int_max_str_digits format_4f
        get_points get_grid clock i lat lon = Some wd ->
      wd_speed_kt wd = Some kt ->
      beyond_float kt = false) ->
  ocean_wind_data cos fromisoformat int_max_str_digits format_4f
    get_points get_grid clock fuel
  = Some (FeatureCollection
            (wind_features (run_loop fromisoformat int_max_str_digits format_4f
                              get_points get_grid clock grid_points))).
Proof.
  intros Hgrid Hfit. unfold ocean_wind_data. rewrite Hgrid.
  rewrite for_loop_returns; [reflexivity |].
  intros i lat lon wd kt Hin. apply in_enumerate in Hin.
  apply Hfit; exact Hin.
Qed.

(** The error document stands for an exception of the grid generator, or of
    the product on a speed that a fetch returned. *)
Lemma ocean_wind_data_error (cos : Q -> Q)
  (fromisoformat : string -> option datetime) (int_max_str_digits : nat)
  (format_4f : Q -> string)
  (get_points : string -> result (response points_data))
  (get_grid : string -> result (response grid_data))
  (clock : nat -> Z) (fuel : nat) (ex : exn) :
  ocean_wind_data cos fromisoformat int_max_str_digits format_4f
    get_points get_grid clock fuel = Some (Error500 ex) ->
  create_ocean_grid cos fuel = Some (Raise ex) \/
  exists grid_points i lat lon wd kt,
    create_ocean_grid cos fuel = Some (Ok grid_points) /\
    nth_error (firstn 100 grid_points) i = Some (lat, lon) /\
    (i mod 5 = 0)%nat /\
    fetch fromisoformat int_max_str_digits format_4f
      get_points get_grid clock i lat lon = Some wd /\
    wd_speed_kt wd = Some kt /\
    py_mul_float kt 1.15078 = Raise ex.
Proof.
  unfold ocean_wind_data.
  destruct (create_ocean_grid cos fuel) as [[pts | ex'] |]; [| | discriminate].
  - destruct (for_loop _ _ _ _ _ _ _ _) as [st | ex'] eqn:E; [discriminate |].
    intros H; inversion H; subst ex'. right.
    apply for_loop_Raise in E.
    destruct E as (i & lat & lon & wd & kt & Hin & Hrest).
    apply in_enumerate in Hin.
    exists pts, i, lat, lon, wd, kt.
    split; [reflexivity |]. split; [exact Hin | exact Hrest].
  - intros H; inversion H; left; reflexivity.
Qed.

(** ** Claims on the aggregation run *)


(** C6.  Every feature of the output has a [speed_kt] that is not [None],
    and its [speed_mph] and [speed_kmh] are that speed times 1.15078 and
    times 1.852.  Its [dir_from_deg] may be [None] all the same: the sample
    provider has a current speed and no direction entry. *)
Theorem run_loop_features_carry_speed :
  (forall (fromisoformat : string -> option datetime) (int_max_str_digits : nat)
          (format_4f : Q -> string)
          (get_points : string -> result (response points_data))
          (get_grid : string -> result (response grid_data))
          (clock : nat -> Z) (grid_points : list (Q * Q)) (f : feature),
      In f (wind_features (run_loop fromisoformat int_max_str_digits format_4f
                             get_points get_grid clock grid_points)) ->
      exists kt,
        speed_kt f = Some kt /\
        speed_mph f = kt * 1.15078 /\
        speed_kmh f = kt * 1.852) /\
  (exists f,
      In f (wind_features (run_loop fromisoformat_nws 0 sample_format
                             sample_get_points sample_get_grid sample_clock
                             [(35.0, -75.0)])) /\
      speed_kt f <> None /\
      dir_from_deg f = None).
Proof.
  split.
  - intros fromisoformat lim format_4f get_points get_grid clock grid_points.
    pose (good := fun f : feature =>
                    exists kt, speed_kt f = Some kt /\
                               speed_mph f = kt * 1.15078 /\
                               speed_kmh f = kt * 1.852).
    assert (H : Forall good
                  (wind_features (run_loop fromisoformat lim format_4f
                                    get_points get_grid clock grid_points))).
    { unfold run_loop.
      apply (fold_loop_body_invariant fromisoformat lim format_4f get_points
               get_grid clock (fun st => Forall good (wind_features st)));
        [| constructor].
      intros st [i [lat lon]] _ Hst. unfold loop_body.
      destruct (i mod 5 =? 0)%nat; [| exact Hst].
      cbn [wind_features].
      destruct (fetch _ _ _ _ _ _ _ _ _) as [wd |]; [| exact Hst].
      destruct (wd_speed_kt wd) as [kt |] eqn:Hkt; [| exact Hst].
      apply Forall_app; split; [exact Hst |].
      constructor; [| constructor].
      exists kt; cbn [speed_kt speed_mph speed_kmh]. repeat split. }
    intros f Hin. rewrite Forall_forall in H. exact (H f Hin).
  - exists {| coordinates := (-75.0, 35.0);
              speed_kt := Some (10 * 1.94384);
              dir_from_deg := None;
              speed_mph := 10 * 1.94384 * 1.15078;
              speed_kmh := 10 * 1.94384 * 1.852 |}.
    split; [vm_compute; left; reflexivity |].
    split; [discriminate | reflexivity].
Qed.

Lemma run_loop_features_carry_speed_witness :
  let f := {| coordinates := (-75.0, 35.0);
              speed_kt := Some (10 * 1.94384);
              dir_from_deg := None;
              speed_mph := 10 * 1.94384 * 1.15078;
              speed_kmh := 10 * 1.94384 * 1.852 |} in
  In f (wind_features (run_loop fromisoformat_nws 0 sample_format
                         sample_get_points sample_get_grid sample_clock
                         [(35.0, -75.0)])) /\
  exists kt,
    speed_kt f = Some kt /\
    speed_mph f = kt * 1.15078 /\
    speed_kmh f = kt * 1.852.
Proof.
  cbv zeta.
  assert (Hin : In {| coordinates := (-75.0, 35.0);
                      speed_kt := Some (10 * 1.94384);
                      dir_from_deg := None;
                      speed_mph := 10 * 1.94384 * 1.15078;
                      speed_kmh := 10 * 1.94384 * 1.852 |}
                  (wind_features (run_loop fromisoformat_nws 0 sample_format
                                    sample_get_points sample_get_grid sample_clock
                                    [(35.0, -75.0)])))
    by (vm_compute; left; reflexivity).
  split; [exact Hin |].
  exact (proj1 run_loop_features_carry_speed _ _ _ _ _ _ _ _ Hin).
Defined.

(** C5.  A failure inside a fetch does not reach the caller of the run:
    [get_wind_data] answers [None] whenever its body raises.  When the
    endpoint answers with the error document, the exception is one of the
    grid generator, or one of the product on a speed that a fetch did
    return: it is never one of a fetch.  When every dispatched fetch fails
    or comes back with a speed of [None], the run returns a feature
    collection without features. *)
Theorem ocean_wind_data_survives_failed_fetches
  (cos : Q -> Q)
  (fromisoformat : string -> option datetime) (int_max_str_digits : nat)
  (format_4f : Q -> string)
  (get_points : string -> result (response points_data))
  (get_grid : string -> result (response grid_data))
  (clock : nat -> Z) :
  let run := ocean_wind_data cos fromisoformat int_max_str_digits format_4f
               get_points get_grid clock in
  let fetch_point := fetch fromisoformat int_max_str_digits format_4f
                       get_points get_grid clock in
  (forall t lat lon ex,
      get_wind_data_body fromisoformat int_max_str_digits format_4f
        get_points get_grid t lat lon = Raise ex ->
      get_wind_data fromisoformat int_max_str_digits format_4f
        get_points get_grid t lat lon = None) /\
  (forall fuel ex,
      run fuel = Some (Error500 ex) ->
      create_ocean_grid cos fuel = Some (Raise ex) \/
      exists grid_points i lat lon wd kt,
        create_ocean_grid cos fuel = Some (Ok grid_points) /\
        nth_error (firstn 100 grid_points) i = Some (lat, lon) /\
        (i mod 5 = 0)%nat /\
        fetch_point i lat lon = Some wd /\
        wd_speed_kt wd = Some kt /\
        py_mul_float kt 1.15078 = Raise ex) /\
  (forall fuel grid_points,
      create_ocean_grid cos fuel = Some (Ok grid_points) ->
      (forall i lat lon,
          nth_error (firstn 100 grid_points) i = Some (lat, lon) ->
          (i mod 5 = 0)%nat ->
          nothing_to_emit (fetch_point i lat lon)) ->
      run fuel = Some (FeatureCollection [])).
Proof.
  cbv zeta. split; [| split].
  - intros t lat lon ex H. unfold get_wind_data. rewrite H. reflexivity.
  - intros fuel ex. apply ocean_wind_data_error.
  - intros fuel grid_points Hgrid Hfail.
    rewrite (ocean_wind_data_returns cos fromisoformat int_max_str_digits
               format_4f get_points get_grid clock fuel grid_points Hgrid).
    + do 2 f_equal. unfold run_loop.
      apply (fold_loop_body_invariant fromisoformat int_max_str_digits format_4f
               get_points get_grid clock (fun st => wind_features st = []));
        [| reflexivity].
      intros st [i [lat lon]] Hin Hst. unfold loop_body.
      destruct (i mod 5 =? 0)%nat eqn:Hi; [| exact Hst].
      apply Nat.eqb_eq in Hi. apply in_enumerate in Hin.
      specialize (Hfail i lat lon Hin Hi).
      cbn [wind_features].
      destruct (fetch _ _ _ _ _ _ _ _ _) as [wd |]; [| exact Hst].
      cbn [nothing_to_emit] in Hfail. rewrite Hfail. exact Hst.
    + intros i lat lon wd kt Hin Hi Hf Hkt.
      specialize (Hfail i lat lon Hin Hi). rewrite Hf in Hfail.
      cbn [nothing_to_emit] in Hfail. congruence.
Qed.

Lemma ocean_wind_data_survives_failed_fetches_witness :
  ocean_wind_data coarse_cos fromisoformat_nws 0 sample_format
    failing_get_points sample_get_grid sample_clock 300
  = Some (FeatureCollection []).
Proof.
  destruct coarse_grid_returns as [pts H].
  destruct (ocean_wind_data_survives_failed_fetches coarse_cos fromisoformat_nws 0
              sample_format failing_get_points sample_get_grid sample_clock)
    as (_ & _ & Hrun).
  apply (Hrun 300%nat pts H).
  intros i lat lon _ _. exact I.
Defined.

(** * Further properties of the code *)

(** ** The language of the duration pattern *)

Lemma span_digits_digits_then (ds : string) (c : ascii) (rest : string) :
  all_digits ds = true -> is_digit c = false ->
  span_digits (ds ++ String c rest) = (ds, String c rest).
Proof.
  induction ds as [| d ds IH]; simpl; intros Hd Hc.
  - rewrite Hc; reflexivity.
  - apply andb_true_iff in Hd; destruct Hd as [Hd Hds].
    rewrite Hd, (IH Hds Hc); reflexivity.
Qed.

Lemma span_digits_split (s : string) :
  forall ds r, span_digits s = (ds, r) -> s = (ds ++ r)%string.
Proof.
  induction s as [| c rest IH]; simpl; intros ds r H.
  - inversion H; reflexivity.
  - destruct (is_digit c).
    + destruct (span_digits rest) as [ds' r'] eqn:Hs.
      inversion H; subst; simpl. f_equal. apply IH; reflexivity.
    + inversion H; reflexivity.
Qed.

Lemma opt_group_inv (c : ascii) (s : string) (g : option string) (r : string) :
  opt_group c s = (g, r) -> valid_group g /\ s = with_group g c r.
Proof.
  unfold opt_group.
  destruct (span_digits s) as [ds rest] eqn:Hs.
  pose proof (span_digits_all_digits _ _ _ Hs) as Hd.
  apply span_digits_split in Hs.
  destruct ds as [| d ds'];
    [intros H; inversion H; subst; split; [exact I | reflexivity] |].
  destruct rest as [| x rest'];
    [intros H; inversion H; subst; split; [exact I | reflexivity] |].
  destruct (Ascii.eqb x c) eqn:E; intros H; inversion H; subst;
    [| split; [exact I | reflexivity]].
  apply Ascii.eqb_eq in E; subst x.
  split; [split; [discriminate | exact Hd] | reflexivity].
Qed.

Lemma opt_group_takes (c : ascii) (g : option string) (rest : string) :
  is_digit c = false -> valid_group g ->
  opt_group c rest = (None, rest) ->
  opt_group c (with_group g c rest) = (g, rest).
Proof.
  intros Hc Hg Hrest.
  destruct g as [ds |]; [| exact Hrest].
  destruct Hg as [Hne Hd]. unfold opt_group, with_group.
  rewrite (span_digits_digits_then ds c rest Hd Hc).
  destruct ds as [| d ds']; [contradiction Hne; reflexivity |].
  rewrite Ascii.eqb_refl. reflexivity.
Qed.

Lemma opt_group_skips (c c' : ascii) (g : option string) (rest : string) :
  is_digit c' = false -> c' <> c -> valid_group g ->
  opt_group c rest = (None, rest) ->
  opt_group c (with_group g c' rest) = (None, with_group g c' rest).
Proof.
  intros Hc Hne Hg Hrest.
  destruct g as [ds |]; [| exact Hrest].
  destruct Hg as [_ Hd]. unfold opt_group, with_group.
  rewrite (span_digits_digits_then ds c' rest Hd Hc).
  destruct ds as [| d ds']; [reflexivity |].
  destruct (Ascii.eqb c' c) eqn:E; [| reflexivity].
  apply Ascii.eqb_eq in E; contradiction.
Qed.

(** What [fullmatch] accepts is a duration text of the groups it returns. *)
Lemma fullmatch_sound (s : string) (m : groupdict) :
  fullmatch s = Some m ->
  (valid_group (g_days m) /\ valid_group (g_hours m) /\
   valid_group (g_minutes m) /\ valid_group (g_seconds m)) /\
  (s = duration_text m true \/
   (s = duration_text m false /\
    g_hours m = None /\ g_minutes m = None /\ g_seconds m = None)).
Proof.
  unfold fullmatch.
  destruct s as [| p s1]; [discriminate |].
  destruct (Ascii.eqb p "P") eqn:Hp;
    [apply Ascii.eqb_eq in Hp; subst p |].
  - destruct (opt_group "D" s1) as [days s2] eqn:Hd.
    apply opt_group_inv in Hd; destruct Hd as [Vd ->].
    destruct s2 as [| t s3].
    + intros H; inversion H; subst; simpl.
      split; [auto |]. right; auto.
    + destruct (Ascii.eqb t "T") eqn:Ht;
        [apply Ascii.eqb_eq in Ht; subst t |].
      * destruct (opt_group "H" s3) as [hours s4] eqn:Hh.
        destruct (opt_group "M" s4) as [minutes s5] eqn:Hm.
        destruct (opt_group "S" s5) as [seconds s6] eqn:Hsec.
        apply opt_group_inv in Hh, Hm, Hsec.
        destruct Hh as [Vh ->], Hm as [Vm ->], Hsec as [Vs ->].
        destruct s6; [| discriminate].
        intros H; inversion H; subst; simpl.
        split; [auto |]. left; reflexivity.
      * intros H. exfalso.
        destruct t as [[] [] [] [] [] [] [] []]; try discriminate H.
        discriminate Ht.
  - intros H. exfalso.
    destruct p as [[] [] [] [] [] [] [] []]; try discriminate H.
    discriminate Hp.
Qed.

(** And every duration text of valid groups is accepted, with its groups. *)
Lemma fullmatch_complete (m : groupdict) (time_part : bool) :
  valid_group (g_days m) -> valid_group (g_hours m) ->
  valid_group (g_minutes m) -> valid_group (g_seconds m) ->
  (time_part = false ->
   g_hours m = None /\ g_minutes m = None /\ g_seconds m = None) ->
  fullmatch (duration_text m time_part) = Some m.
Proof.
  intros Vd Vh Vm Vs Ht.
  destruct m as [days hours minutes seconds]; cbn [g_days g_hours g_minutes g_seconds] in *.
  unfold duration_text, time_text; cbn [g_days g_hours g_minutes g_seconds fullmatch].
  destruct time_part.
  - rewrite opt_group_takes; [| reflexivity | exact Vd | reflexivity].
    rewrite opt_group_takes; [| reflexivity | exact Vh |].
    + rewrite opt_group_takes; [| reflexivity | exact Vm |].
      * rewrite opt_group_takes; [reflexivity | reflexivity | exact Vs | reflexivity].
      * apply opt_group_skips; [reflexivity | discriminate | exact Vs | reflexivity].
    + apply opt_group_skips; [reflexivity | discriminate | exact Vm |].
      apply opt_group_skips; [reflexivity | discriminate | exact Vs | reflexivity].
  - destruct (Ht eq_refl) as (-> & -> & ->).
    rewrite opt_group_takes; [reflexivity | reflexivity | exact Vd | reflexivity].
Qed.

(** X1.  [VALID_TIME_DURATION.fullmatch] accepts exactly the texts made of
    the letter [P], an optional group of digits closed by [D], and
    optionally the letter [T] followed by optional groups of digits closed
    by [H], [M] and [S], in this order; the groups it returns are the
    digits of the text, each with at least one digit. *)
Theorem fullmatch_duration_language (s : string) (m : groupdict) :
  fullmatch s = Some m <->
  (valid_group (g_days m) /\ valid_group (g_hours m) /\
   valid_group (g_minutes m) /\ valid_group (g_seconds m)) /\
  (s = duration_text m true \/
   (s = duration_text m false /\
    g_hours m = None /\ g_minutes m = None /\ g_seconds m = None)).
Proof.
  split; [apply fullmatch_sound |].
  intros [(Vd & Vh & Vm & Vs) [-> | (-> & Hnone)]].
  - apply fullmatch_complete; auto. discriminate.
  - apply fullmatch_complete; auto.
Qed.

Lemma fullmatch_duration_language_witness :
  fullmatch "P1DT2H30M" =
  Some {| g_days := Some "1"; g_hours := Some "2";
          g_minutes := Some "30"; g_seconds := None |}.
Proof.
  apply (proj2 (fullmatch_duration_language "P1DT2H30M"
                  {| g_days := Some "1"; g_hours := Some "2";
                     g_minutes := Some "30"; g_seconds := None |})).
  split.
  - repeat split; try discriminate; exact I.
  - left; reflexivity.
Defined.

(** ** More on [parse_valid_time] *)

Lemma all_digits_no_char (c : ascii) (ds : string) :
  is_digit c = false -> all_digits ds = true -> contains_char c ds = false.
Proof.
  intros Hc. induction ds as [| d ds IH]; simpl; intros Hd; [reflexivity |].
  apply andb_true_iff in Hd; destruct Hd as [Hd Hds].
  destruct (Ascii.eqb d c) eqn:E; [| apply IH; exact Hds].
  apply Ascii.eqb_eq in E; subst d. congruence.
Qed.

Lemma contains_char_app (c : ascii) (a b : string) :
  contains_char c (a ++ b) = contains_char c a || contains_char c b.
Proof.
  induction a as [| d a IH]; simpl; [reflexivity |].
  destruct (Ascii.eqb d c); [reflexivity | exact IH].
Qed.

Lemma with_group_no_slash (g : option string) (designator : ascii) (rest : string) :
  valid_group g -> Ascii.eqb designator "/" = false ->
  contains_char "/" rest = false ->
  contains_char "/" (with_group g designator rest) = false.
Proof.
  intros Hg Hd Hrest. destruct g as [ds |]; [| exact Hrest].
  destruct Hg as [_ Hds]. unfold with_group.
  rewrite contains_char_app, (all_digits_no_char "/" ds eq_refl Hds).
  simpl. rewrite Hd. exact Hrest.
Qed.

(** A text of the grammar holds no separator. *)
Lemma fullmatch_no_slash (s : string) (m : groupdict) :
  fullmatch s = Some m -> contains_char "/" s = false.
Proof.
  intros H. apply fullmatch_sound in H.
  destruct H as [(Vd & Vh & Vm & Vs) [-> | (-> & _)]];
    unfold duration_text, time_text; cbn [contains_char Ascii.eqb];
    change (Ascii.eqb "P" "/") with false; cbv iota.
  - apply with_group_no_slash; [exact Vd | reflexivity |].
    cbn [contains_char]. change (Ascii.eqb "T" "/") with false; cbv iota.
    repeat (apply with_group_no_slash; [assumption | reflexivity |]).
    reflexivity.
  - apply with_group_no_slash; [exact Vd | reflexivity | reflexivity].
Qed.

Lemma string_app_assoc (a b c : string) :
  ((a ++ b) ++ c = a ++ (b ++ c))%string.
Proof.
  induction a as [| d a IH]; simpl; [reflexivity | rewrite IH; reflexivity].
Qed.

Lemma replace_Z_app (a b : string) :
  replace_Z (a ++ b) = (replace_Z a ++ replace_Z b)%string.
Proof.
  induction a as [| d a IH]; simpl; [reflexivity |].
  destruct (Ascii.eqb d "Z"); rewrite IH; reflexivity.
Qed.

Lemma split_once_at_first (c : ascii) (a b : string) :
  contains_char c a = false ->
  split_once c (a ++ String c b) = (a, b).
Proof.
  induction a as [| d a IH]; simpl; intros H.
  - rewrite Ascii.eqb_refl; reflexivity.
  - destruct (Ascii.eqb d c); [discriminate |].
    rewrite (IH H); reflexivity.
Qed.

Lemma has_separator_app (a b : string) :
  has_separator (a ++ String "/" b) = true.
Proof.
  unfold has_separator. rewrite contains_char_app.
  cbn [contains_char]. rewrite Ascii.eqb_refl, orb_true_r.
  destruct a; reflexivity.
Qed.

Section ParseMore.

Variable fromisoformat : string -> option datetime.
Variable int_max_str_digits : nat.

Local Abbreviation parse := (parse_valid_time fromisoformat int_max_str_digits).

Lemma group_int_value (g : option string) (n : Z) :
  group_int int_max_str_digits g = Ok n -> n = group_value g.
Proof.
  destruct g as [ds |]; simpl.
  - destruct (_ && _); intros H; inversion H; reflexivity.
  - intros H; inversion H; reflexivity.
Qed.

Lemma decode_duration_value (duration_str : string) (delta : Z) :
  decode_duration int_max_str_digits duration_str = Some (Ok delta) ->
  exists m,
    fullmatch duration_str = Some m /\
    delta = (groups_seconds m * US_PER_SECOND)%Z.
Proof.
  unfold decode_duration.
  destruct (fullmatch duration_str) as [m |]; [| discriminate].
  intros H; inversion H as [H']; clear H.
  bind_inv H'. bind_inv H'. bind_inv H'. bind_inv H'.
  apply group_int_value in Hbind, Hbind0, Hbind1, Hbind2.
  apply timedelta_Ok in H'. subst.
  exists m; split; reflexivity.
Qed.

End ParseMore.

(** X2.  When [parse_valid_time] returns a start and an end, the start is
    the parsed left part of the string, the end carries the same UTC
    offset, and the end lies later than the start by exactly the days,
    hours, minutes and seconds written in the right part. *)
Theorem parse_valid_time_interval_length
  (fromisoformat : string -> option datetime) (int_max_str_digits : nat)
  (valid_time : string) (start_dt end_dt : datetime) :
  parse_valid_time fromisoformat int_max_str_digits valid_time
    = Ok (Some start_dt, Some end_dt) ->
  start_of fromisoformat valid_time = Some start_dt /\
  utcoffset end_dt = utcoffset start_dt /\
  exists m,
    fullmatch (right_part valid_time) = Some m /\
    (wall end_dt - wall start_dt
     = (group_value (g_days m) * 86400 + group_value (g_hours m) * 3600
        + group_value (g_minutes m) * 60 + group_value (g_seconds m))
       * 1000000)%Z.
Proof.
  intros H.
  destruct (parse_valid_time_concrete _ _ _ _ _ H)
    as (delta & _ & Hs & Hd & _ & Hw & Ho).
  destruct (decode_duration_value _ _ _ Hd) as (m & Hm & ->).
  split; [exact Hs |]. split; [exact Ho |].
  exists m; split; [exact Hm |].
  unfold groups_seconds, US_PER_SECOND in Hw. lia.
Qed.

Lemma parse_valid_time_interval_length_witness :
  exists m,
    fullmatch (right_part "2024-01-01T00:00:00Z/P1DT2H3M4S") = Some m /\
    (wall (utc_now (NEW_YEAR_2024 + 93784000000))
     - wall (utc_now NEW_YEAR_2024)
     = (group_value (g_days m) * 86400 + group_value (g_hours m) * 3600
        + group_value (g_minutes m) * 60 + group_value (g_seconds m))
       * 1000000)%Z.
Proof.
  apply (parse_valid_time_interval_length fromisoformat_nws 0
           "2024-01-01T00:00:00Z/P1DT2H3M4S"
           (utc_now NEW_YEAR_2024) (utc_now (NEW_YEAR_2024 + 93784000000))).
  vm_compute. reflexivity.
Defined.

(** X3.  A timestamp closed by the letter [Z] is read like the same
    timestamp closed by [+00:00]: the two strings have the same parse,
    whatever the duration text. *)
Theorem parse_valid_time_Z_is_utc
  (fromisoformat : string -> option datetime) (int_max_str_digits : nat)
  (timestamp duration_str : string) :
  contains_char "/" timestamp = false ->
  parse_valid_time fromisoformat int_max_str_digits
    (timestamp ++ "Z/" ++ duration_str)
  = parse_valid_time fromisoformat int_max_str_digits
      (timestamp ++ "+00:00/" ++ duration_str).
Proof.
  intros H.
  assert (E1 : (timestamp ++ "Z/" ++ duration_str
                = (timestamp ++ "Z") ++ String "/" duration_str)%string)
    by (rewrite string_app_assoc; reflexivity).
  assert (E2 : (timestamp ++ "+00:00/" ++ duration_str
                = (timestamp ++ "+00:00") ++ String "/" duration_str)%string)
    by (rewrite string_app_assoc; reflexivity).
  rewrite E1, E2.
  rewrite !parse_valid_time_unfold, !has_separator_app.
  unfold start_of, left_part, right_part.
  rewrite !split_once_at_first
    by (rewrite contains_char_app, H; reflexivity).
  cbn [fst snd]. rewrite !replace_Z_app. reflexivity.
Qed.

Lemma parse_valid_time_Z_is_utc_witness :
  parse_valid_time fromisoformat_nws 0 ("2024-01-01T00:00:00" ++ "Z/" ++ "PT6H")
  = parse_valid_time fromisoformat_nws 0
      ("2024-01-01T00:00:00" ++ "+00:00/" ++ "PT6H").
Proof.
  apply (parse_valid_time_Z_is_utc fromisoformat_nws 0
           "2024-01-01T00:00:00" "PT6H").
  reflexivity.
Defined.

(** X4.  Only the first ["/"] separates: a string with a second ["/"] has
    it in its duration text, which then fails the grammar, so the parse
    never has an end.  It is the parsed start alone, or nothing when the
    timestamp does not parse. *)
Theorem parse_valid_time_second_separator
  (fromisoformat : string -> option datetime) (int_max_str_digits : nat)
  (valid_time : string) :
  has_separator valid_time = true ->
  contains_char "/" (right_part valid_time) = true ->
  parse_valid_time fromisoformat int_max_str_digits valid_time
  = match start_of fromisoformat valid_time with
    | Some start_dt => Ok (Some start_dt, None)
    | None => Ok (None, None)
    end.
Proof.
  intros Hsep Hslash.
  rewrite parse_valid_time_unfold, Hsep.
  destruct (start_of fromisoformat valid_time) as [sd |]; [| reflexivity].
  unfold decode_duration.
  destruct (fullmatch (right_part valid_time)) as [m |] eqn:Hm; [| reflexivity].
  apply fullmatch_no_slash in Hm. congruence.
Qed.

Lemma parse_valid_time_second_separator_witness :
  parse_valid_time fromisoformat_nws 0 "2024-01-01T00:00:00Z/PT6H/PT1H"
  = Ok (Some (utc_now NEW_YEAR_2024), None).
Proof.
  apply (parse_valid_time_second_separator fromisoformat_nws 0
           "2024-01-01T00:00:00Z/PT6H/PT1H"); reflexivity.
Defined.

(** X5.  [parse_valid_time] never returns an end without a start, and a
    start it returns, with or without an end, is always what
    [fromisoformat] makes of the text in front of the first ["/"]. *)
Theorem parse_valid_time_result_shape
  (fromisoformat : string -> option datetime) (int_max_str_digits : nat)
  (valid_time : string) :
  (forall end_dt,
      parse_valid_time fromisoformat int_max_str_digits valid_time
        <> Ok (None, Some end_dt)) /\
  (forall start_dt e,
      parse_valid_time fromisoformat int_max_str_digits valid_time
        = Ok (Some start_dt, e) ->
      has_separator valid_time = true /\
      fromisoformat (replace_Z (left_part valid_time)) = Some start_dt).
Proof.
  rewrite parse_valid_time_unfold. unfold start_of.
  destruct (has_separator valid_time);
    [| split; [discriminate | intros sd e H; discriminate H]].
  destruct (fromisoformat (replace_Z (left_part valid_time))) as [sd |];
    [| split; [discriminate | intros sd e H; discriminate H]].
  destruct (decode_duration int_max_str_digits (right_part valid_time))
    as [[delta | ex] |]; simpl.
  - destruct (delta =? 0)%Z.
    + split; [discriminate | intros sd' e H; discriminate H].
    + destruct (datetime_add sd delta) as [ed | ex]; simpl.
      * split; [discriminate |].
        intros sd' e H; inversion H; subst; auto.
      * split; [discriminate | intros sd' e H; discriminate H].
  - split; [discriminate | intros sd' e H; discriminate H].
  - split; [discriminate |].
    intros sd' e H; inversion H; subst; auto.
Qed.

Lemma parse_valid_time_result_shape_witness :
  has_separator "2024-01-01T00:00:00+00:00/6H" = true /\
  fromisoformat_nws (replace_Z (left_part "2024-01-01T00:00:00+00:00/6H"))
    = Some (utc_now NEW_YEAR_2024).
Proof.
  apply (proj2 (parse_valid_time_result_shape fromisoformat_nws 0
                  "2024-01-01T00:00:00+00:00/6H")
           (utc_now NEW_YEAR_2024) None).
  reflexivity.
Defined.

(** ** More on the conversions *)





(** X7.  At a latitude whose cosine lies in (0, 1] both conversions of a
    distance that is not negative return, the longitude step times the
    cosine is the latitude step, and the longitude step is never the
    smaller of the two. *)
Theorem km_to_deg_lon_widens (cos : Q -> Q) (km lat : Q) :
  0 < cos (radians lat) <= 1 ->
  0 <= km ->
  exists lat_step lon_step,
    km_to_deg_lat km = Ok lat_step /\
    km_to_deg_lon cos km lat = Ok lon_step /\
    lon_step * cos (radians lat) == lat_step /\
    0 <= lat_step <= lon_step.
Proof.
  intros [Hpos Hle] Hkm.
  set (c := cos (radians lat)) in *.
  unfold km_to_deg_lat, km_to_deg_lon, py_div. fold c.
  replace (Qeq_bool 111.32 0) with false by reflexivity.
  destruct (Qeq_bool (111.32 * c) 0) eqn:E.
  - apply Qeq_bool_iff in E. lra.
  - exists (km / 111.32), (km / (111.32 * c)).
    split; [reflexivity |]. split; [reflexivity |].
    assert (Hprod : km / (111.32 * c) * c == km / 111.32)
      by (field; lra).
    assert (Hlat : 0 <= km / 111.32).
    { apply Qle_shift_div_l; [reflexivity | lra]. }
    assert (Hlon : 0 <= km / (111.32 * c)).
    { apply Qle_shift_div_l; [| lra].
      apply Qmult_lt_0_compat; [reflexivity | exact Hpos]. }
    split; [exact Hprod |]. split; [exact Hlat |].
    rewrite <- Hprod.
    setoid_replace (km / (111.32 * c)) with (km / (111.32 * c) * 1) at 2
      by ring.
    apply Qmult_le_compat_nonneg; split; lra.
Qed.

Lemma km_to_deg_lon_widens_witness :
  exists lat_step lon_step,
    km_to_deg_lat 10 = Ok lat_step /\
    km_to_deg_lon coarse_cos 10 24.0 = Ok lon_step /\
    lon_step * coarse_cos (radians 24.0) == lat_step /\
    0 <= lat_step <= lon_step.
Proof.
  apply (km_to_deg_lon_widens coarse_cos 10 24.0).
  - split; [reflexivity | discriminate].
  - discriminate.
Defined.

(** ** The positions the generator visits *)

Lemma stepped_succ_l (start step : Q) (k : nat) :
  stepped (start + step) step k = stepped start step (S k).
Proof.
  induction k as [| k IH]; [reflexivity |].
  change (stepped (start + step) step k + step
          = stepped start step (S k) + step).
  rewrite IH. reflexivity.
Qed.


Lemma stepped_increasing (start step : Q) (i j : nat) :
  0 <= step -> (i <= j)%nat -> stepped start step i <= stepped start step j.
Proof.
  intros Hs Hij. induction Hij as [| j Hij IH]; [lra |].
  change (stepped start step (S j)) with (stepped start step j + step). lra.
Qed.

Lemma in_row_points (lat lon_step : Q) (n : nat) :
  forall lon p,
    In p (row_points lat lon_step lon n) <->
    exists j, (j < n)%nat /\
              ocean lat (stepped lon lon_step j) = true /\
              p = (lat, stepped lon lon_step j).
Proof.
  induction n as [| n IH]; intros lon p; cbn [row_points].
  - split; [contradiction | intros (j & Hj & _); lia].
  - rewrite in_app_iff, IH. split.
    + intros [H | (j & Hj & Ho & Hp)].
      * exists 0%nat. change (stepped lon lon_step 0) with lon.
        destruct (ocean lat lon); [| contradiction].
        destruct H as [H | []]. split; [lia | split; [reflexivity | symmetry; exact H]].
      * exists (S j). rewrite <- stepped_succ_l.
        split; [lia | split; assumption].
    + intros (j & Hj & Ho & Hp). destruct j as [| j].
      * left. change (stepped lon lon_step 0) with lon in Ho, Hp.
        rewrite Ho. left; symmetry; exact Hp.
      * right. exists j. rewrite stepped_succ_l.
        split; [lia | split; assumption].
Qed.

(** A row that is left has appended the ocean points among the positions
    it visited, which are those up to the first one east of the region. *)
Lemma lon_loop_exact (lat lon_step : Q) (fuel : nat) :
  forall lon points r,
    lon_loop fuel lat lon_step lon points = Some r ->
    exists n,
      r = (points ++ row_points lat lon_step lon n)%list /\
      (forall i, (i < n)%nat ->
                 stepped lon lon_step i <= east EAST_COAST_BOUNDS) /\
      east EAST_COAST_BOUNDS < stepped lon lon_step n.
Proof.
  induction fuel as [| fuel IH]; intros lon points r H; [discriminate |].
  cbn [lon_loop] in H.
  destruct (Qle_bool lon (east EAST_COAST_BOUNDS)) eqn:Hg.
  - apply Qle_bool_iff in Hg.
    apply IH in H. destruct H as (n & Hr & Hin & Hout).
    exists (S n). split; [| split].
    + rewrite Hr. cbn [row_points].
      destruct (ocean lat lon); rewrite <- ?app_assoc; reflexivity.
    + intros [| i] Hi; [exact Hg |].
      rewrite <- stepped_succ_l. apply Hin; lia.
    + rewrite <- stepped_succ_l. exact Hout.
  - inversion H; subst. exists 0%nat.
    split; [rewrite app_nil_r; reflexivity |].
    split; [intros i Hi; lia |].
    apply Qle_bool_false; exact Hg.
Qed.

(** The row that starts at the west edge: its step is positive, and it
    holds exactly the ocean points at the positions not east of the
    region. *)
Lemma lon_loop_from_west (lat lon_step : Q) (fuel : nat) (points r : list (Q * Q)) :
  lon_loop fuel lat lon_step (west EAST_COAST_BOUNDS) points = Some r ->
  0 < lon_step /\
  exists row,
    r = (points ++ row)%list /\
    forall p,
      In p row <->
      exists j,
        stepped (west EAST_COAST_BOUNDS) lon_step j <= east EAST_COAST_BOUNDS /\
        ocean lat (stepped (west EAST_COAST_BOUNDS) lon_step j) = true /\
        p = (lat, stepped (west EAST_COAST_BOUNDS) lon_step j).
Proof.
  intros H.
  assert (Hpos : 0 < lon_step).
  { destruct (Qlt_le_dec 0 lon_step) as [Hp | Hn]; [exact Hp |].
    rewrite lon_loop_stuck in H; [discriminate | exact Hn |].
    bounds; lra. }
  split; [exact Hpos |].
  apply lon_loop_exact in H. destruct H as (n & Hr & Hin & Hout).
  exists (row_points lat lon_step (west EAST_COAST_BOUNDS) n).
  split; [exact Hr |].
  intros p. rewrite in_row_points. split.
  - intros (j & Hj & Ho & Hp). exists j. split; [apply Hin; exact Hj | auto].
  - intros (j & Hj & Ho & Hp). exists j. split; [| auto].
    destruct (Nat.lt_ge_cases j n) as [Hlt | Hge]; [exact Hlt |].
    pose proof (stepped_increasing (west EAST_COAST_BOUNDS) lon_step n j
                  (Qlt_le_weak _ _ Hpos) Hge).
    lra.
Qed.

Section GridExact.

Variable cos : Q -> Q.

Lemma km_to_deg_lat_10_value (lat_step : Q) :
  km_to_deg_lat 10 = Ok lat_step -> lat_step = LAT_STEP.
Proof.
  unfold km_to_deg_lat. intros H.
  apply py_div_Ok in H. destruct H as [_ ->]. reflexivity.
Qed.

(** The grid holds exactly the ocean points of the rows and positions that
    lie in the region. *)
Lemma create_ocean_grid_exact (fuel : nat) (pts : list (Q * Q)) :
  create_ocean_grid cos fuel = Some (Ok pts) ->
  forall p, In p pts <-> exists k j, grid_position cos k j p.
Proof.
  unfold create_ocean_grid; cbv zeta.
  destruct (km_to_deg_lat 10) as [lat_step | ex] eqn:Hk; [| discriminate].
  apply km_to_deg_lat_10_value in Hk; subst lat_step.
  intros H.
  pose (J := fun (lat : Q) (points : list (Q * Q)) =>
               exists K,
                 lat = stepped (south EAST_COAST_BOUNDS) LAT_STEP K /\
                 forall p, In p points <->
                           exists k j, (k < K)%nat /\ grid_position cos k j p).
  destruct (lat_loop_invariant cos J fuel LAT_STEP) with (3 := H)
    as (lat' & (K & -> & Hmem) & Hout).
  - intros lat points lon_step points' (K & -> & Hmem) Hnorth Hstep Hrow.
    apply lon_loop_from_west in Hrow.
    destruct Hrow as (_ & row & -> & Hrow).
    exists (S K). split; [reflexivity |].
    intros p. rewrite in_app_iff, Hmem, Hrow. split.
    + intros [(k & j & Hk & Hp) | (j & Hj & Ho & Hp)].
      * exists k, j. split; [lia | exact Hp].
      * exists K, j. split; [lia |].
        exists lon_step. repeat split; assumption.
    + intros (k & j & Hk & Hp).
      destruct (Nat.eq_dec k K) as [-> | Hne].
      * right. destruct Hp as (lon_step' & Hs & _ & Hj & Ho & Hp).
        rewrite Hstep in Hs. inversion Hs; subst lon_step'.
        exists j. repeat split; assumption.
      * left. exists k, j. split; [lia | exact Hp].
  - exists 0%nat. split; [reflexivity |].
    intros p; split; [contradiction | intros (k & j & Hk & _); lia].
  - intros p. rewrite Hmem. split.
    + intros (k & j & _ & Hp). exists k, j; exact Hp.
    + intros (k & j & Hp). exists k, j. split; [| exact Hp].
      destruct Hp as (lon_step & _ & Hnorth & _).
      destruct (Nat.lt_ge_cases k K) as [Hlt | Hge]; [exact Hlt |].
      assert (Hs : 0 <= LAT_STEP) by discriminate.
      pose proof (stepped_increasing (south EAST_COAST_BOUNDS) LAT_STEP K k
                    Hs Hge).
      lra.
Qed.

(** The loop over the rows only appends. *)
Lemma lat_loop_extends (fuel rows : nat) (lat_step lat : Q)
  (points r : list (Q * Q)) :
  lat_loop cos fuel rows lat_step lat points = Some (Ok r) ->
  exists ext, r = (points ++ ext)%list.
Proof.
  intros H.
  pose (J := fun (_ : Q) (l : list (Q * Q)) =>
               exists ext, l = (points ++ ext)%list).
  destruct (lat_loop_invariant cos J fuel lat_step) with (3 := H)
    as (lat' & Hext & _); [| exists []; rewrite app_nil_r; reflexivity
                           | exact Hext].
  intros row l lon_step l' (ext & ->) _ _ Hrow.
  apply lon_loop_exact in Hrow. destruct Hrow as (n & -> & _).
  eexists. rewrite <- app_assoc. reflexivity.
Qed.

(** The first point of every grid is the south-west corner. *)
Lemma create_ocean_grid_head (fuel : nat) (pts : list (Q * Q)) :
  create_ocean_grid cos fuel = Some (Ok pts) ->
  exists rest, pts = (24.0, -82.0) :: rest.
Proof.
  unfold create_ocean_grid; cbv zeta.
  destruct (km_to_deg_lat 10) as [lat_step | ex]; [| discriminate].
  destruct fuel as [| fuel]; [discriminate |].
  cbn [lat_loop].
  replace (Qle_bool (south EAST_COAST_BOUNDS) (north EAST_COAST_BOUNDS))
    with true by reflexivity.
  destruct (km_to_deg_lon cos 10 (south EAST_COAST_BOUNDS))
    as [lon_step | ex]; [| discriminate].
  destruct (lon_loop (S fuel) (south EAST_COAST_BOUNDS) lon_step
              (west EAST_COAST_BOUNDS) []) as [points' |] eqn:Hrow;
    [| discriminate].
  intros H. apply lat_loop_extends in H. destruct H as (ext & ->).
  apply lon_loop_exact in Hrow. destruct Hrow as (n & -> & _ & Hout).
  destruct n as [| n].
  - exfalso. change (stepped (west EAST_COAST_BOUNDS) lon_step 0)
      with (west EAST_COAST_BOUNDS) in Hout. bounds; lra.
  - cbn [row_points].
    replace (ocean (south EAST_COAST_BOUNDS) (west EAST_COAST_BOUNDS))
      with true by reflexivity.
    eexists. reflexivity.
Qed.

(** A negative cosine at the first row: the row never ends. *)
Lemma create_ocean_grid_stuck (fuel : nat) :
  cos (radians (south EAST_COAST_BOUNDS)) < 0 ->
  create_ocean_grid cos fuel = None.
Proof.
  intros Hneg.
  unfold create_ocean_grid; cbv zeta.
  destruct (km_to_deg_lat 10) as [lat_step | ex] eqn:Hk;
    [| discriminate Hk].
  destruct fuel as [| fuel]; [reflexivity |].
  cbn [lat_loop].
  replace (Qle_bool (south EAST_COAST_BOUNDS) (north EAST_COAST_BOUNDS))
    with true by reflexivity.
  destruct (km_to_deg_lon cos 10 (south EAST_COAST_BOUNDS))
    as [lon_step | ex] eqn:Hs.
  - apply py_div_Ok in Hs. destruct Hs as [Hnz ->].
    rewrite lon_loop_stuck; [reflexivity | | bounds; lra].
    set (d := 111.32 * cos (radians (south EAST_COAST_BOUNDS))) in *.
    assert (Hd : d < 0) by (unfold d; lra).
    destruct (Qlt_le_dec 0 (10 / d)) as [Hp | Hn]; [| exact Hn].
    exfalso.
    assert (E : 10 / d * d == 10) by (field; exact Hnz).
    assert (Hlt : 10 / d * d < 10 / d * 0)
      by (apply Qmult_lt_l; assumption).
    lra.
  - exfalso. unfold km_to_deg_lon, py_div in Hs.
    destruct (Qeq_bool (111.32 * cos (radians (south EAST_COAST_BOUNDS))) 0)
      eqn:E; [| discriminate Hs].
    apply Qeq_bool_iff in E. lra.
Qed.

End GridExact.

(** ** Further properties of the grid generator *)

(** X8.  Under a cosine that is positive everywhere the generator returns:
    some number of iterations is enough for every loop, and every larger
    number gives the same grid. *)
Theorem create_ocean_grid_terminates (cos : Q -> Q) :
  (forall x, 0 < cos x) ->
  exists fuel pts,
    forall fuel', (fuel <= fuel')%nat ->
                  create_ocean_grid cos fuel' = Some (Ok pts).
Proof.
  intros Hpos.
  destruct (create_ocean_grid_returns cos Hpos) as (fuel & pts & H).
  exists fuel, pts. intros fuel' Hle.
  exact (create_ocean_grid_more_fuel cos fuel fuel' (Ok pts) Hle H).
Qed.

Lemma create_ocean_grid_terminates_witness :
  exists fuel pts,
    forall fuel', (fuel <= fuel')%nat ->
                  create_ocean_grid coarse_cos fuel' = Some (Ok pts).
Proof.
  apply (create_ocean_grid_terminates coarse_cos).
  intros x. reflexivity.
Defined.

(** X9.  Under a cosine that is negative at the south edge the longitude
    step of the first row is negative, the inner loop moves west for ever,
    and the generator does not return, whatever the number of
    iterations. *)
Theorem create_ocean_grid_diverges (cos : Q -> Q) :
  cos (radians 24.0) < 0 ->
  forall fuel, create_ocean_grid cos fuel = None.
Proof.
  intros Hneg fuel. apply create_ocean_grid_stuck. exact Hneg.
Qed.

Lemma create_ocean_grid_diverges_witness :
  create_ocean_grid negative_cos 1000 = None.
Proof.
  apply (create_ocean_grid_diverges negative_cos); reflexivity.
Defined.

(** X10.  The grid is in generation order: of two points the earlier one
    has the smaller latitude, or the same latitude and the smaller
    longitude. *)
Theorem create_ocean_grid_in_generation_order
  (cos : Q -> Q) (fuel : nat) (pts : list (Q * Q)) :
  create_ocean_grid cos fuel = Some (Ok pts) ->
  StronglySorted
    (fun p q => fst p < fst q \/ (fst p == fst q /\ snd p < snd q)) pts.
Proof.
  unfold create_ocean_grid; cbv zeta.
  destruct (km_to_deg_lat 10) as [lat_step | ex] eqn:Hk; [| discriminate].
  apply km_to_deg_lat_10 in Hk. intros H.
  exact (proj2 (lat_loop_rows cos fuel fuel lat_step pts Hk H)).
Qed.

Lemma create_ocean_grid_in_generation_order_witness :
  exists pts,
    create_ocean_grid coarse_cos 300 = Some (Ok pts) /\
    StronglySorted
      (fun p q => fst p < fst q \/ (fst p == fst q /\ snd p < snd q)) pts.
Proof.
  destruct coarse_grid_returns as [pts H].
  exists pts. split; [exact H |].
  exact (create_ocean_grid_in_generation_order coarse_cos 300 pts H).
Defined.

(** X11.  A grid is never empty: its first point is the south-west corner
    of the region, (24.0, -82.0), and the first fetch of a run over the
    grid is for that point. *)
Theorem create_ocean_grid_starts_at_corner
  (cos : Q -> Q) (fuel : nat) (pts : list (Q * Q)) :
  create_ocean_grid cos fuel = Some (Ok pts) ->
  hd_error pts = Some (24.0, -82.0) /\
  forall fromisoformat int_max_str_digits format_4f get_points get_grid clock,
    hd_error (dispatched (run_loop fromisoformat int_max_str_digits format_4f
                            get_points get_grid clock pts))
    = Some (24.0, -82.0).
Proof.
  intros H.
  destruct (create_ocean_grid_head cos fuel pts H) as [rest ->].
  split; [reflexivity |].
  intros. rewrite run_loop_dispatched. reflexivity.
Qed.

Lemma create_ocean_grid_starts_at_corner_witness :
  exists pts,
    create_ocean_grid coarse_cos 300 = Some (Ok pts) /\
    hd_error pts = Some (24.0, -82.0).
Proof.
  destruct coarse_grid_returns as [pts H].
  exists pts. split; [exact H |].
  exact (proj1 (create_ocean_grid_starts_at_corner coarse_cos 300 pts H)).
Defined.

(** X12.  The grid holds exactly the ocean points of a lattice: a pair is
    in the grid if and only if its latitude is 24.0 plus [k] times the
    latitude step 10 / 111.32 and not above 45.0, its longitude is -82.0
    plus [j] times the longitude step of that latitude and not above
    -65.0, for some [k] and [j], and the pair passes the inclusion test.
    The sums are the repeated additions of the loops, [stepped]. *)
Theorem create_ocean_grid_is_the_lattice
  (cos : Q -> Q) (fuel : nat) (pts : list (Q * Q)) :
  create_ocean_grid cos fuel = Some (Ok pts) ->
  forall lat lon,
    In (lat, lon) pts <->
    exists k j lon_step,
      lat = stepped 24.0 (10 / 111.32) k /\
      lat <= 45.0 /\
      km_to_deg_lon cos 10 lat = Ok lon_step /\
      lon = stepped (-82.0) lon_step j /\
      lon <= -65.0 /\
      ocean lat lon = true.
Proof.
  intros H lat lon.
  rewrite (create_ocean_grid_exact cos fuel pts H). unfold grid_position.
  split.
  - intros (k & j & lon_step & Hs & Hn & He & Ho & Hp).
    inversion Hp; subst.
    exists k, j, lon_step. repeat split; assumption.
  - intros (k & j & lon_step & -> & Hn & Hs & -> & He & Ho).
    exists k, j, lon_step. repeat split; assumption.
Qed.

Lemma create_ocean_grid_is_the_lattice_witness :
  exists pts,
    create_ocean_grid coarse_cos 300 = Some (Ok pts) /\
    In (stepped 24.0 (10 / 111.32) 1, stepped (-82.0) (10 / (111.32 * (1 # 100))) 0)
       pts.
Proof.
  destruct coarse_grid_returns as [pts H].
  exists pts. split; [exact H |].
  apply (proj2 (create_ocean_grid_is_the_lattice coarse_cos 300 pts H _ _)).
  exists 1%nat, 0%nat, (10 / (111.32 * (1 # 100))).
  repeat split; try reflexivity; discriminate.
Defined.

(** ** Subsequences *)

Lemma subsequence_refl (A : Type) (l : list A) : subsequence l l.
Proof.
  induction l as [| x l IH]; constructor; exact IH.
Qed.

Lemma subsequence_nil_l (A : Type) (l : list A) : subsequence [] l.
Proof.
  induction l as [| x l IH]; constructor; exact IH.
Qed.

Lemma subsequence_trans (A : Type) (l1 l2 l3 : list A) :
  subsequence l1 l2 -> subsequence l2 l3 -> subsequence l1 l3.
Proof.
  intros H12 H23. revert l1 H12.
  induction H23 as [| x sub l H IH | x sub l H IH]; intros l1 H12.
  - exact H12.
  - constructor. apply IH; exact H12.
  - inversion H12; subst.
    + apply subsequence_skip. apply IH; assumption.
    + apply subsequence_take. apply IH; assumption.
Qed.

Lemma subsequence_In (A : Type) (sub l : list A) (x : A) :
  subsequence sub l -> In x sub -> In x l.
Proof.
  intros H. induction H as [| y sub l H IH | y sub l H IH]; intros Hin.
  - exact Hin.
  - right; apply IH; exact Hin.
  - destruct Hin as [-> | Hin]; [left; reflexivity | right; apply IH; exact Hin].
Qed.

Lemma subsequence_length (A : Type) (sub l : list A) :
  subsequence sub l -> (List.length sub <= List.length l)%nat.
Proof.
  intros H. induction H; simpl; lia.
Qed.

Lemma subsequence_Forall (A : Type) (P : A -> Prop) (sub l : list A) :
  subsequence sub l -> Forall P l -> Forall P sub.
Proof.
  intros H Hall. rewrite Forall_forall in *.
  intros x Hx. apply Hall. eapply subsequence_In; eassumption.
Qed.

Lemma subsequence_StronglySorted (A : Type) (R : A -> A -> Prop) (sub l : list A) :
  subsequence sub l -> StronglySorted R l -> StronglySorted R sub.
Proof.
  intros H. induction H as [| y sub l H IH | y sub l H IH]; intros Hs.
  - exact Hs.
  - apply StronglySorted_inv in Hs. apply IH; apply Hs.
  - apply StronglySorted_inv in Hs. destruct Hs as [Hs Hy].
    constructor; [apply IH; exact Hs |].
    eapply subsequence_Forall; eassumption.
Qed.

Lemma subsequence_firstn (A : Type) (n : nat) (l : list A) :
  subsequence (firstn n l) l.
Proof.
  revert l. induction n as [| n IH]; intros l.
  - apply subsequence_nil_l.
  - destruct l as [| x l]; [constructor |].
    cbn [firstn]. apply subsequence_take. apply IH.
Qed.

Lemma subsequence_every_fifth (A : Type) (l : list A) :
  forall i, subsequence (every_fifth i l) l.
Proof.
  induction l as [| x l IH]; intros i; cbn [every_fifth]; [constructor |].
  destruct (i mod 5 =? 0)%nat;
    [apply subsequence_take | apply subsequence_skip]; apply IH.
Qed.

(** ** The features of a run *)

Section RunFacts.

Variable fromisoformat : string -> option datetime.
Variable int_max_str_digits : nat.
Variable format_4f : Q -> string.
Variable get_points : string -> result (response points_data).
Variable get_grid : string -> result (response grid_data).
Variable clock : nat -> Z.

Local Abbreviation body :=
  (loop_body fromisoformat int_max_str_digits format_4f get_points get_grid clock).
Local Abbreviation run :=
  (run_loop fromisoformat int_max_str_digits format_4f get_points get_grid clock).
Local Abbreviation fetch' :=
  (fetch fromisoformat int_max_str_digits format_4f get_points get_grid clock).
Local Abbreviation emitted' :=
  (emitted fromisoformat int_max_str_digits format_4f get_points get_grid clock).

(** The loop as a comprehension over the enumeration. *)
Lemma fold_loop_body_features (entries : list (nat * (Q * Q))) :
  forall st,
    wind_features (fold_left body entries st)
    = (wind_features st ++ flat_map emitted' entries)%list.
Proof.
  induction entries as [| [i [lat lon]] rest IH]; intros st;
    cbn [fold_left flat_map].
  - rewrite app_nil_r; reflexivity.
  - rewrite IH, app_assoc. f_equal.
    unfold loop_body, emitted.
    destruct (i mod 5 =? 0)%nat; [| rewrite app_nil_r; reflexivity].
    cbn [wind_features].
    destruct (fetch _ _ _ _ _ _ _ _ _) as [wd |];
      [| rewrite app_nil_r; reflexivity].
    destruct (wd_speed_kt wd); [reflexivity | rewrite app_nil_r; reflexivity].
Qed.

Lemma run_loop_features (grid_points : list (Q * Q)) :
  wind_features (run grid_points)
  = flat_map emitted' (enumerate (firstn 100 grid_points)).
Proof.
  unfold run_loop. rewrite fold_loop_body_features. reflexivity.
Qed.

(** The points of the features, over a stretch of the enumeration, are
    among the points of the fetches, in the same order. *)
Lemma emitted_points_subsequence (l : list (Q * Q)) :
  forall i,
    subsequence
      (map feature_point (flat_map emitted' (combine (seq i (List.length l)) l)))
      (every_fifth i l).
Proof.
  induction l as [| [lat lon] rest IH]; intros i;
    cbn [List.length seq combine flat_map every_fifth]; [constructor |].
  rewrite map_app. unfold emitted at 1.
  destruct (i mod 5 =? 0)%nat; [| apply IH].
  destruct (fetch _ _ _ _ _ _ _ _ _) as [wd |];
    [| apply subsequence_skip; apply IH].
  destruct (wd_speed_kt wd); [| apply subsequence_skip; apply IH].
  cbn [map app feature_point coordinates fst snd].
  apply subsequence_take. apply IH.
Qed.

Lemma run_loop_points_subsequence (grid_points : list (Q * Q)) :
  subsequence (map feature_point (wind_features (run grid_points)))
              (dispatched (run grid_points)).
Proof.
  rewrite run_loop_features, run_loop_dispatched.
  apply emitted_points_subsequence.
Qed.

Lemma run_loop_points_of_grid (grid_points : list (Q * Q)) :
  subsequence (map feature_point (wind_features (run grid_points))) grid_points.
Proof.
  eapply subsequence_trans; [apply run_loop_points_subsequence |].
  rewrite run_loop_dispatched.
  eapply subsequence_trans; [apply subsequence_every_fifth |].
  apply subsequence_firstn.
Qed.

Lemma run_loop_features_length (grid_points : list (Q * Q)) :
  (List.length (wind_features (run grid_points)) <= 20)%nat.
Proof.
  pose proof (run_loop_points_subsequence grid_points) as Hsub.
  apply subsequence_length in Hsub.
  rewrite length_map, run_loop_dispatched, every_fifth_length in Hsub.
  pose proof (firstn_le_length 100 grid_points). lia.
Qed.

(** When every fetch comes back with a speed, every fetch gives a
    feature. *)
Lemma emitted_points_all (l : list (Q * Q)) :
  forall i,
    (forall k lat lon,
        nth_error l k = Some (lat, lon) -> ((i + k) mod 5 = 0)%nat ->
        has_speed (fetch' (i + k)%nat lat lon)) ->
    map feature_point (flat_map emitted' (combine (seq i (List.length l)) l))
    = every_fifth i l.
Proof.
  induction l as [| [lat lon] rest IH]; intros i Hall;
    cbn [List.length seq combine flat_map every_fifth]; [reflexivity |].
  rewrite map_app.
  assert (Hrest : map feature_point
                    (flat_map emitted' (combine (seq (S i) (List.length rest)) rest))
                  = every_fifth (S i) rest).
  { apply IH. intros k lat' lon' Hk Hmod.
    replace (S i + k)%nat with (i + S k)%nat in * by lia.
    apply Hall; assumption. }
  rewrite Hrest. unfold emitted.
  destruct (i mod 5 =? 0)%nat eqn:Hi; [| reflexivity].
  apply Nat.eqb_eq in Hi.
  destruct (Hall 0%nat lat lon eq_refl) as (wd & kt & Hf & Hkt);
    [rewrite Nat.add_0_r; exact Hi |].
  rewrite Nat.add_0_r in Hf. rewrite Hf, Hkt. reflexivity.
Qed.

End RunFacts.

Lemma StronglySorted_map (A B : Type) (R : B -> B -> Prop) (f : A -> B)
  (l : list A) :
  StronglySorted R (map f l) -> StronglySorted (fun a b => R (f a) (f b)) l.
Proof.
  induction l as [| a l IH]; intros H; [constructor |].
  cbn [map] in H. apply StronglySorted_inv in H. destruct H as [Hs Ha].
  constructor; [apply IH; exact Hs |].
  rewrite Forall_forall in *. intros b Hb. apply Ha. apply in_map; exact Hb.
Qed.

Lemma create_ocean_grid_region_sorted (cos : Q -> Q) (fuel : nat)
  (pts : list (Q * Q)) :
  create_ocean_grid cos fuel = Some (Ok pts) ->
  Forall in_region pts /\ StronglySorted generated_before pts.
Proof.
  unfold create_ocean_grid; cbv zeta.
  destruct (km_to_deg_lat 10) as [lat_step | ex] eqn:Hk; [| discriminate].
  apply km_to_deg_lat_10 in Hk. intros H.
  exact (lat_loop_rows cos fuel fuel lat_step pts Hk H).
Qed.

Lemma ocean_wind_data_collection (cos : Q -> Q)
  (fromisoformat : string -> option datetime) (int_max_str_digits : nat)
  (format_4f : Q -> string)
  (get_points : string -> result (response points_data))
  (get_grid : string -> result (response grid_data))
  (clock : nat -> Z) (fuel : nat) (fs : list feature) :
  ocean_wind_data cos fromisoformat int_max_str_digits format_4f
    get_points get_grid clock fuel = Some (FeatureCollection fs) ->
  exists pts,
    create_ocean_grid cos fuel = Some (Ok pts) /\
    fs = wind_features (run_loop fromisoformat int_max_str_digits format_4f
                          get_points get_grid clock pts).
Proof.
  unfold ocean_wind_data.
  destruct (create_ocean_grid cos fuel) as [[pts | ex] |]; try discriminate.
  destruct (for_loop _ _ _ _ _ _ _ _) as [st | ex] eqn:E; [| discriminate].
  intros H; inversion H. exists pts; split; [reflexivity |].
  apply for_loop_Ok in E. rewrite E. reflexivity.
Qed.

(** Every fetch of the sample provider gives its speed of 10 m/s in
    knots. *)
Lemma sample_fetch (i : nat) (lat lon : Q) :
  fetch fromisoformat_nws 0 sample_format sample_get_points sample_get_grid
    sample_clock i lat lon
  = Some {| wd_speed_kt := Some (10 * 1.94384); wd_direction := None;
            wd_lat := lat; wd_lon := lon |}.
Proof.
  vm_compute. reflexivity.
Qed.

(** The run of the sample provider over the coarse grid returns a
    collection that holds the feature of the south-west corner. *)
Lemma coarse_run_returns :
  exists fs,
    ocean_wind_data coarse_cos fromisoformat_nws 0 sample_format
      sample_get_points sample_get_grid sample_clock 300
    = Some (FeatureCollection fs) /\
    In corner_feature fs.
Proof.
  destruct coarse_grid_returns as [pts H].
  eexists. split.
  - apply (ocean_wind_data_returns coarse_cos fromisoformat_nws 0 sample_format
             sample_get_points sample_get_grid sample_clock 300 pts H).
    intros i lat lon wd kt _ _ Hf Hkt.
    rewrite sample_fetch in Hf. inversion Hf; subst wd.
    cbn [wd_speed_kt] in Hkt. inversion Hkt. vm_compute. reflexivity.
  - destruct (create_ocean_grid_head coarse_cos 300 pts H) as [rest ->].
    rewrite run_loop_features. unfold enumerate.
    cbn [firstn List.length seq combine flat_map].
    apply in_or_app. left. vm_compute. left; reflexivity.
Qed.

(** The integer [2^1024] as the speed of the first fetch: the product of
    the first feature raises, and the endpoint answers with the error
    document. *)
Lemma huge_run_raises :
  ocean_wind_data coarse_cos fromisoformat_nws 0 sample_format
    sample_get_points huge_get_grid sample_clock 300
  = Some (Error500 OverflowError).
Proof.
  destruct coarse_grid_returns as [pts H].
  destruct (create_ocean_grid_head coarse_cos 300 pts H) as [rest ->].
  unfold ocean_wind_data. rewrite H. unfold enumerate.
  cbn [firstn List.length seq combine for_loop].
  assert (E : loop_step fromisoformat_nws 0 sample_format sample_get_points
                huge_get_grid sample_clock
                {| wind_features := []; dispatched := [] |}
                (0%nat, (24.0, -82.0))
              = Raise OverflowError)
    by (vm_compute; reflexivity).
  rewrite E. reflexivity.
Qed.

(** ** Further properties of the aggregation run *)

(** X13.  The features of a run are made for points that were fetched, at
    most one for a fetch and in the order of the fetches; the coordinates
    of a feature are the longitude and the latitude of its point, in this
    order.  A run therefore returns at most 20 features. *)
Theorem run_loop_features_follow_fetches
  (fromisoformat : string -> option datetime) (int_max_str_digits : nat)
  (format_4f : Q -> string)
  (get_points : string -> result (response points_data))
  (get_grid : string -> result (response grid_data))
  (clock : nat -> Z) (grid_points : list (Q * Q)) :
  let st := run_loop fromisoformat int_max_str_digits format_4f
              get_points get_grid clock grid_points in
  subsequence
    (map (fun f => (snd (coordinates f), fst (coordinates f))) (wind_features st))
    (dispatched st) /\
  (List.length (wind_features st) <= 20)%nat.
Proof.
  cbv zeta.
  pose proof (run_loop_points_subsequence fromisoformat int_max_str_digits
                format_4f get_points get_grid clock grid_points) as Hsub.
  split; [exact Hsub |].
  apply subsequence_length in Hsub.
  rewrite length_map, run_loop_dispatched, every_fifth_length in Hsub.
  pose proof (firstn_le_length 100 grid_points). lia.
Qed.

(** X14.  When every fetch of a run comes back with a speed that [float]
    can hold, the loop of the endpoint returns with one feature for every
    fetch: the points of the features are the fetched points, every fifth
    of the first 100 grid points, in the order of the fetches. *)
Theorem for_loop_all_fetches_succeed
  (fromisoformat : string -> option datetime) (int_max_str_digits : nat)
  (format_4f : Q -> string)
  (get_points : string -> result (response points_data))
  (get_grid : string -> result (response grid_data))
  (clock : nat -> Z) (grid_points : list (Q * Q)) :
  (forall i lat lon,
      nth_error (firstn 100 grid_points) i = Some (lat, lon) ->
      (i mod 5 = 0)%nat ->
      has_float_speed (fetch fromisoformat int_max_str_digits format_4f
                         get_points get_grid clock i lat lon)) ->
  exists st,
    for_loop fromisoformat int_max_str_digits format_4f get_points get_grid
      clock (enumerate (firstn 100 grid_points))
      {| wind_features := []; dispatched := [] |} = Ok st /\
    map (fun f => (snd (coordinates f), fst (coordinates f))) (wind_features st)
    = dispatched st /\
    dispatched st = every_fifth 0 (firstn 100 grid_points) /\
    List.length (wind_features st) = List.length (dispatched st).
Proof.
  intros Hall.
  exists (run_loop fromisoformat int_max_str_digits format_4f
            get_points get_grid clock grid_points).
  assert (E : map feature_point
                (wind_features (run_loop fromisoformat int_max_str_digits
                                  format_4f get_points get_grid clock grid_points))
              = dispatched (run_loop fromisoformat int_max_str_digits
                              format_4f get_points get_grid clock grid_points)).
  { rewrite run_loop_features, run_loop_dispatched. unfold enumerate.
    apply emitted_points_all. intros k lat lon Hk Hmod.
    destruct (Hall k lat lon Hk Hmod) as (wd & kt & Hf & Hkt & _).
    exists wd, kt. split; assumption. }
  split; [| split; [exact E | split]].
  - unfold run_loop. apply for_loop_returns.
    intros i lat lon wd kt Hin Hi Hf Hkt. apply in_enumerate in Hin.
    destruct (Hall i lat lon Hin Hi) as (wd' & kt' & Hf' & Hkt' & Hfit).
    congruence.
  - apply run_loop_dispatched.
  - rewrite <- E, length_map. reflexivity.
Qed.

Lemma for_loop_all_fetches_succeed_witness :
  exists st,
    for_loop fromisoformat_nws 0 sample_format sample_get_points
      sample_get_grid sample_clock
      (enumerate (firstn 100 [(24.0, -82.0); (24.0, -81.0); (25.0, -82.0)]))
      {| wind_features := []; dispatched := [] |} = Ok st /\
    map (fun f => (snd (coordinates f), fst (coordinates f))) (wind_features st)
    = dispatched st /\
    dispatched st
    = every_fifth 0 (firstn 100 [(24.0, -82.0); (24.0, -81.0); (25.0, -82.0)]) /\
    List.length (wind_features st) = List.length (dispatched st).
Proof.
  apply (for_loop_all_fetches_succeed fromisoformat_nws 0 sample_format
           sample_get_points sample_get_grid sample_clock
           [(24.0, -82.0); (24.0, -81.0); (25.0, -82.0)]).
  intros i lat lon _ _.
  exists {| wd_speed_kt := Some (10 * 1.94384); wd_direction := None;
            wd_lat := lat; wd_lon := lon |}, (10 * 1.94384).
  split; [vm_compute; reflexivity |].
  split; [reflexivity | vm_compute; reflexivity].
Defined.

(** X15.  Every feature the endpoint returns lies on the grid: its point is
    a lattice point of the generator, inside the bounding region and
    accepted by the inclusion test. *)
Theorem ocean_wind_data_features_on_grid (cos : Q -> Q)
  (fromisoformat : string -> option datetime) (int_max_str_digits : nat)
  (format_4f : Q -> string)
  (get_points : string -> result (response points_data))
  (get_grid : string -> result (response grid_data))
  (clock : nat -> Z) (fuel : nat) (fs : list feature) :
  ocean_wind_data cos fromisoformat int_max_str_digits format_4f
    get_points get_grid clock fuel = Some (FeatureCollection fs) ->
  forall f lon lat,
    In f fs -> coordinates f = (lon, lat) ->
    (24.0 <= lat <= 45.0 /\ -82.0 <= lon <= -65.0) /\
    (lon < -75.0 \/ (35.0 < lat /\ lon < -70.0)) /\
    exists k j, grid_position cos k j (lat, lon).
Proof.
  intros H f lon lat Hin Hc.
  apply ocean_wind_data_collection in H. destruct H as (pts & Hgrid & ->).
  assert (Hp : In (lat, lon) pts).
  { eapply subsequence_In; [apply run_loop_points_of_grid |].
    apply in_map_iff. exists f. split; [| exact Hin].
    unfold feature_point. rewrite Hc. reflexivity. }
  destruct (create_ocean_grid_region_sorted cos fuel pts Hgrid) as [Hreg _].
  rewrite Forall_forall in Hreg. specialize (Hreg _ Hp).
  pose proof (proj1 (create_ocean_grid_exact cos fuel pts Hgrid _) Hp) as Hpos.
  split; [exact Hreg |]. split; [| exact Hpos].
  destruct Hpos as (k & j & lon_step & _ & _ & _ & Ho & Hpq).
  inversion Hpq; subst. apply ocean_iff in Ho. exact Ho.
Qed.

Lemma ocean_wind_data_features_on_grid_witness :
  (24.0 <= 24.0 <= 45.0 /\ -82.0 <= -82.0 <= -65.0) /\
  (-82.0 < -75.0 \/ (35.0 < 24.0 /\ -82.0 < -70.0)) /\
  exists k j, grid_position coarse_cos k j (24.0, -82.0).
Proof.
  destruct coarse_run_returns as (fs & H & Hin).
  exact (ocean_wind_data_features_on_grid coarse_cos fromisoformat_nws 0
           sample_format sample_get_points sample_get_grid sample_clock
           300 fs H corner_feature (-82.0) 24.0 Hin eq_refl).
Defined.

(** X16.  The features the endpoint returns are in the generation order of
    their points, south to north and west to east in a row, and no two of
    them have the same coordinates. *)
Theorem ocean_wind_data_features_distinct (cos : Q -> Q)
  (fromisoformat : string -> option datetime) (int_max_str_digits : nat)
  (format_4f : Q -> string)
  (get_points : string -> result (response points_data))
  (get_grid : string -> result (response grid_data))
  (clock : nat -> Z) (fuel : nat) (fs : list feature) :
  ocean_wind_data cos fromisoformat int_max_str_digits format_4f
    get_points get_grid clock fuel = Some (FeatureCollection fs) ->
  StronglySorted
    (fun f g => generated_before (feature_point f) (feature_point g)) fs /\
  NoDupA (fun f g => same_coordinate (feature_point f) (feature_point g)) fs.
Proof.
  intros H.
  apply ocean_wind_data_collection in H. destruct H as (pts & Hgrid & ->).
  destruct (create_ocean_grid_region_sorted cos fuel pts Hgrid) as [_ Hsorted].
  assert (Hs : StronglySorted
                 (fun f g => generated_before (feature_point f) (feature_point g))
                 (wind_features (run_loop fromisoformat int_max_str_digits
                                   format_4f get_points get_grid clock pts))).
  { apply StronglySorted_map.
    eapply subsequence_StronglySorted; [apply run_loop_points_of_grid |].
    exact Hsorted. }
  split; [exact Hs |].
  induction Hs as [| f l Hl IH Hf]; constructor; [| exact IH].
  intros Hin. apply InA_alt in Hin. destruct Hin as (g & Hfg & Hg).
  rewrite Forall_forall in Hf.
  exact (generated_before_not_same _ _ (Hf g Hg) Hfg).
Qed.

Lemma ocean_wind_data_features_distinct_witness :
  exists fs,
    In corner_feature fs /\
    StronglySorted
      (fun f g => generated_before (feature_point f) (feature_point g)) fs /\
    NoDupA (fun f g => same_coordinate (feature_point f) (feature_point g)) fs.
Proof.
  destruct coarse_run_returns as (fs & H & Hin).
  exists fs. split; [exact Hin |].
  exact (ocean_wind_data_features_distinct coarse_cos fromisoformat_nws 0
           sample_format sample_get_points sample_get_grid sample_clock
           300 fs H).
Defined.

(** X17.  Under a cosine that is positive at the latitudes of the region,
    from 24 to 45 degrees, the endpoint answers whatever the provider and
    the clock do: with a feature collection of at most 20 features, or
    with the error document for the exception of the product on a speed
    that one of its fetches returned.  It answers with the collection when
    no fetch returns a speed beyond the range of [float]. *)
Theorem ocean_wind_data_answers (cos : Q -> Q)
  (fromisoformat : string -> option datetime) (int_max_str_digits : nat)
  (format_4f : Q -> string)
  (get_points : string -> result (response points_data))
  (get_grid : string -> result (response grid_data))
  (clock : nat -> Z) :
  let run := ocean_wind_data cos fromisoformat int_max_str_digits format_4f
               get_points get_grid clock in
  let fetch_point := fetch fromisoformat int_max_str_digits format_4f
                       get_points get_grid clock in
  (forall lat, 24.0 <= lat <= 45.0 -> 0 < cos (radians lat)) ->
  exists fuel grid_points,
    create_ocean_grid cos fuel = Some (Ok grid_points) /\
    (exists reply,
        run fuel = Some reply /\
        match reply with
        | FeatureCollection fs => (List.length fs <= 20)%nat
        | Error500 ex =>
            exists i lat lon wd kt,
              nth_error (firstn 100 grid_points) i = Some (lat, lon) /\
              (i mod 5 = 0)%nat /\
              fetch_point i lat lon = Some wd /\
              wd_speed_kt wd = Some kt /\
              py_mul_float kt 1.15078 = Raise ex
        end) /\
    ((forall i lat lon wd kt,
         nth_error (firstn 100 grid_points) i = Some (lat, lon) ->
         (i mod 5 = 0)%nat ->
         fetch_point i lat lon = Some wd ->
         wd_speed_kt wd = Some kt ->
         beyond_float kt = false) ->
     exists fs,
       run fuel = Some (FeatureCollection fs) /\ (List.length fs <= 20)%nat).
Proof.
  cbv zeta. intros Hpos.
  destruct (create_ocean_grid_returns_in_region cos Hpos) as (fuel & pts & H).
  exists fuel, pts. split; [exact H |]. split.
  - unfold ocean_wind_data. rewrite H.
    destruct (for_loop _ _ _ _ _ _ _ _) as [st | ex] eqn:E.
    + eexists. split; [reflexivity |].
      apply for_loop_Ok in E. subst st.
      apply (run_loop_features_length fromisoformat int_max_str_digits
               format_4f get_points get_grid clock pts).
    + eexists. split; [reflexivity |].
      apply for_loop_Raise in E.
      destruct E as (i & lat & lon & wd & kt & Hin & Hrest).
      apply in_enumerate in Hin.
      exists i, lat, lon, wd, kt. split; [exact Hin | exact Hrest].
  - intros Hfit. eexists. split.
    + exact (ocean_wind_data_returns cos fromisoformat int_max_str_digits
               format_4f get_points get_grid clock fuel pts H Hfit).
    + apply run_loop_features_length.
Qed.

Lemma ocean_wind_data_answers_witness :
  exists fuel grid_points,
    create_ocean_grid coarse_cos fuel = Some (Ok grid_points) /\
    (exists reply,
        ocean_wind_data coarse_cos fromisoformat_nws 0 sample_format
          sample_get_points huge_get_grid sample_clock fuel = Some reply /\
        match reply with
        | FeatureCollection fs => (List.length fs <= 20)%nat
        | Error500 ex =>
            exists i lat lon wd kt,
              nth_error (firstn 100 grid_points) i = Some (lat, lon) /\
              (i mod 5 = 0)%nat /\
              fetch fromisoformat_nws 0 sample_format sample_get_points
                huge_get_grid sample_clock i lat lon = Some wd /\
              wd_speed_kt wd = Some kt /\
              py_mul_float kt 1.15078 = Raise ex
        end) /\
    ((forall i lat lon wd kt,
         nth_error (firstn 100 grid_points) i = Some (lat, lon) ->
         (i mod 5 = 0)%nat ->
         fetch fromisoformat_nws 0 sample_format sample_get_points
           huge_get_grid sample_clock i lat lon = Some wd ->
         wd_speed_kt wd = Some kt ->
         beyond_float kt = false) ->
     exists fs,
       ocean_wind_data coarse_cos fromisoformat_nws 0 sample_format
         sample_get_points huge_get_grid sample_clock fuel
       = Some (FeatureCollection fs) /\
       (List.length fs <= 20)%nat).
Proof.
  apply (ocean_wind_data_answers coarse_cos fromisoformat_nws 0 sample_format
           sample_get_points huge_get_grid sample_clock).
  intros lat _. reflexivity.
Defined.

(** ** Further properties of [get_wind_data] *)

Section FetchFacts.

Variable fromisoformat : string -> option datetime.
Variable int_max_str_digits : nat.
Variable format_4f : Q -> string.
Variable get_points : string -> result (response points_data).
Variable get_grid : string -> result (response grid_data).

Local Abbreviation fetch_body :=
  (get_wind_data_body fromisoformat int_max_str_digits format_4f
     get_points get_grid).
Local Abbreviation find_value :=
  (find_current_value fromisoformat int_max_str_digits).

(** The body of the fetch once both requests have delivered their
    documents. *)
Lemma get_wind_data_body_documents (t : Z) (lat lon : Q)
  (r : response points_data) (d : points_data) (grid_url : string)
  (g : response grid_data) (gd : grid_data) (props : properties) :
  get_points (points_url format_4f lat lon) = Ok r ->
  status_code r = 200%Z -> json r = Ok d ->
  forecastGridData d = Some grid_url ->
  get_grid grid_url = Ok g ->
  status_code g = 200%Z -> json g = Ok gd ->
  grid_properties gd = Some props ->
  fetch_body t lat lon =
  (wind_speed_value <-
     find_value (utc_now t) (get_values (get_series (windSpeed props))) ;;
   wind_direction <-
     find_value (utc_now t) (get_values (get_series (windDirection props))) ;;
   Ok (Some {| wd_speed_kt :=
                 to_knots wind_speed_value (uom (get_series (windSpeed props)));
               wd_direction := wind_direction;
               wd_lat := lat;
               wd_lon := lon |})).
Proof.
  intros Hp Hs Hj Hu Hg Hgs Hgj Hprops.
  unfold get_wind_data_body. fold (points_url format_4f lat lon).
  rewrite Hp. cbn [bind]. rewrite Hs. cbn [Z.eqb Pos.eqb negb].
  rewrite Hj. cbn [bind]. rewrite Hu. cbn [getitem bind].
  rewrite Hg. cbn [bind]. rewrite Hgs. cbn [Z.eqb Pos.eqb negb].
  rewrite Hgj. cbn [bind]. rewrite Hprops. cbn [getitem bind].
  reflexivity.
Qed.

Lemma find_raises_in (t : Z) (entries : list item) :
  raises_in fromisoformat int_max_str_digits t entries ->
  exists ex, find_value (utc_now t) entries = Raise ex.
Proof.
  intros (pre & entry & post & -> & Hpre & Hp & Hc).
  rewrite find_passes_over_all by exact Hpre.
  apply find_raises; assumption.
Qed.

End FetchFacts.



(** X19.  A fetch gives [None] at each of its exits: when a request
    raises, when a status is not 200, when a body is not the expected
    JSON, and when the grid link or the properties are missing from it. *)
Theorem get_wind_data_failures
  (fromisoformat : string -> option datetime) (int_max_str_digits : nat)
  (format_4f : Q -> string)
  (get_points : string -> result (response points_data))
  (get_grid : string -> result (response grid_data))
  (t : Z) (lat lon : Q) :
  let fetched := get_wind_data fromisoformat int_max_str_digits format_4f
                   get_points get_grid t lat lon in
  let first := get_points (NWS_BASE ++ "/points/" ++ format_4f lat ++ ","
                           ++ format_4f lon)%string in
  (forall ex, first = Raise ex -> fetched = None) /\
  (forall r, first = Ok r -> status_code r <> 200%Z -> fetched = None) /\
  (forall r ex, first = Ok r -> json r = Raise ex -> fetched = None) /\
  (forall r d,
      first = Ok r -> json r = Ok d -> forecastGridData d = None ->
      fetched = None) /\
  (forall r d grid_url,
      first = Ok r -> status_code r = 200%Z -> json r = Ok d ->
      forecastGridData d = Some grid_url ->
      (forall ex, get_grid grid_url = Raise ex -> fetched = None) /\
      (forall g, get_grid grid_url = Ok g -> status_code g <> 200%Z ->
                 fetched = None) /\
      (forall g ex, get_grid grid_url = Ok g -> json g = Raise ex ->
                    fetched = None) /\
      (forall g gd, get_grid grid_url = Ok g -> json g = Ok gd ->
                    grid_properties gd = None -> fetched = None)).
Proof.
  cbv zeta. unfold get_wind_data, get_wind_data_body.
  repeat split.
  - intros ex H; rewrite H; reflexivity.
  - intros r H Hs; rewrite H; cbn [bind].
    apply Z.eqb_neq in Hs. rewrite Hs. reflexivity.
  - intros r ex H Hj; rewrite H; cbn [bind].
    destruct (status_code r =? 200)%Z; [| reflexivity].
    cbn [negb]. rewrite Hj. reflexivity.
  - intros r d H Hj Hu; rewrite H; cbn [bind].
    destruct (status_code r =? 200)%Z; [| reflexivity].
    cbn [negb]. rewrite Hj; cbn [bind]. rewrite Hu. reflexivity.
  - intros ex Hg. rewrite H; cbn [bind]. rewrite H0; cbn [Z.eqb Pos.eqb negb].
    rewrite H1; cbn [bind]. rewrite H2; cbn [getitem bind].
    rewrite Hg. reflexivity.
  - intros g Hg Hs. rewrite H; cbn [bind]. rewrite H0; cbn [Z.eqb Pos.eqb negb].
    rewrite H1; cbn [bind]. rewrite H2; cbn [getitem bind].
    rewrite Hg; cbn [bind]. apply Z.eqb_neq in Hs. rewrite Hs. reflexivity.
  - intros g ex Hg Hj. rewrite H; cbn [bind]. rewrite H0; cbn [Z.eqb Pos.eqb negb].
    rewrite H1; cbn [bind]. rewrite H2; cbn [getitem bind].
    rewrite Hg; cbn [bind].
    destruct (status_code g =? 200)%Z; [| reflexivity].
    cbn [negb]. rewrite Hj. reflexivity.
  - intros g gd Hg Hj Hp. rewrite H; cbn [bind]. rewrite H0; cbn [Z.eqb Pos.eqb negb].
    rewrite H1; cbn [bind]. rewrite H2; cbn [getitem bind].
    rewrite Hg; cbn [bind].
    destruct (status_code g =? 200)%Z; [| reflexivity].
    cbn [negb]. rewrite Hj; cbn [bind]. rewrite Hp. reflexivity.
Qed.

Lemma get_wind_data_failures_witness :
  get_wind_data fromisoformat_nws 0 sample_format failing_get_points
    sample_get_grid NEW_YEAR_2024 35.0 (-75.0) = None /\
  get_wind_data fromisoformat_nws 0 sample_format not_found_get_points
    sample_get_grid NEW_YEAR_2024 35.0 (-75.0) = None.
Proof.
  split.
  - destruct (get_wind_data_failures fromisoformat_nws 0 sample_format
                failing_get_points sample_get_grid NEW_YEAR_2024 35.0 (-75.0))
      as (H & _).
    apply (H RequestException). reflexivity.
  - destruct (get_wind_data_failures fromisoformat_nws 0 sample_format
                not_found_get_points sample_get_grid NEW_YEAR_2024 35.0 (-75.0))
      as (_ & H & _).
    apply (H {| status_code := 404; json := Raise ValueError |}).
    + reflexivity.
    + discriminate.
Defined.

(** X20.  An exception in either series costs the whole point: when both
    requests deliver their documents and the scan of the speed series or
    of the direction series meets an entry that raises, the fetch gives
    [None], also when the other series has a current value. *)
Theorem get_wind_data_series_exception
  (fromisoformat : string -> option datetime) (int_max_str_digits : nat)
  (format_4f : Q -> string)
  (get_points : string -> result (response points_data))
  (get_grid : string -> result (response grid_data))
  (t : Z) (lat lon : Q) (grid_url : string) (props : properties) :
  let speeds := get_values (get_series (windSpeed props)) in
  let directions := get_values (get_series (windDirection props)) in
  get_points (NWS_BASE ++ "/points/" ++ format_4f lat ++ "," ++ format_4f lon)%string
    = Ok {| status_code := 200;
            json := Ok {| forecastGridData := Some grid_url |} |} ->
  get_grid grid_url
    = Ok {| status_code := 200;
            json := Ok {| grid_properties := Some props |} |} ->
  raises_in fromisoformat int_max_str_digits t speeds \/
  (scans_cleanly fromisoformat int_max_str_digits t speeds /\
   raises_in fromisoformat int_max_str_digits t directions) ->
  get_wind_data fromisoformat int_max_str_digits format_4f get_points get_grid
    t lat lon = None.
Proof.
  cbv zeta. intros Hp Hg Hr.
  unfold get_wind_data.
  rewrite (get_wind_data_body_documents fromisoformat int_max_str_digits
             format_4f get_points get_grid t lat lon _ _ grid_url _ _ props
             Hp eq_refl eq_refl eq_refl Hg eq_refl eq_refl eq_refl).
  destruct Hr as [Hs | [Hs Hd]].
  - apply find_raises_in in Hs. destruct Hs as [ex ->]. reflexivity.
  - rewrite (find_refines_select _ _ _ _ Hs). cbn [bind].
    apply find_raises_in in Hd. destruct Hd as [ex ->]. reflexivity.
Qed.

Lemma get_wind_data_series_exception_witness :
  get_wind_data fromisoformat_nws 0 sample_format sample_get_points
    naive_direction_get_grid NEW_YEAR_2024 35.0 (-75.0) = None.
Proof.
  apply (get_wind_data_series_exception fromisoformat_nws 0 sample_format
           sample_get_points naive_direction_get_grid NEW_YEAR_2024
           35.0 (-75.0) "https://api.weather.gov/gridpoints/AKQ/90,50"
           naive_direction_properties).
  - reflexivity.
  - reflexivity.
  - right. split; [reflexivity |].
    exists [], entry_naive, []. repeat split; reflexivity.
Defined.

(** ** The size of the grid and of a run *)




Section GridSize.

Variable cos : Q -> Q.




End GridSize.



(** ** Where the data of a feature comes from *)

(** A fetch that returns data went through both requests. *)
Lemma get_wind_data_Some_inv
  (fromisoformat : string -> option datetime) (int_max_str_digits : nat)
  (format_4f : Q -> string)
  (get_points : string -> result (response points_data))
  (get_grid : string -> result (response grid_data))
  (t : Z) (lat lon : Q) (wd : wind_data) :
  get_wind_data fromisoformat int_max_str_digits format_4f get_points get_grid
    t lat lon = Some wd ->
  wd_lat wd = lat /\ wd_lon wd = lon /\
  exists r d grid_url g gd props speed,
    get_points (points_url format_4f lat lon) = Ok r /\
    status_code r = 200%Z /\ json r = Ok d /\
    forecastGridData d = Some grid_url /\
    get_grid grid_url = Ok g /\
    status_code g = 200%Z /\ json g = Ok gd /\
    grid_properties gd = Some props /\
    find_current_value fromisoformat int_max_str_digits (utc_now t)
      (get_values (get_series (windSpeed props))) = Ok speed /\
    find_current_value fromisoformat int_max_str_digits (utc_now t)
      (get_values (get_series (windDirection props))) = Ok (wd_direction wd) /\
    wd_speed_kt wd = to_knots speed (uom (get_series (windSpeed props))).
Proof.
  unfold get_wind_data, get_wind_data_body.
  fold (points_url format_4f lat lon).
  destruct (get_points (points_url format_4f lat lon)) as [r | ex] eqn:Hp;
    cbn [bind]; [| discriminate].
  destruct (status_code r =? 200)%Z eqn:Hs; cbn [negb]; [| discriminate].
  apply Z.eqb_eq in Hs.
  destruct (json r) as [d | ex] eqn:Hj; cbn [bind]; [| discriminate].
  destruct (forecastGridData d) as [grid_url |] eqn:Hu; cbn [getitem bind];
    [| discriminate].
  destruct (get_grid grid_url) as [g | ex] eqn:Hg; cbn [bind]; [| discriminate].
  destruct (status_code g =? 200)%Z eqn:Hgs; cbn [negb]; [| discriminate].
  apply Z.eqb_eq in Hgs.
  destruct (json g) as [gd | ex] eqn:Hgj; cbn [bind]; [| discriminate].
  destruct (grid_properties gd) as [props |] eqn:Hprops; cbn [getitem bind];
    [| discriminate].
  destruct (find_current_value fromisoformat int_max_str_digits (utc_now t)
              (get_values (get_series (windSpeed props))))
    as [speed | ex] eqn:Hspeed; cbn [bind]; [| discriminate].
  destruct (find_current_value fromisoformat int_max_str_digits (utc_now t)
              (get_values (get_series (windDirection props))))
    as [direction | ex] eqn:Hdir; cbn [bind]; [| discriminate].
  intros H; inversion H; subst; cbn [wd_lat wd_lon wd_direction wd_speed_kt].
  split; [reflexivity |]. split; [reflexivity |].
  exists r, d, grid_url, g, gd, props, speed.
  repeat split; assumption.
Qed.

(** X22.  A fetch that returns data returns it for the point it was called
    with, and only after both requests answered with status 200 and
    delivered the grid link and the properties; its speed is the current
    value of the speed series converted by the unit of that series, and
    its direction the current value of the direction series. *)
Theorem get_wind_data_returns_after_both_requests
  (fromisoformat : string -> option datetime) (int_max_str_digits : nat)
  (format_4f : Q -> string)
  (get_points : string -> result (response points_data))
  (get_grid : string -> result (response grid_data))
  (t : Z) (lat lon : Q) (wd : wind_data) :
  get_wind_data fromisoformat int_max_str_digits format_4f get_points get_grid
    t lat lon = Some wd ->
  wd_lat wd = lat /\ wd_lon wd = lon /\
  exists r d grid_url g gd props speed,
    get_points (NWS_BASE ++ "/points/" ++ format_4f lat ++ ","
                ++ format_4f lon)%string = Ok r /\
    status_code r = 200%Z /\ json r = Ok d /\
    forecastGridData d = Some grid_url /\
    get_grid grid_url = Ok g /\
    status_code g = 200%Z /\ json g = Ok gd /\
    grid_properties gd = Some props /\
    find_current_value fromisoformat int_max_str_digits (utc_now t)
      (get_values (get_series (windSpeed props))) = Ok speed /\
    find_current_value fromisoformat int_max_str_digits (utc_now t)
      (get_values (get_series (windDirection props))) = Ok (wd_direction wd) /\
    wd_speed_kt wd = to_knots speed (uom (get_series (windSpeed props))).
Proof.
  exact (get_wind_data_Some_inv fromisoformat int_max_str_digits format_4f
           get_points get_grid t lat lon wd).
Qed.

Lemma get_wind_data_returns_after_both_requests_witness :
  let wd := {| wd_speed_kt := Some (10 * 1.94384); wd_direction := None;
               wd_lat := 35.0; wd_lon := -75.0 |} in
  wd_lat wd = 35.0 /\ wd_lon wd = -75.0 /\
  exists r d grid_url g gd props speed,
    sample_get_points (NWS_BASE ++ "/points/" ++ sample_format 35.0 ++ ","
                       ++ sample_format (-75.0))%string = Ok r /\
    status_code r = 200%Z /\ json r = Ok d /\
    forecastGridData d = Some grid_url /\
    sample_get_grid grid_url = Ok g /\
    status_code g = 200%Z /\ json g = Ok gd /\
    grid_properties gd = Some props /\
    find_current_value fromisoformat_nws 0 (utc_now NEW_YEAR_2024)
      (get_values (get_series (windSpeed props))) = Ok speed /\
    find_current_value fromisoformat_nws 0 (utc_now NEW_YEAR_2024)
      (get_values (get_series (windDirection props))) = Ok (wd_direction wd) /\
    wd_speed_kt wd = to_knots speed (uom (get_series (windSpeed props))).
Proof.
  apply (get_wind_data_returns_after_both_requests fromisoformat_nws 0
           sample_format sample_get_points sample_get_grid NEW_YEAR_2024
           35.0 (-75.0)).
  vm_compute. reflexivity.
Defined.

(** X23.  Every feature of a run reports the fetch of its own point: there
    is an index below 100, a multiple of 5, at which the grid holds the
    point of the feature, and the fetch made for that index and point
    returned the speed and the direction the feature carries. *)
Theorem run_loop_feature_provenance
  (fromisoformat : string -> option datetime) (int_max_str_digits : nat)
  (format_4f : Q -> string)
  (get_points : string -> result (response points_data))
  (get_grid : string -> result (response grid_data))
  (clock : nat -> Z) (grid_points : list (Q * Q)) (f : feature) :
  In f (wind_features (run_loop fromisoformat int_max_str_digits format_4f
                         get_points get_grid clock grid_points)) ->
  exists i lat lon wd,
    (i < 100)%nat /\ (i mod 5 = 0)%nat /\
    nth_error grid_points i = Some (lat, lon) /\
    fetch fromisoformat int_max_str_digits format_4f get_points get_grid
      clock i lat lon = Some wd /\
    wd_lat wd = lat /\ wd_lon wd = lon /\
    coordinates f = (lon, lat) /\
    speed_kt f = wd_speed_kt wd /\
    dir_from_deg f = wd_direction wd.
Proof.
  rewrite run_loop_features. intros Hin.
  apply in_flat_map in Hin. destruct Hin as ([i [lat lon]] & Hentry & Hf).
  apply in_enumerate in Hentry.
  rewrite nth_error_firstn in Hentry.
  destruct (i <? 100)%nat eqn:Hi; [| discriminate].
  apply Nat.ltb_lt in Hi.
  unfold emitted in Hf.
  destruct (i mod 5 =? 0)%nat eqn:Hmod; [| contradiction].
  apply Nat.eqb_eq in Hmod.
  destruct (fetch fromisoformat int_max_str_digits format_4f get_points
              get_grid clock i lat lon) as [wd |] eqn:Hfetch; [| contradiction].
  destruct (wd_speed_kt wd) as [kt |] eqn:Hkt; [| contradiction].
  destruct Hf as [<- | []].
  destruct (get_wind_data_Some_inv _ _ _ _ _ _ _ _ _ Hfetch) as (Hlat & Hlon & _).
  exists i, lat, lon, wd. cbn [coordinates speed_kt dir_from_deg].
  repeat split; try assumption; try reflexivity.
  symmetry; exact Hkt.
Qed.

Lemma run_loop_feature_provenance_witness :
  exists i lat lon wd,
    (i < 100)%nat /\ (i mod 5 = 0)%nat /\
    nth_error [(35.0, -75.0)] i = Some (lat, lon) /\
    fetch fromisoformat_nws 0 sample_format sample_get_points sample_get_grid
      sample_clock i lat lon = Some wd /\
    wd_lat wd = lat /\ wd_lon wd = lon /\
    (-75.0, 35.0) = (lon, lat) /\
    Some (10 * 1.94384) = wd_speed_kt wd /\
    None = wd_direction wd.
Proof.
  apply (run_loop_feature_provenance fromisoformat_nws 0 sample_format
           sample_get_points sample_get_grid sample_clock [(35.0, -75.0)]
           {| coordinates := (-75.0, 35.0);
              speed_kt := Some (10 * 1.94384);
              dir_from_deg := None;
              speed_mph := 10 * 1.94384 * 1.15078;
              speed_kmh := 10 * 1.94384 * 1.852 |}).
  vm_compute. left; reflexivity.
Defined.
